(** * ray_scalper: the trade execution and position lifecycle engine

    A shallow embedding of [TradingBot] from [swap.py]: the balance verifier
    ([verify_token_balance]), the trade executor ([execute_trade]) and the
    position monitor ([monitor_token]).

    Conventions of the embedding.
    - Python [int] is [Z]; [Decimal] values and [time.time()] readings are
      rationals [Q] (exact arithmetic: the 28-digit context rounding of
      [Decimal] and the rounding of floats are not modelled).
    - The bot's fields live in the record [TradingBot]; everything outside the
      process (clock, RPC node, swap gateway, price API) is the record
      [World], a script of the replies the next calls will receive.
    - Every coroutine is a function in the monad [M]: it threads the bot and
      the world and returns the list of effects it performed, in order.
    - [get_token_account_info], [get_sol_balance] and [get_token_price] catch
      their own exceptions; they are modelled at their interface, by the
      value they return.  The module [Rpc] has the first two again, reply by
      reply of the RPC node.
    - The module [Listener] has the callers of the engine in [main.py]:
      [predict_upward_movement] and the loop [listen_for_events], which
      starts the monitors. *)

From Stdlib Require Import ZArith QArith List String Bool Lia.
Import ListNotations.

Local Open Scope string_scope.
Local Open Scope list_scope.
Local Open Scope Z_scope.

(** ** Data *)

Inductive TradeAction : Type := BUY | SELL.

(** The dict returned by [get_token_account_info]. *)
Record token_info : Type := mk_token_info {
  raw_amount : Z;
  decimals : Z;
  ui_amount : Q
}.

(** The query parameters of the swap gateway request ([amount] and
    [priorityMicroLamports] travel string-encoded). *)
Record swap_params : Type := mk_swap_params {
  fromMint : string;
  toMint : string;
  amount : Z;
  slippage : Z;
  priorityMicroLamports : Z;
  owner : string;
  provider : string
}.

(** What [session.get(self.swap_url, ...)] and the handling of its reply can
    do: raise [aiohttp.ClientError] / [asyncio.TimeoutError], raise any other
    exception (undecodable JSON, bad base64, missing key), answer with a
    falsy ["success"], or deliver a transaction. *)
Inductive swap_reply : Type :=
| SwapNetworkError
| SwapException
| SwapRejected (message : string)
| SwapTransaction (tx : string).

(** What the [sendTransaction] call can do; [SendRpcError] carries
    [result['error'].get('message', '')]. *)
Inductive send_reply : Type :=
| SendNetworkError
| SendException
| SendRpcError (message : string)
| SendAccepted.

Inductive ExitReason : Type :=
| ProfitTarget (profit_pct : Q)
| HoldTimeout.

Inductive level : Type := INFO | WARNING | ERROR.

Inductive log_msg : Type :=
| LogZeroBalance
| LogCooldown (remaining : Q)
| LogInsufficientSol
| LogVerifyFailed
| LogNoBalance
| LogSwapApiError (message : string)
| LogTransientRetry (attempt : Z)
| LogTxFailed (message : string)
| LogBuyPriceFailed
| LogBought (token : string) (price : Q)
| LogSold (token : string) (profit : Q)
| LogNetworkRetry (attempt : Z)
| LogNetworkFailure
| LogTradeFailed
| LogExitTriggered (reason : ExitReason)
| LogVerifyRetryFailed
| LogLostBalance
| LogRetryingSell (multiplier : Q) (slippage_bps : Z) (retry_count : Z)
| LogMonitoringError.

(** The effects of a run.  [EvCall] is a ghost event: it marks the entry into
    [execute_trade] and records the arguments of the call. *)
Inductive event : Type :=
| EvCall (token : string) (action : TradeAction)
         (priority_multiplier : Q) (slippage_bps : Z)
| EvAcquire
| EvRelease
| EvSleep (seconds : Q)
| EvAccountInfo (token : string) (reply : option token_info)
| EvSolBalance (reply : Q)
| EvPrice (token : string) (reply : Q)
| EvSwap (params : swap_params) (reply : swap_reply)
| EvSend (tx : string) (reply : send_reply)
| EvLog (lvl : level) (msg : log_msg).

(** The mutable fields of [TradingBot] that the engine reads or writes,
    with the two configuration strings it puts into requests. *)
Record TradingBot : Type := mk_bot {
  wallet_address : string;
  sol_mint : string;
  current_position : option string;
  position_open_time : option Q;
  buy_price : Q;
  cooldown_end_time : Q;
  trades_executed : Z;
  total_profit : Q
}.

(** The world outside the process.  [clock w n] is what the [n]-th call of
    [time.time()] returns.  The lists hold the replies still to come; a call
    on an exhausted list gets the failure value of its client. *)
Record World : Type := mk_world {
  clock : nat -> Q;
  ticks : nat;
  account_reads : list (option token_info);
  sol_balances : list Q;
  prices : list Q;
  swap_replies : list swap_reply;
  send_replies : list send_reply
}.

(** [__init__]: no position, no cooldown, empty statistics. *)
Definition init_bot (wallet mint : string) : TradingBot :=
  mk_bot wallet mint None None 0%Q 0%Q 0 0%Q.

(** ** The monad of coroutines *)

Record Run (A : Type) : Type := mk_run {
  value : A;
  bot : TradingBot;
  world : World;
  events : list event
}.
Arguments mk_run {A}.
Arguments value {A}.
Arguments bot {A}.
Arguments world {A}.
Arguments events {A}.

Definition M (A : Type) : Type := TradingBot -> World -> Run A.

Definition ret {A : Type} (a : A) : M A :=
  fun b w => mk_run a b w [].

Definition bind {A B : Type} (m : M A) (f : A -> M B) : M B :=
  fun b w =>
    match m b w with
    | mk_run a b1 w1 e1 =>
        match f a b1 w1 with
        | mk_run c b2 w2 e2 => mk_run c b2 w2 (e1 ++ e2)
        end
    end.

Declare Scope bot_scope.
Delimit Scope bot_scope with bot.
Notation "x <- m ;; k" := (bind m (fun x => k))
  (at level 61, m at next level, right associativity) : bot_scope.
Notation "m ;; k" := (bind m (fun _ => k))
  (at level 61, right associativity) : bot_scope.
Local Open Scope bot_scope.

Definition emit (e : event) : M unit :=
  fun b w => mk_run tt b w [e].

Definition log (l : level) (m : log_msg) : M unit := emit (EvLog l m).

Definition sleep (seconds : Q) : M unit := emit (EvSleep seconds).

Definition get_bot : M TradingBot :=
  fun b w => mk_run b b w [].

(** ** Field updates *)

Definition set_current_position (v : option string) (b : TradingBot) :=
  mk_bot (wallet_address b) (sol_mint b) v (position_open_time b)
         (buy_price b) (cooldown_end_time b) (trades_executed b)
         (total_profit b).

Definition set_position_open_time (v : option Q) (b : TradingBot) :=
  mk_bot (wallet_address b) (sol_mint b) (current_position b) v
         (buy_price b) (cooldown_end_time b) (trades_executed b)
         (total_profit b).

Definition set_buy_price (v : Q) (b : TradingBot) :=
  mk_bot (wallet_address b) (sol_mint b) (current_position b)
         (position_open_time b) v (cooldown_end_time b) (trades_executed b)
         (total_profit b).

Definition set_cooldown_end_time (v : Q) (b : TradingBot) :=
  mk_bot (wallet_address b) (sol_mint b) (current_position b)
         (position_open_time b) (buy_price b) v (trades_executed b)
         (total_profit b).

Definition set_trades_executed (v : Z) (b : TradingBot) :=
  mk_bot (wallet_address b) (sol_mint b) (current_position b)
         (position_open_time b) (buy_price b) (cooldown_end_time b) v
         (total_profit b).

Definition set_total_profit (v : Q) (b : TradingBot) :=
  mk_bot (wallet_address b) (sol_mint b) (current_position b)
         (position_open_time b) (buy_price b) (cooldown_end_time b)
         (trades_executed b) v.

Definition modify (f : TradingBot -> TradingBot) : M unit :=
  fun b w => mk_run tt (f b) w [].

(** ** Calls into the world *)

Definition pop {A : Type} (failure : A) (l : list A) : A * list A :=
  match l with
  | [] => (failure, [])
  | x :: rest => (x, rest)
  end.

(** [time.time()] *)
Definition time_time : M Q :=
  fun b w =>
    mk_run (clock w (ticks w)) b
           (mk_world (clock w) (S (ticks w)) (account_reads w)
                     (sol_balances w) (prices w) (swap_replies w)
                     (send_replies w)) [].

(** [get_token_account_info]: the reading, or [None] when the read fails or
    the account does not exist. *)
Definition get_token_account_info (token_address : string)
  : M (option token_info) :=
  fun b w =>
    let '(r, rest) := pop None (account_reads w) in
    mk_run r b
           (mk_world (clock w) (ticks w) rest (sol_balances w) (prices w)
                     (swap_replies w) (send_replies w))
           [EvAccountInfo token_address r].

(** [get_sol_balance]: [Decimal(0)] when the request fails. *)
Definition get_sol_balance : M Q :=
  fun b w =>
    let '(r, rest) := pop 0%Q (sol_balances w) in
    mk_run r b
           (mk_world (clock w) (ticks w) (account_reads w) rest (prices w)
                     (swap_replies w) (send_replies w))
           [EvSolBalance r].

(** [get_token_price]: [Decimal(0)] when the request fails. *)
Definition get_token_price (token_address : string) : M Q :=
  fun b w =>
    let '(r, rest) := pop 0%Q (prices w) in
    mk_run r b
           (mk_world (clock w) (ticks w) (account_reads w) (sol_balances w)
                     rest (swap_replies w) (send_replies w))
           [EvPrice token_address r].

(** [session.get(self.swap_url, params=params, ...)] and the decoding of its
    reply. *)
Definition swap_get (params : swap_params) : M swap_reply :=
  fun b w =>
    let '(r, rest) := pop SwapNetworkError (swap_replies w) in
    mk_run r b
           (mk_world (clock w) (ticks w) (account_reads w) (sol_balances w)
                     (prices w) rest (send_replies w))
           [EvSwap params r].

(** [session.post(self.rpc_url, json={... "sendTransaction" ...})] *)
Definition send_transaction (tx : string) : M send_reply :=
  fun b w =>
    let '(r, rest) := pop SendNetworkError (send_replies w) in
    mk_run r b
           (mk_world (clock w) (ticks w) (account_reads w) (sol_balances w)
                     (prices w) (swap_replies w) rest)
           [EvSend tx r].

(** ** Python helpers *)

(** [range(n)] *)
Definition range (n : Z) : list Z := map Z.of_nat (seq 0 (Z.to_nat n)).

(** [bool(d)] for a [Decimal]: false exactly for zero. *)
Definition truthy (d : Q) : bool := negb (Qnum d =? 0).

(** [d1 < d2] *)
Definition Qlt_bool (x y : Q) : bool := negb (Qle_bool y x).

(** [int(d)]: truncation toward zero. *)
Definition int_of (d : Q) : Z := Z.quot (Qnum d) (Zpos (Qden d)).

(** [needle in hay] on strings. *)
Fixpoint str_in (needle hay : string) : bool :=
  prefix needle hay ||
  match hay with
  | EmptyString => false
  | String _ rest => str_in needle rest
  end.

(** [bool(s)] for [self.current_position]: a non-empty string. *)
Definition position_held (p : option string) : bool :=
  match p with
  | Some s => negb (String.eqb s "")
  | None => false
  end.

(** [self.current_position == token_address] *)
Definition position_is (p : option string) (token_address : string) : bool :=
  match p with
  | Some s => String.eqb s token_address
  | None => false
  end.

(** ** Balance verifier: [verify_token_balance] *)

(** The body of [for _ in range(min_retries)], with the loop variables
    [confirmations] and [last_info]; [n] is the number of rounds left. *)
Fixpoint verify_rounds (n : nat) (token_address : string)
         (confirmations : Z) (last_info : option token_info)
  : M (bool * option token_info) :=
  match n with
  | O => ret (2 <=? confirmations, last_info)
  | S n' =>
      token_info <- get_token_account_info token_address ;;
      match token_info with
      | None =>
          sleep 1.5%Q ;;
          verify_rounds n' token_address confirmations last_info
      | Some info =>
          if raw_amount info <=? 0 then
            log WARNING LogZeroBalance ;;
            ret (false, None)
          else
            let confirmations' :=
              match last_info with
              | Some last =>
                  if raw_amount info =? raw_amount last
                  then confirmations + 1
                  else 0
              | None => 0
              end in
            verify_rounds n' token_address confirmations' (Some info)
      end
  end.

Definition verify_token_balance (token_address : string) (min_retries : Z)
  : M (bool * option token_info) :=
  verify_rounds (Z.to_nat min_retries) token_address 0 None.

(** ** Trade executor: [execute_trade] *)

Definition max_retries : Z := 3.
Definition retry_delay : Q := 0.5%Q.

(** The messages of RPC errors that [execute_trade] treats as transient. *)
Definition transient_messages : list string :=
  ["Blockhash not found"; "Transaction was not confirmed"].

(** [any(msg in error_msg for msg in [...])] *)
Definition is_transient (error_msg : string) : bool :=
  existsb (fun msg => str_in msg error_msg) transient_messages.

(** How the body of one attempt leaves the [try] block: by [return], by
    [continue], or by raising a network error or another exception. *)
Inductive outcome : Type :=
| Return (b : bool)
| Continue
| RaiseNetwork
| RaiseOther.

Definition buy_params (token_address : string) (sol_balance : Q)
           (b : TradingBot) : swap_params :=
  let trade_amount := (sol_balance * 0.1)%Q in
  mk_swap_params (sol_mint b) token_address
                 (int_of (trade_amount * inject_Z (10 ^ 9)))
                 3000
                 (int_of (0.0001 * inject_Z (10 ^ 9)))
                 (wallet_address b) "raydium".

Definition sell_params (token_address : string) (raw : Z)
           (priority_multiplier : Q) (slippage_bps : Z)
           (b : TradingBot) : swap_params :=
  mk_swap_params token_address (sol_mint b) raw slippage_bps
                 (int_of (0.0001 * inject_Z (10 ^ 9) * priority_multiplier))
                 (wallet_address b) "raydium".

(** Lines 200-241: the preconditions of the attempt and the request it will
    send.  [inl r] is [return r]; in the SELL branch the verified reading
    [token_info] stays in scope for the bookkeeping after the swap. *)
Definition prepare (token_address : string) (action : TradeAction)
           (priority_multiplier : Q) (slippage_bps : Z)
  : M (bool + swap_params * option token_info) :=
  match action with
  | BUY =>
      current_time <- time_time ;;
      b <- get_bot ;;
      if Qlt_bool current_time (cooldown_end_time b) then
        log INFO (LogCooldown (cooldown_end_time b - current_time)) ;;
        ret (inl false)
      else
        sol_balance <- get_sol_balance ;;
        if Qlt_bool sol_balance 0.0001 then
          log ERROR LogInsufficientSol ;;
          ret (inl false)
        else
          ret (inr (buy_params token_address sol_balance b, None))
  | SELL =>
      r <- verify_token_balance token_address 3 ;;
      match r with
      | (true, Some info) =>
          if raw_amount info <=? 0 then
            log ERROR LogNoBalance ;;
            ret (inl false)
          else
            b <- get_bot ;;
            ret (inr (sell_params token_address (raw_amount info)
                                  priority_multiplier slippage_bps b,
                      Some info))
      | _ =>
          log ERROR LogVerifyFailed ;;
          ret (inl false)
      end
  end.

(** Lines 285-305: the bookkeeping after an accepted broadcast. *)
Definition settle (token_address : string) (action : TradeAction)
           (token_info : option token_info) : M outcome :=
  match action with
  | BUY =>
      price <- get_token_price token_address ;;
      modify (set_buy_price price) ;;
      if negb (truthy price) then
        log ERROR LogBuyPriceFailed ;;
        ret (Return false)
      else
        modify (set_current_position (Some token_address)) ;;
        opened <- time_time ;;
        modify (set_position_open_time (Some opened)) ;;
        modify (fun b => set_trades_executed (trades_executed b + 1) b) ;;
        log INFO (LogBought token_address price) ;;
        ret (Return true)
  | SELL =>
      sell_price <- get_token_price token_address ;;
      match truthy sell_price, token_info with
      | true, Some info =>
          b <- get_bot ;;
          let profit := ((sell_price - buy_price b) * ui_amount info)%Q in
          modify (set_total_profit (total_profit b + profit)%Q) ;;
          log INFO (LogSold token_address profit)
      | _, _ => ret tt
      end ;;
      modify (set_current_position None) ;;
      modify (set_position_open_time None) ;;
      closed <- time_time ;;
      modify (set_cooldown_end_time (closed + 15)%Q) ;;
      ret (Return true)
  end.

(** Lines 243-283: swap request, signature, broadcast, and the reading of
    the broadcast result. *)
Definition submit (token_address : string) (action : TradeAction)
           (params : swap_params) (token_info : option token_info)
           (attempt : Z) : M outcome :=
  swap_data <- swap_get params ;;
  match swap_data with
  | SwapNetworkError => ret RaiseNetwork
  | SwapException => ret RaiseOther
  | SwapRejected error_msg =>
      log ERROR (LogSwapApiError error_msg) ;;
      ret (Return false)
  | SwapTransaction tx =>
      result <- send_transaction tx ;;
      match result with
      | SendNetworkError => ret RaiseNetwork
      | SendException => ret RaiseOther
      | SendRpcError error_msg =>
          if is_transient error_msg then
            log WARNING (LogTransientRetry attempt) ;;
            sleep (retry_delay * inject_Z (attempt + 1))%Q ;;
            ret Continue
          else
            log ERROR (LogTxFailed error_msg) ;;
            ret (Return false)
      | SendAccepted => settle token_address action token_info
      end
  end.

(** The block under [async with self.semaphore]. *)
Definition attempt_body (token_address : string) (action : TradeAction)
           (priority_multiplier : Q) (slippage_bps : Z) (attempt : Z)
  : M outcome :=
  p <- prepare token_address action priority_multiplier slippage_bps ;;
  match p with
  | inl r => ret (Return r)
  | inr (params, token_info) =>
      submit token_address action params token_info attempt
  end.

(** One round of [for attempt in range(max_retries + 1)], with its [except]
    clauses.  [Some r] is [return r]; [None] goes on to the next round. *)
Definition one_attempt (token_address : string) (action : TradeAction)
           (priority_multiplier : Q) (slippage_bps : Z) (attempt : Z)
  : M (option bool) :=
  emit EvAcquire ;;
  o <- attempt_body token_address action priority_multiplier slippage_bps
                    attempt ;;
  emit EvRelease ;;
  match o with
  | Return r => ret (Some r)
  | Continue => ret None
  | RaiseNetwork =>
      if attempt <? max_retries then
        log WARNING (LogNetworkRetry attempt) ;;
        sleep (retry_delay * inject_Z (attempt + 1))%Q ;;
        ret None
      else
        log ERROR LogNetworkFailure ;;
        ret (Some false)
  | RaiseOther =>
      log ERROR LogTradeFailed ;;
      ret (Some false)
  end.

Fixpoint execute_trade_attempts (attempts : list Z) (token_address : string)
         (action : TradeAction) (priority_multiplier : Q) (slippage_bps : Z)
  : M bool :=
  match attempts with
  | [] => ret false
  | attempt :: rest =>
      r <- one_attempt token_address action priority_multiplier slippage_bps
                       attempt ;;
      match r with
      | Some result => ret result
      | None =>
          execute_trade_attempts rest token_address action
                                 priority_multiplier slippage_bps
      end
  end.

Definition execute_trade (token_address : string) (action : TradeAction)
           (priority_multiplier : Q) (slippage_bps : Z) : M bool :=
  emit (EvCall token_address action priority_multiplier slippage_bps) ;;
  execute_trade_attempts (range (max_retries + 1)) token_address action
                         priority_multiplier slippage_bps.

(** ** Position monitor: [monitor_token] *)

(** Lines 361-365. *)
Definition exit_reason (profit_pct time_held : Q) : option ExitReason :=
  if Qle_bool 15 profit_pct then Some (ProfitTarget profit_pct)
  else if Qle_bool (inject_Z (20 * 60)) time_held then Some HoldTimeout
  else None.

(** [x / y] on [Decimal]: raises on a zero divisor. *)
Definition decimal_div (x y : Q) : option Q :=
  if truthy y then Some (x / y)%Q else None.

(** [((current_price - self.buy_price) / self.buy_price) * 100] *)
Definition profit_percentage (current_price buy : Q) : option Q :=
  match decimal_div (current_price - buy)%Q buy with
  | Some ratio => Some (ratio * 100)%Q
  | None => None
  end.

Definition max_sell_retries : Z := 4.
Definition multipliers : list Q := [1.0; 1.5; 2.0; 3.0]%Q.
Definition slippages : list Z := [2000; 3000; 4000; 5000].

(** Lines 385-407: [while retry_count < max_sell_retries and
    self.current_position]; [fuel] bounds the number of rounds. *)
Fixpoint sell_rounds (fuel : nat) (token_address : string) (retry_count : Z)
  : M unit :=
  match fuel with
  | O => ret tt
  | S fuel' =>
      b <- get_bot ;;
      if (retry_count <? max_sell_retries)
         && position_held (current_position b) then
        success <- execute_trade token_address SELL
                     (nth (Z.to_nat retry_count) multipliers 0%Q)
                     (nth (Z.to_nat retry_count) slippages 0) ;;
        if success then ret tt
        else
          r <- verify_token_balance token_address 3 ;;
          if negb (fst r) then
            log ERROR LogLostBalance ;;
            modify (set_current_position None) ;;
            ret tt
          else
            let retry_count' := retry_count + 1 in
            (if retry_count' <? max_sell_retries then
               log INFO (LogRetryingSell
                           (nth (Z.to_nat retry_count') multipliers 0%Q)
                           (nth (Z.to_nat retry_count') slippages 0)
                           retry_count') ;;
               sleep (Qpower 1.5 retry_count')
             else ret tt) ;;
            sell_rounds fuel' token_address retry_count'
      else ret tt
  end.

(** The loop leaves after at most [max_sell_retries] rounds, so one round
    more than that is fuel enough (see [sell_rounds_fuel]). *)
Definition sell_escalation (token_address : string) : M unit :=
  sell_rounds (Z.to_nat (max_sell_retries + 1)) token_address 0.

Inductive loop_ctl : Type := Again | Break.

(** Lines 370-378: verification before selling, retried once. *)
Definition verify_for_exit (token_address : string) : M bool :=
  r <- verify_token_balance token_address 3 ;;
  if fst r then ret true
  else
    log ERROR LogVerifyFailed ;;
    sleep 2 ;;
    r2 <- verify_token_balance token_address 3 ;;
    if fst r2 then ret true
    else
      log ERROR LogVerifyRetryFailed ;;
      modify (set_current_position None) ;;
      ret false.

(** The body of [while self.current_position == token_address], with its
    [except Exception] clause: a division by zero or a missing open time
    raises, is logged, and the loop goes on after 5 seconds. *)
Definition monitor_body (token_address : string) : M loop_ctl :=
  current_price <- get_token_price token_address ;;
  if negb (truthy current_price) then
    sleep 2 ;;
    ret Again
  else
    b <- get_bot ;;
    match profit_percentage current_price (buy_price b) with
    | None =>
        log ERROR LogMonitoringError ;;
        sleep 5 ;;
        ret Again
    | Some profit_pct =>
        now <- time_time ;;
        match position_open_time b with
        | None =>
            log ERROR LogMonitoringError ;;
            sleep 5 ;;
            ret Again
        | Some opened =>
            let time_held := (now - opened)%Q in
            match exit_reason profit_pct time_held with
            | None =>
                sleep 2 ;;
                ret Again
            | Some reason =>
                log INFO (LogExitTriggered reason) ;;
                ok <- verify_for_exit token_address ;;
                if ok then
                  sell_escalation token_address ;;
                  ret Break
                else ret Break
            end
        end
    end.

(** [monitor_token], cut after [fuel] rounds: [None] means the task is still
    running then. *)
Fixpoint monitor_token (fuel : nat) (token_address : string)
  : M (option unit) :=
  match fuel with
  | O => ret None
  | S fuel' =>
      b <- get_bot ;;
      if position_is (current_position b) token_address then
        c <- monitor_body token_address ;;
        match c with
        | Break => ret (Some tt)
        | Again => monitor_token fuel' token_address
        end
      else ret (Some tt)
  end.

(** ** Vocabulary of the properties *)

(** The readings a sequence of reads delivers (failed reads dropped). *)
Definition readings (reads : list (option token_info)) : list token_info :=
  flat_map (fun r => match r with Some info => [info] | None => [] end) reads.

Definition positive_reading (info : token_info) : Prop := 0 < raw_amount info.

(** The last reading of a sequence, [None] for the empty one. *)
Definition last_reading (l : list token_info) : option token_info :=
  last (map Some l) None.

(** The reading the verifier remembers after the readings [l], when it
    remembered [li] before them. *)
Definition remembered (li : option token_info) (l : list token_info)
  : option token_info :=
  last (map Some l) li.

(** The confirmation counter over a sequence of raw amounts, as the design
    describes it: incremented when the current amount equals the one
    immediately before it, reset to 0 on any change (and on the first
    reading, which has nothing before it). *)
Fixpoint confirmation_counter_from (previous : option Z) (counter : Z)
         (raws : list Z) : Z :=
  match raws with
  | [] => counter
  | x :: rest =>
      confirmation_counter_from (Some x)
        (match previous with
         | Some p => if x =? p then counter + 1 else 0
         | None => 0
         end)
        rest
  end.

Definition confirmation_counter (raws : list Z) : Z :=
  confirmation_counter_from None 0 raws.

(** A sequence with two consecutive equal and positive raw amounts. *)
Definition two_consecutive_equal_positive (raws : list Z) : Prop :=
  exists pre x post, raws = pre ++ x :: x :: post /\ 0 < x.

(** The number of balance reads in a trace. *)
Definition is_account_read (e : event) : bool :=
  match e with EvAccountInfo _ _ => true | _ => false end.

Definition reads_made (evs : list event) : nat :=
  List.length (filter is_account_read evs).

(** The events [verify_token_balance] can perform. *)
Definition verifier_event (e : event) : bool :=
  match e with
  | EvAccountInfo _ _ | EvSleep _ | EvLog WARNING LogZeroBalance => true
  | _ => false
  end.

Definition is_acquire (e : event) : bool :=
  match e with EvAcquire => true | _ => false end.

(** The failures of an attempt, as its events show them. *)
Definition network_failure (e : event) : bool :=
  match e with
  | EvSwap _ SwapNetworkError | EvSend _ SendNetworkError => true
  | _ => false
  end.

Definition transient_rpc_error (e : event) : bool :=
  match e with
  | EvSend _ (SendRpcError error_msg) => is_transient error_msg
  | _ => false
  end.

Definition transient_failure (e : event) : bool :=
  network_failure e || transient_rpc_error e.

(** A rejected or undecodable swap reply, an unclassified RPC error or
    another exception of the broadcast, a base-currency balance below the
    dust threshold. *)
Definition terminal_failure (e : event) : bool :=
  match e with
  | EvSwap _ (SwapRejected _) | EvSwap _ SwapException
  | EvSend _ SendException => true
  | EvSend _ (SendRpcError error_msg) => negb (is_transient error_msg)
  | EvSolBalance balance => Qlt_bool balance 0.0001
  | _ => false
  end.

(** A trace cut at each [EvAcquire]: the events before the first one, and
    then the events of each attempt. *)
Fixpoint split_attempts (evs : list event)
  : list event * list (list event) :=
  match evs with
  | [] => ([], [])
  | e :: rest =>
      let (pre, segs) := split_attempts rest in
      if is_acquire e then ([], pre :: segs) else (e :: pre, segs)
  end.

Definition attempts (evs : list event) : list (list event) :=
  snd (split_attempts evs).

(** The calls of [execute_trade] in a trace, with their arguments. *)
Definition trade_calls (evs : list event)
  : list (string * TradeAction * Q * Z) :=
  flat_map (fun e => match e with
                     | EvCall token action multiplier slip =>
                         [(token, action, multiplier, slip)]
                     | _ => []
                     end) evs.

(** The escalation schedule of the sell attempts. *)
Definition schedule : list (Q * Z) :=
  [(1.0%Q, 2000); (1.5%Q, 3000); (2.0%Q, 4000); (3.0%Q, 5000)].

Definition sell_call (token_address : string) (step : Q * Z)
  : string * TradeAction * Q * Z :=
  (token_address, SELL, fst step, snd step).

(** What a successful SELL leaves in the bot: the profit is added when an
    exit price was obtained, the position is cleared and the cooldown
    window opened at [closed]. *)
Definition sold (info : token_info) (sell_price closed : Q)
           (b : TradingBot) : TradingBot :=
  set_cooldown_end_time (closed + 15)%Q
    (set_position_open_time None
       (set_current_position None
          (if truthy sell_price then
             set_total_profit
               (total_profit b
                + (sell_price - buy_price b) * ui_amount info)%Q b
           else b))).

(** [time.time()] seen from the world: one more clock reading consumed. *)
Definition tick (w : World) : World :=
  mk_world (clock w) (S (ticks w)) (account_reads w) (sol_balances w)
           (prices w) (swap_replies w) (send_replies w).

(** A swap request as every BUY sends it: slippage 3000 bps and a priority
    fee of 100000 micro-lamports. *)
Definition standard_buy_request (e : event) : bool :=
  match e with
  | EvSwap p _ => (slippage p =? 3000) && (priorityMicroLamports p =? 100000)
  | _ => true
  end.

(** The world after the price client answered once. *)
Definition after_price (w : World) : World :=
  mk_world (clock w) (ticks w) (account_reads w) (sol_balances w)
           (snd (pop 0%Q (prices w))) (swap_replies w) (send_replies w).

(** The price the next call of [get_token_price] returns. *)
Definition next_price (w : World) : Q := fst (pop 0%Q (prices w)).

(** The requests that go out to the RPC node, the swap gateway or the
    price API. *)
Definition network_request (e : event) : bool :=
  match e with
  | EvAccountInfo _ _ | EvSolBalance _ | EvPrice _ _ | EvSwap _ _
  | EvSend _ _ => true
  | _ => false
  end.

Definition is_sleep (e : event) : bool :=
  match e with EvSleep _ => true | _ => false end.

(** The permits of the semaphore a trace still holds at its end. *)
Fixpoint permits_held (evs : list event) : Z :=
  match evs with
  | [] => 0
  | EvAcquire :: rest => permits_held rest + 1
  | EvRelease :: rest => permits_held rest - 1
  | _ :: rest => permits_held rest
  end.

(** ** Sample data *)

Definition reading (raw : Z) : token_info :=
  mk_token_info raw 6 (inject_Z raw / 1000000)%Q.

Definition sample_bot : TradingBot := init_bot "wallet" "SOL".

(** A world whose clock shows [n] seconds at its [n]-th reading. *)
Definition sample_world (reads : list (option token_info))
           (balances quotes : list Q) (swaps : list swap_reply)
           (sends : list send_reply) : World :=
  mk_world (fun n => inject_Z (Z.of_nat n)) 0 reads balances quotes
           swaps sends.

(** A bot holding ["mint"], bought at 2 USD at time 0. *)
Definition holding_bot : TradingBot :=
  mk_bot "wallet" "SOL" (Some "mint") (Some 0%Q) 2%Q 0%Q 1 0%Q.

(** ** More vocabulary: traces of the verifier and of the executor *)

Definition failed_read (e : event) : bool :=
  match e with EvAccountInfo _ None => true | _ => false end.

Definition is_swap (e : event) : bool :=
  match e with EvSwap _ _ => true | _ => false end.

Definition is_send (e : event) : bool :=
  match e with EvSend _ _ => true | _ => false end.

Definition is_price (e : event) : bool :=
  match e with EvPrice _ _ => true | _ => false end.

Definition count_events (f : event -> bool) (evs : list event) : nat :=
  List.length (filter f evs).

(** The discipline of [async with self.semaphore], read off a trace: a
    permit is taken only when none is held, given back only when one is
    held, every request to the outside happens under the permit, and none is
    held at the end. *)
Fixpoint permit_protocol (held : bool) (evs : list event) : bool :=
  match evs with
  | [] => negb held
  | EvAcquire :: rest => negb held && permit_protocol true rest
  | EvRelease :: rest => held && permit_protocol false rest
  | e :: rest =>
      (if network_request e then held else true) && permit_protocol held rest
  end.

(** What a successful BUY leaves in the bot. *)
Definition bought (token_address : string) (price opened : Q)
           (b : TradingBot) : TradingBot :=
  set_trades_executed (trades_executed b + 1)
    (set_position_open_time (Some opened)
       (set_current_position (Some token_address)
          (set_buy_price price b))).

(** ** The clients of the RPC node, reply by reply

    [verify_token_balance] and [execute_trade] above take the values of
    [get_token_account_info] and [get_sol_balance] as the world delivers
    them.  Here are the two functions themselves, over the replies of the
    RPC node. *)

Module Rpc.

(** What one [getAccountInfo] request can bring: an exception (the request
    fails, the body is no JSON, a key is missing), a body without
    ['result'], a falsy [result.value] (no such account), or an account with
    its owning program and its [tokenAmount] ([None] when that part is
    missing or a number in it cannot be parsed, which raises). *)
Inductive account_reply : Type :=
| AccountException
| AccountNoResult
| AccountMissing
| AccountData (program : string) (token_amount : option token_info).

Inductive rpc_log : Type :=
| LogAtaFailed
| LogResponseError (attempt max_retries : Z)
| LogInvalidAccountType
| LogBalanceCheckFailed (attempt : Z)
| LogMaxRetries.

Inductive rpc_event : Type :=
| RpcRequest (ata : string) (reply : account_reply)
| RpcSleep (seconds : Q)
| RpcLog (lvl : level) (msg : rpc_log).

(** The value returned, the replies not consumed, and the effects. *)
Record Answer : Type := mk_answer {
  result : option token_info;
  remaining : list account_reply;
  trace : list rpc_event
}.

Definition retry_delay : Q := 1.5%Q.

Definition after (evs : list rpc_event) (a : Answer) : Answer :=
  mk_answer (result a) (remaining a) (evs ++ trace a).

(** [for attempt in range(max_retries)] of [get_token_account_info]. *)
Fixpoint account_info_attempts (attempts : list Z) (ata : string)
         (max_retries : Z) (replies : list account_reply) : Answer :=
  match attempts with
  | [] => mk_answer None replies [RpcLog ERROR LogMaxRetries]
  | attempt :: rest =>
      let (reply, later) := pop AccountException replies in
      let failed :=
        after [RpcRequest ata reply;
               RpcLog WARNING (LogBalanceCheckFailed (attempt + 1));
               RpcSleep (retry_delay * inject_Z (attempt + 1))]
              (account_info_attempts rest ata max_retries later) in
      match reply with
      | AccountException => failed
      | AccountNoResult =>
          after [RpcRequest ata reply;
                 RpcLog WARNING (LogResponseError (attempt + 1) max_retries);
                 RpcSleep (retry_delay * inject_Z (attempt + 1))]
                (account_info_attempts rest ata max_retries later)
      | AccountMissing => mk_answer None later [RpcRequest ata reply]
      | AccountData program token_amount =>
          if negb (String.eqb program "spl-token") then
            mk_answer None later
                      [RpcRequest ata reply;
                       RpcLog WARNING LogInvalidAccountType]
          else
            match token_amount with
            | Some info => mk_answer (Some info) later [RpcRequest ata reply]
            | None => failed
            end
      end
  end.

(** [get_token_account_info]; [associated_token_address] is the derivation
    of the token account ([None] when it raises). *)
Definition get_token_account_info
           (associated_token_address : string -> option string)
           (token_address : string) (max_retries : Z)
           (replies : list account_reply) : Answer :=
  match associated_token_address token_address with
  | None => mk_answer None replies [RpcLog ERROR LogAtaFailed]
  | Some ata =>
      account_info_attempts (range max_retries) ata max_retries replies
  end.

(** What the [getBalance] request can bring. *)
Inductive balance_reply : Type :=
| BalanceException
| BalanceLamports (lamports : Z).

(** [get_sol_balance]: [Decimal(value) / Decimal(1e9)], or [Decimal(0)]
    when anything raises. *)
Definition get_sol_balance (reply : balance_reply) : Q :=
  match reply with
  | BalanceLamports lamports => (inject_Z lamports / inject_Z (10 ^ 9))%Q
  | BalanceException => 0%Q
  end.

Definition is_request (e : rpc_event) : bool :=
  match e with RpcRequest _ _ => true | _ => false end.

(** The pauses of a trace, in order. *)
Definition sleeps (evs : list rpc_event) : list Q :=
  flat_map (fun e => match e with RpcSleep d => [d] | _ => [] end) evs.

(** A reply after which the loop tries again. *)
Definition retried (reply : account_reply) : bool :=
  match reply with
  | AccountException | AccountNoResult => true
  | AccountData program None => String.eqb program "spl-token"
  | _ => false
  end.

(** What a reply that ends the loop makes the function return. *)
Definition verdict (reply : account_reply) : option token_info :=
  match reply with
  | AccountData program (Some info) =>
      if String.eqb program "spl-token" then Some info else None
  | _ => None
  end.

End Rpc.

(** ** More vocabulary: traces of the monitor *)

Definition is_trigger (e : event) : bool :=
  match e with EvLog _ (LogExitTriggered _) => true | _ => false end.

Definition is_monitor_error (e : event) : bool :=
  match e with EvLog _ LogMonitoringError => true | _ => false end.

(** What the monitor does while it only watches the price. *)
Definition watching (e : event) : bool :=
  match e with
  | EvPrice _ _ | EvSleep _ | EvLog ERROR LogMonitoringError => true
  | _ => false
  end.

(** ** The event loop of main.py: [listen_for_events]

    One pass of the body of [while True], over the replies of the scanner
    and of DexScreener.  No call in the body raises
    ([get_trending_tokens], [fetch_usd_market_cap] and [execute_trade] catch
    every exception themselves, and the pair prediction has its own
    handler), so the outer [except Exception] is not entered.  A pass that
    finds no position held runs without interleaving: the only other tasks
    of the bot are the monitors, and a monitor is running only while its
    position is held. *)

Module Listener.

(** A token as [get_trending_tokens] delivers it; the loop reads
    [top_token['address']] and [top_token['name']]. *)
Record trending_token : Type := mk_token {
  address : string;
  name : string
}.

(** What [predict_upward_movement] reads of a pair:
    [pair["txns"]["m5"]["buys"]] and [["sells"]] ([None] when one of the
    keys is missing, which raises [KeyError]) and
    [pair.get("volume", {}).get("m5", 0)] ([None] when a key is missing). *)
Record pair : Type := mk_pair {
  m5_txns : option (Z * Z);
  m5_volume : option Q
}.

(** The second component of the result: the score, or the message. *)
Inductive rating : Type :=
| Score (score : Z)
| Message (text : string).

(** [predict_upward_movement]; [m5_buys / m5_sells] is Python's division
    of integers, read here as the exact quotient (the two agree on the test
    against 1.3 for counts below 10^15); the debug print is left out. *)
Definition predict_upward_movement (p : pair) : bool * rating :=
  match m5_txns p with
  | None => (false, Message "Missing transaction data for m5")
  | Some (m5_buys, m5_sells) =>
      let score := 0 in
      let m5_ratio :=
        (inject_Z m5_buys
         / inject_Z (if 0 <? m5_sells then m5_sells else 1))%Q in
      let score := if Qle_bool 1.3 m5_ratio then score + 1 else score in
      let volume := match m5_volume p with Some v => v | None => 0%Q end in
      let SHORT_TERM_VOLUME_THRESHOLD := 100000%Q in
      let score :=
        if Qle_bool SHORT_TERM_VOLUME_THRESHOLD volume then score + 2
        else score in
      let THRESHOLD_SCORE := 3 in
      (THRESHOLD_SCORE <=? score, Score score)
  end.

(** What the [try] block around the prediction can do: raise (no 200
    answer, no JSON, a body that cannot be indexed, a first pair whose
    fields have the wrong type), or get the list of pairs. *)
Inductive pair_reply : Type :=
| PairFailure
| Pairs (pairs : list pair).

Inductive listener_log : Type :=
| LogNoTrending
| LogEvaluating (token_name token_address : string)
| LogAlreadyTraded (token_address : string)
| LogNoMarketCap (token_address : string)
| LogSkippingMarketCap (token_address : string) (market_cap : Q)
| LogNoPairData (token_address : string)
| LogUnfavorable (token_address : string) (score : rating)
| LogPredictionError (token_address : string).

Inductive listener_event : Type :=
| Trending (tokens : list trending_token)
| MarketCap (token_address : string) (reply : option Q)
| PairData (token_address : string) (reply : pair_reply)
| Bot (e : event)
| Sleep (seconds : Q)
| Log (lvl : level) (msg : listener_log)
| SpawnMonitor (token_address : string).

(** The replies still to come: of [scanner.get_trending_tokens()] (an
    empty list when the scan fails), of [bot.fetch_usd_market_cap] ([None]
    when the request fails or names no market cap) and of
    [fetch_pair_data]. *)
Record Feeds : Type := mk_feeds {
  trending : list (list trending_token);
  market_caps : list (option Q);
  pair_data : list pair_reply
}.

(** The bot with its blacklist, the world, and the feeds. *)
Record State : Type := mk_state {
  trader : TradingBot;
  outside : World;
  blacklisted_tokens : list string;
  feeds : Feeds
}.

Record Outcome : Type := mk_outcome {
  final : State;
  trace : list listener_event
}.

(** [token_address in bot.blacklisted_tokens] *)
Definition blacklisted (token_address : string) (tokens : list string)
  : bool :=
  existsb (String.eqb token_address) tokens.

(** [bot.blacklisted_tokens.add(token_address)] *)
Definition blacklist_add (token_address : string) (tokens : list string)
  : list string :=
  if blacklisted token_address tokens then tokens
  else token_address :: tokens.

Definition fetch_usd_market_cap (s : State) : option Q * State :=
  let (reply, later) := pop None (market_caps (feeds s)) in
  (reply,
   mk_state (trader s) (outside s) (blacklisted_tokens s)
            (mk_feeds (trending (feeds s)) later (pair_data (feeds s)))).

Definition fetch_pair_data (s : State) : pair_reply * State :=
  let (reply, later) := pop PairFailure (pair_data (feeds s)) in
  (reply,
   mk_state (trader s) (outside s) (blacklisted_tokens s)
            (mk_feeds (trending (feeds s)) (market_caps (feeds s)) later)).

Definition get_trending_tokens (s : State)
  : list trending_token * State :=
  let (reply, later) := pop [] (trending (feeds s)) in
  (reply,
   mk_state (trader s) (outside s) (blacklisted_tokens s)
            (mk_feeds later (market_caps (feeds s)) (pair_data (feeds s)))).

(** Lines 126-131: the trade, and what follows its success. *)
Definition trade (token_address : string) (s : State) : Outcome * bool :=
  match execute_trade token_address BUY 1 2000 (trader s) (outside s) with
  | mk_run trade_result b w evs =>
      if trade_result then
        (mk_outcome
           (mk_state (set_current_position (Some token_address) b) w
                     (blacklist_add token_address (blacklisted_tokens s))
                     (feeds s))
           (map Bot evs ++ [SpawnMonitor token_address]),
         true)
      else
        (mk_outcome (mk_state b w (blacklisted_tokens s) (feeds s))
                    (map Bot evs),
         false)
  end.

(** The body of [for top_token in top_tokens]; the flag tells whether it
    left the loop with [break]. *)
Definition evaluate (top_token : trending_token) (s : State)
  : Outcome * bool :=
  let token_address := address top_token in
  let evaluating := Log INFO (LogEvaluating (name top_token) token_address) in
  if blacklisted token_address (blacklisted_tokens s) then
    (mk_outcome s [evaluating; Log INFO (LogAlreadyTraded token_address)],
     false)
  else
    let (market_cap, s1) := fetch_usd_market_cap s in
    match market_cap with
    | None =>
        (mk_outcome s1 [evaluating; MarketCap token_address None;
                        Log INFO (LogNoMarketCap token_address)],
         false)
    | Some cap =>
        if Qlt_bool 40000000 cap || Qlt_bool cap 500000 then
          (mk_outcome s1 [evaluating; MarketCap token_address market_cap;
                          Log INFO (LogSkippingMarketCap token_address cap)],
           false)
        else
          let (reply, s2) := fetch_pair_data s1 in
          let checked := [evaluating; MarketCap token_address market_cap;
                          PairData token_address reply] in
          match reply with
          | PairFailure =>
              (mk_outcome s2
                 (checked ++ [Log ERROR (LogPredictionError token_address)]),
               false)
          | Pairs [] =>
              (mk_outcome s2
                 (checked ++ [Log INFO (LogNoPairData token_address)]),
               false)
          | Pairs (first :: _) =>
              let (prediction, score) := predict_upward_movement first in
              if negb prediction then
                (mk_outcome s2
                   (checked
                      ++ [Log INFO (LogUnfavorable token_address score)]),
                 false)
              else
                let (o, left) := trade token_address s2 in
                (mk_outcome (final o) (checked ++ trace o), left)
          end
    end.

(** [for top_token in top_tokens] *)
Fixpoint evaluate_tokens (top_tokens : list trending_token) (s : State)
  : Outcome :=
  match top_tokens with
  | [] => mk_outcome s []
  | top_token :: rest =>
      let (o, left) := evaluate top_token s in
      if left then o
      else
        let o' := evaluate_tokens rest (final o) in
        mk_outcome (final o') (trace o ++ trace o')
  end.

(** One pass of the body of [while True]. *)
Definition listen_round (s : State) : Outcome :=
  if position_held (current_position (trader s)) then
    mk_outcome s [Sleep 3]
  else
    let (tokens, s1) := get_trending_tokens s in
    let top_tokens := firstn 1 tokens in
    match top_tokens with
    | [] =>
        mk_outcome s1 [Trending tokens; Log INFO LogNoTrending; Sleep 10]
    | _ =>
        let o := evaluate_tokens top_tokens s1 in
        mk_outcome (final o) (Trending tokens :: trace o ++ [Sleep 10])
    end.

(** The loop, pass after pass.  Between two passes the listener sleeps and
    the other tasks of the bot run; [others] gives, for each pass, what they
    do to the bot and to the world meanwhile (they do not know the blacklist
    nor the feeds of the listener). *)
Fixpoint listen_for_events
         (others : list (TradingBot * World -> TradingBot * World))
         (s : State) : Outcome :=
  match others with
  | [] => mk_outcome s []
  | meanwhile :: later =>
      let o := listen_round s in
      let (b, w) := meanwhile (trader (final o), outside (final o)) in
      let o' := listen_for_events later
                  (mk_state b w (blacklisted_tokens (final o))
                            (feeds (final o))) in
      mk_outcome (final o') (trace o ++ trace o')
  end.

(** The tokens for which a monitor was started, in order. *)
Definition spawned (evs : list listener_event) : list string :=
  flat_map (fun e => match e with SpawnMonitor t => [t] | _ => [] end) evs.

(** The calls of [execute_trade] in a trace of the listener. *)
Definition calls (evs : list listener_event)
  : list (string * TradeAction * Q * Z) :=
  flat_map (fun e => match e with
                     | Bot (EvCall token action multiplier slip) =>
                         [(token, action, multiplier, slip)]
                     | _ => []
                     end) evs.

End Listener.

(** A listener without position nor blacklist, before a world in which a
    purchase of ["mint"] goes through; the scanner names ["mint"] first, with
    a market cap of one million and a favourable first pair. *)
Definition sample_state : Listener.State :=
  Listener.mk_state
    sample_bot
    (sample_world [] [1%Q] [3%Q] [SwapTransaction "tx"] [SendAccepted])
    []
    (Listener.mk_feeds
       [[Listener.mk_token "mint" "Mint"; Listener.mk_token "other" "Other"]]
       [Some 1000000%Q]
       [Listener.Pairs [Listener.mk_pair (Some (13, 10)) (Some 150000%Q)]]).

(** ** Proof tools *)

Arguments verify_token_balance : simpl never.
Arguments is_transient : simpl never.

Ltac break_match :=
  match goal with
  | |- context [match ?x with _ => _ end] =>
      lazymatch x with
      | context [match _ with _ => _ end] => fail
      | _ => destruct x eqn:?
      end
  end.

Ltac unfold_ops :=
  unfold bind, ret, emit, log, sleep, modify, get_bot, time_time,
    get_token_account_info, get_sol_balance, get_token_price, swap_get,
    send_transaction, pop.

(** ** The balance verifier *)

Lemma verify_rounds_frame n tok c li b w :
  let r := verify_rounds n tok c li b w in
  bot r = b /\ clock (world r) = clock w /\ ticks (world r) = ticks w /\
  sol_balances (world r) = sol_balances w /\ prices (world r) = prices w /\
  swap_replies (world r) = swap_replies w /\
  send_replies (world r) = send_replies w /\
  forallb verifier_event (events r) = true.
Proof.
  revert c li b w. induction n as [|n IH]; intros c li b w; cbn.
  - repeat split; reflexivity.
  - unfold_ops.
    destruct (account_reads w) as [|[info|] rest]; cbn.
    + match goal with |- context [verify_rounds n tok ?c' ?li' b ?w'] =>
        specialize (IH c' li' b w'); destruct (verify_rounds n tok c' li' b w')
      end.
      cbn in *. exact IH.
    + destruct (raw_amount info <=? 0); cbn.
      * repeat split; reflexivity.
      * match goal with |- context [verify_rounds n tok ?c' ?li' b ?w'] =>
          specialize (IH c' li' b w');
          destruct (verify_rounds n tok c' li' b w')
        end.
        cbn in *. exact IH.
    + match goal with |- context [verify_rounds n tok ?c' ?li' b ?w'] =>
        specialize (IH c' li' b w'); destruct (verify_rounds n tok c' li' b w')
      end.
      cbn in *. exact IH.
Qed.

Lemma verify_frame tok n b w :
  let r := verify_token_balance tok n b w in
  bot r = b /\ clock (world r) = clock w /\ ticks (world r) = ticks w /\
  sol_balances (world r) = sol_balances w /\ prices (world r) = prices w /\
  swap_replies (world r) = swap_replies w /\
  send_replies (world r) = send_replies w /\
  forallb verifier_event (events r) = true.
Proof. apply verify_rounds_frame. Qed.

(** The loop invariant: a remembered reading is positive, and the counter
    is positive only when a reading is remembered. *)
Lemma verify_rounds_valid n tok c li b w info' :
  (forall last, li = Some last -> positive_reading last) ->
  (li = None -> c <= 0) ->
  value (verify_rounds n tok c li b w) = (true, info') ->
  exists info, info' = Some info /\ positive_reading info.
Proof.
  revert c li b w. induction n as [|n IH]; intros c li b w Hpos Hnone; cbn.
  - intros H. inversion H as [[Hc Hli]]. subst info'.
    destruct li as [last|].
    + eauto.
    + specialize (Hnone eq_refl). apply Z.leb_le in Hc. lia.
  - unfold_ops.
    destruct (account_reads w) as [|[info|] rest]; cbn.
    + match goal with |- context [verify_rounds n tok ?c' ?li' b ?w'] =>
        specialize (IH c' li' b w' Hpos Hnone);
        destruct (verify_rounds n tok c' li' b w')
      end.
      cbn in *. exact IH.
    + destruct (raw_amount info <=? 0) eqn:Hraw; cbn.
      * discriminate.
      * match goal with |- context [verify_rounds n tok ?c' ?li' b ?w'] =>
          specialize (IH c' li' b w');
          destruct (verify_rounds n tok c' li' b w')
        end.
        cbn in *. apply IH.
        -- intros last Hl. inversion Hl; subst. apply Z.leb_gt in Hraw.
           exact Hraw.
        -- discriminate.
    + match goal with |- context [verify_rounds n tok ?c' ?li' b ?w'] =>
        specialize (IH c' li' b w' Hpos Hnone);
        destruct (verify_rounds n tok c' li' b w')
      end.
      cbn in *. exact IH.
Qed.

Lemma verify_valid tok n b w info' :
  value (verify_token_balance tok n b w) = (true, info') ->
  exists info, info' = Some info /\ positive_reading info.
Proof.
  apply verify_rounds_valid; [discriminate | lia].
Qed.

Lemma last_shift {A : Type} (l : list A) (a d : A) :
  last (a :: l) d = last l a.
Proof.
  revert a d. induction l as [|x l IH]; intros a d; [reflexivity|].
  change (last (a :: x :: l) d) with (last (x :: l) d).
  rewrite (IH x d), (IH x a). reflexivity.
Qed.

Lemma verify_rounds_counts reads : forall rest tok c li b w,
  account_reads w = reads ++ rest ->
  Forall positive_reading (readings reads) ->
  value (verify_rounds (List.length reads) tok c li b w) =
  (2 <=? confirmation_counter_from (option_map raw_amount li) c
           (map raw_amount (readings reads)),
   remembered li (readings reads)).
Proof.
  induction reads as [|[info|] reads IH]; intros rest tok c li b w Hw Hpos.
  - reflexivity.
  - cbn [List.length verify_rounds]. unfold_ops. rewrite Hw. cbn.
    cbn in Hpos. inversion Hpos as [|? ? Hi Hrest]; subst.
    unfold positive_reading in Hi.
    destruct (raw_amount info <=? 0) eqn:Hraw;
      [apply Z.leb_le in Hraw; lia|].
    match goal with |- context [verify_rounds _ tok ?c' ?li' b ?w'] =>
      specialize (IH rest tok c' li' b w' eq_refl Hrest);
      destruct (verify_rounds (List.length reads) tok c' li' b w')
    end.
    cbn in *. rewrite IH. f_equal.
    + destruct li; reflexivity.
    + unfold remembered. symmetry.
      exact (last_shift (map Some (readings reads)) (Some info) li).
  - cbn [List.length verify_rounds]. unfold_ops. rewrite Hw. cbn.
    match goal with |- context [verify_rounds _ tok ?c' ?li' b ?w'] =>
      specialize (IH rest tok c' li' b w' eq_refl Hpos);
      destruct (verify_rounds (List.length reads) tok c' li' b w')
    end.
    cbn in *. exact IH.
Qed.

Lemma counter_snoc l : forall previous c x,
  confirmation_counter_from previous c (l ++ [x]) =
  match last (map Some l) previous with
  | Some p =>
      if x =? p then confirmation_counter_from previous c l + 1 else 0
  | None => 0
  end.
Proof.
  induction l as [|y l IH]; intros previous c x.
  - reflexivity.
  - cbn [app confirmation_counter_from map]. rewrite IH, last_shift.
    reflexivity.
Qed.

Lemma counter_nonneg l : forall previous c,
  0 <= c -> 0 <= confirmation_counter_from previous c l.
Proof.
  induction l as [|y l IH]; intros previous c Hc; cbn; [exact Hc|].
  apply IH. destruct previous as [p|]; [destruct (y =? p)|]; lia.
Qed.

Lemma last_some_snoc (l : list Z) (x : Z) (d : option Z) :
  last (map Some (l ++ [x])) d = Some x.
Proof. rewrite map_app. cbn. apply last_last. Qed.

Lemma counter_three_equal raws :
  2 <= confirmation_counter raws <->
  exists pre x, raws = pre ++ [x; x; x].
Proof.
  unfold confirmation_counter. split.
  - induction raws as [|a raws _] using rev_ind; [cbn; lia|].
    rewrite counter_snoc.
    destruct (last (map Some raws) None) as [p|] eqn:Hp; [|lia].
    destruct (a =? p) eqn:Hap; [|lia]. apply Z.eqb_eq in Hap. subst p.
    intros H1.
    induction raws as [|a1 raws _] using rev_ind; [discriminate|].
    rewrite last_some_snoc in Hp. inversion Hp; subst a1.
    rewrite counter_snoc in H1.
    destruct (last (map Some raws) None) as [p|] eqn:Hp1; [|lia].
    destruct (a =? p) eqn:Hap; [|lia]. apply Z.eqb_eq in Hap. subst p.
    induction raws as [|a2 raws _] using rev_ind; [discriminate|].
    rewrite last_some_snoc in Hp1. inversion Hp1; subst a2.
    exists raws, a. rewrite <- !app_assoc. reflexivity.
  - intros (pre & x & ->).
    change (pre ++ [x; x; x]) with (pre ++ [x] ++ [x] ++ [x]).
    rewrite !app_assoc.
    rewrite counter_snoc, last_some_snoc, Z.eqb_refl.
    rewrite counter_snoc, last_some_snoc, Z.eqb_refl.
    pose proof (counter_nonneg (pre ++ [x]) None 0 (Z.le_refl 0)). lia.
Qed.

(** ** C1 *)

(** C1, as stated, fails: the readings [100, 50, 50] (min_retries = 3)
    contain two consecutive equal and positive raw amounts, yet the verifier
    answers valid = false. *)
Lemma verify_two_equal_reads_rejected :
  two_consecutive_equal_positive (map raw_amount [reading 100; reading 50; reading 50]) /\
  List.length [reading 100; reading 50; reading 50] = 3%nat /\
  value (verify_token_balance "mint" 3 sample_bot
           (sample_world [Some (reading 100); Some (reading 50);
                          Some (reading 50)] [] [] [] [])) =
  (false, Some (reading 50)).
Proof.
  split; [|split; reflexivity].
  exists [100], 50, []. split; [reflexivity | lia].
Qed.

(** C1 (amended): over [min_retries] reads whose readings are all positive,
    the verifier returns valid = true exactly when the confirmation counter
    ends at 2 or more, that is, when the last three readings carry the same
    raw amount; it returns the last reading with it.  The readings
    [100, 100, 100] with min_retries = 3 give (true, reading 100). *)
Theorem verify_token_balance_confirms :
  forall token b w reads rest,
    account_reads w = reads ++ rest ->
    Forall positive_reading (readings reads) ->
    let r := verify_token_balance token (Z.of_nat (List.length reads)) b w in
    let raws := map raw_amount (readings reads) in
    value r = (2 <=? confirmation_counter raws,
               last_reading (readings reads)) /\
    (fst (value r) = true <-> 2 <= confirmation_counter raws) /\
    (2 <= confirmation_counter raws <->
     exists pre x, raws = pre ++ [x; x; x]) /\
    (map raw_amount (readings reads) = [100; 100; 100] ->
     fst (value r) = true).
Proof.
  intros token b w reads rest Hw Hpos r raws.
  assert (Hv : value r = (2 <=? confirmation_counter raws,
                          last_reading (readings reads))).
  { unfold r, verify_token_balance. rewrite Nat2Z.id.
    exact (verify_rounds_counts reads rest token 0 None b w Hw Hpos). }
  split; [exact Hv|]. split; [|split].
  - rewrite Hv. cbn [fst]. apply Z.leb_le.
  - apply counter_three_equal.
  - intros H. rewrite Hv. cbn [fst]. unfold raws. rewrite H. reflexivity.
Qed.

Lemma verify_token_balance_confirms_witness :
  account_reads (sample_world [Some (reading 100); Some (reading 100);
                               Some (reading 100)] [] [] [] []) =
  [Some (reading 100); Some (reading 100); Some (reading 100)] ++ [] /\
  Forall positive_reading
         (readings [Some (reading 100); Some (reading 100);
                    Some (reading 100)]) /\
  value (verify_token_balance "mint" 3 sample_bot
           (sample_world [Some (reading 100); Some (reading 100);
                          Some (reading 100)] [] [] [] [])) =
  (true, Some (reading 100)).
Proof.
  assert (Hpos : Forall positive_reading
                   (readings [Some (reading 100); Some (reading 100);
                              Some (reading 100)])).
  { repeat constructor. }
  split; [reflexivity|]. split; [exact Hpos|].
  exact (proj1 (verify_token_balance_confirms "mint" sample_bot
                  (sample_world [Some (reading 100); Some (reading 100);
                                 Some (reading 100)] [] [] [] [])
                  [Some (reading 100); Some (reading 100);
                   Some (reading 100)] [] eq_refl Hpos)).
Defined.

(** ** C2 *)

Lemma reads_made_cons e l :
  reads_made (e :: l) =
  if is_account_read e then S (reads_made l) else reads_made l.
Proof. unfold reads_made. cbn. destruct (is_account_read e); reflexivity. Qed.

Arguments reads_made : simpl never.

Lemma verify_rounds_rejects pre : forall n info rest tok c li b w,
  account_reads w = pre ++ Some info :: rest ->
  Forall positive_reading (readings pre) ->
  raw_amount info <= 0 ->
  (List.length pre < n)%nat ->
  let r := verify_rounds n tok c li b w in
  value r = (false, None) /\
  account_reads (world r) = rest /\
  reads_made (events r) = S (List.length pre) /\
  exists evs,
    events r = evs ++ [EvAccountInfo tok (Some info);
                       EvLog WARNING LogZeroBalance].
Proof.
  induction pre as [|[seen|] pre IH];
    intros n info rest tok c li b w Hw Hpos Hraw Hn;
    (destruct n as [|n]; [cbn in Hn; lia|]);
    cbn [verify_rounds]; unfold_ops; rewrite Hw; cbn.
  - apply Z.leb_le in Hraw. rewrite Hraw. cbn.
    repeat split. exists []. reflexivity.
  - cbn in Hpos. inversion Hpos as [|? ? Hseen Hrest]; subst.
    unfold positive_reading in Hseen.
    destruct (raw_amount seen <=? 0) eqn:Hs; [apply Z.leb_le in Hs; lia|].
    cbn in Hn.
    match goal with |- context [verify_rounds n tok ?c' ?li' b ?w'] =>
      destruct (IH n info rest tok c' li' b w' eq_refl Hrest Hraw
                   ltac:(lia)) as (Hv & Hr & Hc & evs & He);
      destruct (verify_rounds n tok c' li' b w')
    end.
    cbn in *. repeat split; auto.
    + rewrite reads_made_cons. cbn. rewrite Hc. reflexivity.
    + exists (EvAccountInfo tok (Some seen) :: evs). rewrite He. reflexivity.
  - cbn in Hn.
    match goal with |- context [verify_rounds n tok ?c' ?li' b ?w'] =>
      destruct (IH n info rest tok c' li' b w' eq_refl Hpos Hraw
                   ltac:(lia)) as (Hv & Hr & Hc & evs & He);
      destruct (verify_rounds n tok c' li' b w')
    end.
    cbn in *. repeat split; auto.
    + rewrite !reads_made_cons. cbn. rewrite Hc. reflexivity.
    + exists (EvAccountInfo tok None :: EvSleep 1.5 :: evs). rewrite He.
      reflexivity.
Qed.

Lemma first_nonpositive_reading reads :
  Exists (fun info => raw_amount info <= 0) (readings reads) ->
  exists pre info rest,
    reads = pre ++ Some info :: rest /\
    Forall positive_reading (readings pre) /\ raw_amount info <= 0.
Proof.
  induction reads as [|[seen|] reads IH]; cbn; intros H.
  - inversion H.
  - destruct (Z_le_gt_dec (raw_amount seen) 0) as [Hle|Hgt].
    + exists [], seen, reads. repeat split; [constructor|exact Hle].
    + inversion H as [? ? Hhere|? ? Hlater]; subst; [lia|].
      destruct (IH Hlater) as (pre & info & rest & -> & Hpos & Hraw).
      exists (Some seen :: pre), info, rest.
      repeat split; [|exact Hraw]. cbn. constructor; [|exact Hpos].
      unfold positive_reading. lia.
  - destruct (IH H) as (pre & info & rest & -> & Hpos & Hraw).
    exists (None :: pre), info, rest. repeat split; assumption.
Qed.

(** C2: when the sequence of reads the verifier makes contains a
    zero-or-negative reading, the verification ends at the first such
    reading: the result is (false, None), the reading and the warning are
    the last events, and no further read is made.  And whenever the
    verifier answers valid = true, the quantity it returns is positive. *)
Theorem verify_token_balance_rejects_empty :
  forall token min_retries b w reads later,
    account_reads w = reads ++ later ->
    Z.of_nat (List.length reads) <= min_retries ->
    Exists (fun info => raw_amount info <= 0) (readings reads) ->
    let r := verify_token_balance token min_retries b w in
    value r = (false, None) /\
    (exists pre info rest,
        reads = pre ++ Some info :: rest /\
        Forall positive_reading (readings pre) /\
        raw_amount info <= 0 /\
        account_reads (world r) = rest ++ later /\
        reads_made (events r) = S (List.length pre) /\
        exists evs,
          events r = evs ++ [EvAccountInfo token (Some info);
                             EvLog WARNING LogZeroBalance]) /\
    (forall n b' w' answer,
        value (verify_token_balance token n b' w') = (true, answer) ->
        exists held, answer = Some held /\ 0 < raw_amount held).
Proof.
  intros token min_retries b w reads later Hw Hn Hex r.
  destruct (first_nonpositive_reading reads Hex)
    as (pre & info & rest & Hreads & Hpos & Hraw).
  assert (Hw' : account_reads w = pre ++ Some info :: rest ++ later).
  { rewrite Hw, Hreads, <- app_assoc. reflexivity. }
  assert (Hlen : (List.length pre < Z.to_nat min_retries)%nat).
  { rewrite Hreads, length_app in Hn. cbn [List.length] in Hn. lia. }
  destruct (verify_rounds_rejects pre (Z.to_nat min_retries) info
              (rest ++ later) token 0 None b w Hw' Hpos Hraw Hlen)
    as (Hv & Hr & Hc & He).
  split; [exact Hv|]. split.
  - exists pre, info, rest. repeat split; assumption.
  - intros n b' w' answer H. exact (verify_valid token n b' w' answer H).
Qed.

Lemma verify_token_balance_rejects_empty_witness :
  account_reads (sample_world [Some (reading 100); Some (reading 50);
                               Some (reading 0)] [] [] [] []) =
  [Some (reading 100); Some (reading 50); Some (reading 0)] ++ [] /\
  Z.of_nat (List.length [Some (reading 100); Some (reading 50);
                         Some (reading 0)]) <= 3 /\
  Exists (fun info => raw_amount info <= 0)
         (readings [Some (reading 100); Some (reading 50);
                    Some (reading 0)]) /\
  value (verify_token_balance "mint" 3 sample_bot
           (sample_world [Some (reading 100); Some (reading 50);
                          Some (reading 0)] [] [] [] [])) = (false, None).
Proof.
  assert (Hn : Z.of_nat (List.length [Some (reading 100); Some (reading 50);
                                      Some (reading 0)]) <= 3)
    by (cbn; lia).
  assert (Hex : Exists (fun info => raw_amount info <= 0)
                       (readings [Some (reading 100); Some (reading 50);
                                  Some (reading 0)])).
  { cbn. do 2 apply Exists_cons_tl. apply Exists_cons_hd. cbn. lia. }
  split; [reflexivity|]. split; [exact Hn|]. split; [exact Hex|].
  exact (proj1 (verify_token_balance_rejects_empty "mint" 3 sample_bot
                  (sample_world [Some (reading 100); Some (reading 50);
                                 Some (reading 0)] [] [] [] [])
                  [Some (reading 100); Some (reading 50); Some (reading 0)]
                  [] eq_refl Hn Hex)).
Defined.

(** ** The trade executor, one attempt at a time *)

Lemma verifier_events_quiet l :
  forallb verifier_event l = true ->
  existsb is_acquire l = false /\ existsb transient_failure l = false /\
  existsb terminal_failure l = false /\ existsb network_failure l = false /\
  trade_calls l = [].
Proof.
  unfold trade_calls.
  induction l as [|e l IH]; cbn; [auto 6|].
  intros H. apply andb_true_iff in H. destruct H as [He Hl].
  destruct (IH Hl) as (-> & -> & -> & -> & ->).
  destruct e; cbn in *; try discriminate; auto 6.
Qed.

Ltac unfold_attempt :=
  unfold one_attempt, attempt_body, prepare, submit, settle; unfold_ops.

Ltac open_verify tok b w :=
  let Hf := fresh "Hf" in
  pose proof (verify_frame tok 3 b w) as Hf;
  destruct (verify_token_balance tok 3 b w) as [[valid answer] vb vw vev]
    eqn:Hverify;
  cbn in Hf;
  destruct Hf as (-> & Hclock & Hticks & Hsol & Hprices & Hswaps & Hsends
                  & Hquiet).

Ltac use_hyps :=
  repeat match goal with
         | H : _ = true |- _ => rewrite H in *
         | H : _ = false |- _ => rewrite H in *
         end.

Ltac finish_cases :=
  cbn; use_hyps; cbn;
  repeat match goal with
         | |- _ /\ _ => split
         | |- _ -> _ => intro
         | H : _ /\ _ |- _ => destruct H
         | H : (_ <? _) = true |- _ => apply Z.ltb_lt in H
         | H : (_ <? _) = false |- _ => apply Z.ltb_ge in H
         end;
  try discriminate; try reflexivity; try lia; auto 10.

Lemma one_attempt_cases tok act pm slip a b w :
  let r := one_attempt tok act pm slip a b w in
  exists body,
    events r = EvAcquire :: body /\ existsb is_acquire body = false /\
    match value r with
    | None =>
        existsb transient_failure body = true /\
        existsb terminal_failure body = false /\
        In (EvSleep (retry_delay * inject_Z (a + 1))) body /\
        (existsb network_failure body = true -> a < max_retries)
    | Some res =>
        (existsb terminal_failure body = true -> res = false) /\
        (existsb transient_failure body = true ->
         res = false /\ max_retries <= a)
    end.
Proof.
  destruct act.
  - unfold_attempt. cbn.
    repeat (break_match; cbn);
      (eexists; split; [reflexivity|]); finish_cases.
  - unfold_attempt. cbn. open_verify tok b w.
    destruct (verifier_events_quiet vev Hquiet) as (Hq1 & Hq2 & Hq3 & Hq4 & _).
    repeat (break_match; cbn);
      (eexists; split; [reflexivity|]);
      rewrite ?existsb_app, ?Hq1, ?Hq2, ?Hq3, ?Hq4; finish_cases.
    all: rewrite ?existsb_app, ?Hq1, ?Hq2, ?Hq3, ?Hq4 in *; cbn in *;
      try discriminate.
    all: rewrite ?in_app_iff; cbn; auto 20.
Qed.

Lemma one_attempt_sell_unverified tok pm slip a b w :
  fst (value (verify_token_balance tok 3 b w)) = false ->
  value (one_attempt tok SELL pm slip a b w) = Some false.
Proof.
  unfold_attempt. cbn. open_verify tok b w. cbn. intros ->. reflexivity.
Qed.

(** ** The retry loop *)

Lemma execute_trade_attempts_cons a rest tok act pm slip b w :
  execute_trade_attempts (a :: rest) tok act pm slip b w =
  match one_attempt tok act pm slip a b w with
  | mk_run (Some res) b1 w1 e1 => mk_run res b1 w1 (e1 ++ [])
  | mk_run None b1 w1 e1 =>
      match execute_trade_attempts rest tok act pm slip b1 w1 with
      | mk_run c b2 w2 e2 => mk_run c b2 w2 (e1 ++ e2)
      end
  end.
Proof.
  cbn [execute_trade_attempts]. unfold bind at 1.
  destruct (one_attempt tok act pm slip a b w) as [[res|] b1 w1 e1];
    reflexivity.
Qed.

Lemma split_attempts_quiet body : forall rest,
  existsb is_acquire body = false ->
  split_attempts (body ++ rest) =
  (body ++ fst (split_attempts rest), snd (split_attempts rest)).
Proof.
  induction body as [|e body IH]; intros rest H; cbn.
  - destruct (split_attempts rest); reflexivity.
  - cbn in H. apply orb_false_iff in H. destruct H as [He Hb].
    rewrite (IH rest Hb), He. reflexivity.
Qed.

Lemma split_attempts_cons body rest :
  existsb is_acquire body = false ->
  split_attempts (EvAcquire :: body ++ rest) =
  ([], (body ++ fst (split_attempts rest)) :: snd (split_attempts rest)).
Proof.
  intros H. cbn. rewrite (split_attempts_quiet body rest H). reflexivity.
Qed.

Arguments split_attempts : simpl never.

Lemma attempts_chain tok act pm slip n : forall k b w,
  (k + n = 4)%nat ->
  let r := execute_trade_attempts (map Z.of_nat (seq k n)) tok act pm slip
                                  b w in
  exists tries,
    split_attempts (events r) = ([], tries) /\
    (List.length tries <= n)%nat /\
    (0 < n -> 1 <= List.length tries)%nat /\
    (forall i body,
        nth_error tries i = Some body -> (S i < List.length tries)%nat ->
        existsb transient_failure body = true /\
        existsb terminal_failure body = false /\
        In (EvSleep (retry_delay * inject_Z (Z.of_nat (k + i) + 1))) body) /\
    (forall i body,
        nth_error tries i = Some body ->
        existsb terminal_failure body = true ->
        S i = List.length tries /\ value r = false) /\
    (forall i body,
        nth_error tries i = Some body ->
        existsb transient_failure body = true -> (k + i < 3)%nat ->
        (S i < List.length tries)%nat).
Proof.
  induction n as [|n IH]; intros k b w Hk.
  - cbn. exists []. split; [reflexivity|]. split; [cbn; lia|].
    split; [lia|].
    split; [|split]; intros [|i] body H; discriminate.
  - cbn [seq map execute_trade_attempts]. unfold bind.
    pose proof (one_attempt_cases tok act pm slip (Z.of_nat k) b w) as Hc.
    destruct (one_attempt tok act pm slip (Z.of_nat k) b w)
      as [v b1 w1 e1] eqn:H1.
    cbn in Hc. destruct Hc as (body & -> & Hquiet & Hv).
    destruct v as [res|].
    + cbn. exists [body].
      rewrite (split_attempts_cons body [] Hquiet). cbn. rewrite app_nil_r.
      destruct Hv as (Hterm & Htrans).
      split; [reflexivity|]. split; [lia|]. split; [lia|].
      split; [|split].
      * intros i body' Hi Hlt. cbn in Hlt. lia.
      * intros [|[|i]] body' Hi Ht; try discriminate.
        inversion Hi; subst. auto.
      * intros [|[|i]] body' Hi Ht Hlt; try discriminate.
        inversion Hi; subst. destruct (Htrans Ht) as [_ Hle].
        unfold max_retries in Hle. lia.
    + specialize (IH (S k) b1 w1 ltac:(lia)). cbn in IH.
      destruct (execute_trade_attempts (map Z.of_nat (seq (S k) n)) tok act
                                       pm slip b1 w1)
        as [v2 b2 w2 e2] eqn:H2.
      cbn in IH.
      destruct IH as (tries & Hs & Hlen & Hpos & Hretry & Hterm & Hconv).
      destruct Hv as (Htrans & Hnoterm & Hsleep & Hnet).
      cbn. exists (body :: tries).
      rewrite (split_attempts_cons body e2 Hquiet), Hs. cbn.
      rewrite app_nil_r.
      split; [reflexivity|]. split; [lia|]. split; [lia|].
      split; [|split].
      * intros [|i] body' Hi Hlt; cbn in Hi, Hlt.
        -- inversion Hi; subst. rewrite Nat.add_0_r. auto.
        -- rewrite Nat.add_succ_r. apply (Hretry i body' Hi). lia.
      * intros [|i] body' Hi Ht; cbn in Hi.
        -- inversion Hi; subst. congruence.
        -- destruct (Hterm i body' Hi Ht) as [Hl Hval]. split; [|exact Hval].
           f_equal. exact Hl.
      * intros [|i] body' Hi Ht Hlt; cbn in Hi.
        -- assert (H0 : (0 < n)%nat) by lia. specialize (Hpos H0). lia.
        -- apply -> Nat.succ_lt_mono. apply (Hconv i body' Hi Ht). lia.
Qed.

(** ** C3 *)

(** C3, as stated, fails on the wording of the messages: the executor looks
    for the substrings "Blockhash not found" and "Transaction was not
    confirmed", capitals included.  An RPC error "Blockhash not found" is
    retried although it contains neither "blockhash not found" nor
    "transaction was not confirmed"; an RPC error "blockhash not found"
    contains the substring of the claim and is not retried. *)
Lemma retry_messages_are_case_sensitive :
  (str_in "blockhash not found" "Blockhash not found"
   || str_in "transaction was not confirmed" "Blockhash not found" = false
   /\ List.length
        (attempts
           (events
              (execute_trade "mint" BUY 1 2000 sample_bot
                 (sample_world [] [1%Q; 1%Q] [3%Q]
                    [SwapTransaction "tx"; SwapTransaction "tx"]
                    [SendRpcError "Blockhash not found"; SendAccepted]))))
      = 2%nat)
  /\
  (str_in "blockhash not found" "blockhash not found" = true
   /\ execute_trade "mint" BUY 1 2000 sample_bot
        (sample_world [] [1%Q; 1%Q] [3%Q]
           [SwapTransaction "tx"; SwapTransaction "tx"]
           [SendRpcError "blockhash not found"; SendAccepted])
      = mk_run false sample_bot
          (mk_world (fun n => inject_Z (Z.of_nat n)) 1 [] [1%Q] [3%Q]
                    [SwapTransaction "tx"] [SendAccepted])
          [EvCall "mint" BUY 1 2000; EvAcquire; EvSolBalance 1;
           EvSwap (buy_params "mint" 1 sample_bot) (SwapTransaction "tx");
           EvSend "tx" (SendRpcError "blockhash not found");
           EvLog ERROR (LogTxFailed "blockhash not found"); EvRelease]).
Proof.
  split; split; reflexivity.
Qed.

(** C3 (amended): [execute_trade] makes at most 4 attempts (3 retries).  An
    attempt is followed by another one only if it ended in a network-level
    error or in an RPC transaction error whose message contains
    "Blockhash not found" or "Transaction was not confirmed" (matched with
    their capitals), and then the backoff [retry_delay * attempt_number]
    was slept; such a failure is retried while the budget lasts.  A rejected
    or undecodable swap reply, insufficient funds, an unclassified RPC error
    or a failed balance verification end the call at once with [false]. *)
Theorem execute_trade_retry_policy :
  forall token action priority_multiplier slippage_bps b w,
    let r := execute_trade token action priority_multiplier slippage_bps
                           b w in
    let tries := attempts (events r) in
    (1 <= List.length tries <= 4)%nat /\
    (forall k body,
        nth_error tries k = Some body -> (S k < List.length tries)%nat ->
        existsb transient_failure body = true /\
        existsb terminal_failure body = false /\
        In (EvSleep (retry_delay * inject_Z (Z.of_nat k + 1))) body) /\
    (forall k body,
        nth_error tries k = Some body ->
        existsb transient_failure body = true -> (k < 3)%nat ->
        (S k < List.length tries)%nat) /\
    (forall k body,
        nth_error tries k = Some body ->
        existsb terminal_failure body = true ->
        S k = List.length tries /\ value r = false) /\
    (action = SELL ->
     fst (value (verify_token_balance token 3 b w)) = false ->
     List.length tries = 1%nat /\ value r = false).
Proof.
  intros token action pm slip b w r tries.
  pose proof (attempts_chain token action pm slip 4 0 b w eq_refl) as Hc.
  assert (Hr : r = execute_trade token action pm slip b w) by reflexivity.
  unfold execute_trade, bind, emit in Hr.
  change (range (max_retries + 1)) with (map Z.of_nat (seq 0 4)) in Hr.
  cbn zeta in Hc.
  destruct (execute_trade_attempts (map Z.of_nat (seq 0 4)) token action
                                   pm slip b w) as [v b1 w1 e1] eqn:He.
  cbn in Hc. destruct Hc as (tr & Hs & Hlen & Hpos & Hretry & Hterm & Hconv).
  assert (Ht : tries = tr).
  { unfold tries, attempts. rewrite Hr. cbn [events app].
    unfold split_attempts; fold split_attempts. rewrite Hs. reflexivity. }
  assert (Hv : value r = v) by (rewrite Hr; reflexivity).
  rewrite Ht, Hv. clear Ht.
  split; [lia|]. split; [exact Hretry|]. split; [|split].
  - intros k body Hk Htr Hlt. apply (Hconv k body Hk Htr). lia.
  - exact Hterm.
  - intros -> Hver.
    pose proof (one_attempt_sell_unverified token pm slip 0 b w Hver) as H1.
    change (map Z.of_nat (seq 0 4)) with (0 :: map Z.of_nat (seq 1 3)) in He.
    rewrite execute_trade_attempts_cons in He.
    destruct (one_attempt token SELL pm slip 0 b w) as [v0 b0 w0 e0] eqn:H0.
    pose proof (one_attempt_cases token SELL pm slip 0 b w) as Hc.
    rewrite H0 in Hc. cbn in Hc, H1. destruct Hc as (body & -> & Hq & _).
    subst v0. cbn in He. inversion He; subst.
    cbn [app] in Hs.
    rewrite (split_attempts_cons body [] Hq) in Hs. inversion Hs; subst.
    split; reflexivity.
Qed.

Lemma execute_trade_retry_policy_witness :
  nth_error
    (attempts
       (events
          (execute_trade "mint" BUY 1 2000 sample_bot
             (sample_world [] [1%Q; 1%Q] [3%Q]
                [SwapNetworkError; SwapRejected "no route"] []))))
    0 =
  Some [EvSolBalance 1;
        EvSwap (buy_params "mint" 1 sample_bot) SwapNetworkError;
        EvRelease; EvLog WARNING (LogNetworkRetry 0);
        EvSleep (retry_delay * inject_Z (0 + 1))] /\
  (1 < List.length
         (attempts
            (events
               (execute_trade "mint" BUY 1 2000 sample_bot
                  (sample_world [] [1%Q; 1%Q] [3%Q]
                     [SwapNetworkError; SwapRejected "no route"] [])))))%nat
  /\
  In (EvSleep (retry_delay * inject_Z (Z.of_nat 0 + 1)))
     [EvSolBalance 1;
      EvSwap (buy_params "mint" 1 sample_bot) SwapNetworkError;
      EvRelease; EvLog WARNING (LogNetworkRetry 0);
      EvSleep (retry_delay * inject_Z (0 + 1))].
Proof.
  assert (H0 : nth_error
    (attempts
       (events
          (execute_trade "mint" BUY 1 2000 sample_bot
             (sample_world [] [1%Q; 1%Q] [3%Q]
                [SwapNetworkError; SwapRejected "no route"] []))))
    0 =
  Some [EvSolBalance 1;
        EvSwap (buy_params "mint" 1 sample_bot) SwapNetworkError;
        EvRelease; EvLog WARNING (LogNetworkRetry 0);
        EvSleep (retry_delay * inject_Z (0 + 1))]) by reflexivity.
  assert (H1 : (1 < List.length
         (attempts
            (events
               (execute_trade "mint" BUY 1 2000 sample_bot
                  (sample_world [] [1%Q; 1%Q] [3%Q]
                     [SwapNetworkError; SwapRejected "no route"] [])))))%nat)
    by (vm_compute; lia).
  split; [exact H0|]. split; [exact H1|].
  exact (proj2 (proj2 (proj1 (proj2
           (execute_trade_retry_policy "mint" BUY 1 2000 sample_bot
              (sample_world [] [1%Q; 1%Q] [3%Q]
                 [SwapNetworkError; SwapRejected "no route"] [])))
           0%nat _ H0 H1))).
Defined.

(** ** C4 *)

Lemma Qlt_bool_true x y : (x < y)%Q -> Qlt_bool x y = true.
Proof.
  intros H. unfold Qlt_bool. destruct (Qle_bool y x) eqn:E; [|reflexivity].
  apply Qle_bool_iff in E. apply Qlt_not_le in H. contradiction.
Qed.

Lemma buy_during_cooldown token pm slip b w :
  (clock w (ticks w) < cooldown_end_time b)%Q ->
  execute_trade token BUY pm slip b w =
  mk_run false b (tick w)
         [EvCall token BUY pm slip;
          EvAcquire;
          EvLog INFO (LogCooldown (cooldown_end_time b - clock w (ticks w)));
          EvRelease].
Proof.
  intros H. apply Qlt_bool_true in H.
  unfold execute_trade.
  change (range (max_retries + 1)) with (0 :: map Z.of_nat (seq 1 3)).
  unfold bind at 1. unfold emit at 1.
  rewrite execute_trade_attempts_cons.
  unfold_attempt. cbn. rewrite H. reflexivity.
Qed.

(** C4: a BUY requested while the clock shows a time before
    [cooldown_end_time] returns [false] from its first and only attempt:
    the permit is taken and given back, the cooldown is logged, and nothing
    else happens - no request to the RPC node, the swap gateway or the price
    API, no sleep, no retry, and the bot is unchanged. *)
Theorem execute_trade_buy_cooldown :
  forall token priority_multiplier slippage_bps b w,
    (clock w (ticks w) < cooldown_end_time b)%Q ->
    let r := execute_trade token BUY priority_multiplier slippage_bps b w in
    r = mk_run false b (tick w)
               [EvCall token BUY priority_multiplier slippage_bps;
                EvAcquire;
                EvLog INFO (LogCooldown (cooldown_end_time b
                                         - clock w (ticks w)));
                EvRelease] /\
    List.length (attempts (events r)) = 1%nat /\
    existsb network_request (events r) = false /\
    existsb is_sleep (events r) = false /\
    permits_held (events r) = 0.
Proof.
  intros token pm slip b w H r. unfold r.
  rewrite (buy_during_cooldown token pm slip b w H).
  repeat split.
Qed.

Lemma execute_trade_buy_cooldown_witness :
  (clock (sample_world [] [1%Q] [3%Q] [SwapTransaction "tx"] [SendAccepted])
         (ticks (sample_world [] [1%Q] [3%Q] [SwapTransaction "tx"]
                              [SendAccepted]))
   < cooldown_end_time (set_cooldown_end_time 15 sample_bot))%Q /\
  value (execute_trade "mint" BUY 1 2000
           (set_cooldown_end_time 15 sample_bot)
           (sample_world [] [1%Q] [3%Q] [SwapTransaction "tx"]
                         [SendAccepted])) = false.
Proof.
  assert (H : (clock (sample_world [] [1%Q] [3%Q] [SwapTransaction "tx"]
                                   [SendAccepted])
                     (ticks (sample_world [] [1%Q] [3%Q]
                                          [SwapTransaction "tx"]
                                          [SendAccepted]))
               < cooldown_end_time (set_cooldown_end_time 15 sample_bot))%Q)
    by reflexivity.
  split; [exact H|].
  rewrite (proj1 (execute_trade_buy_cooldown "mint" 1 2000
                    (set_cooldown_end_time 15 sample_bot)
                    (sample_world [] [1%Q] [3%Q] [SwapTransaction "tx"]
                                  [SendAccepted]) H)).
  reflexivity.
Defined.

(** ** C9 *)

Lemma attempts_buy_blind tok pm1 s1 pm2 s2 l : forall b w,
  execute_trade_attempts l tok BUY pm1 s1 b w =
  execute_trade_attempts l tok BUY pm2 s2 b w.
Proof.
  induction l as [|a l IH]; intros b w; [reflexivity|].
  rewrite !execute_trade_attempts_cons.
  change (one_attempt tok BUY pm2 s2 a b w)
    with (one_attempt tok BUY pm1 s1 a b w).
  destruct (one_attempt tok BUY pm1 s1 a b w) as [[res|] b1 w1 e1];
    [reflexivity|].
  rewrite IH. reflexivity.
Qed.

Lemma one_attempt_buy_requests tok pm slip a b w :
  forallb standard_buy_request (events (one_attempt tok BUY pm slip a b w))
  = true.
Proof.
  unfold_attempt. cbn.
  repeat (break_match; cbn); reflexivity.
Qed.

Lemma attempts_buy_requests tok pm slip l : forall b w,
  forallb standard_buy_request
          (events (execute_trade_attempts l tok BUY pm slip b w)) = true.
Proof.
  induction l as [|a l IH]; intros b w; [reflexivity|].
  rewrite execute_trade_attempts_cons.
  pose proof (one_attempt_buy_requests tok pm slip a b w) as H1.
  destruct (one_attempt tok BUY pm slip a b w) as [[res|] b1 w1 e1]; cbn in *.
  - rewrite app_nil_r. exact H1.
  - specialize (IH b1 w1).
    destruct (execute_trade_attempts l tok BUY pm slip b1 w1); cbn in *.
    rewrite forallb_app, H1, IH. reflexivity.
Qed.

(** C9: two BUY calls that differ only in [priority_multiplier] and
    [slippage_bps] return the same result, leave the same bot and world and
    perform the same effects (the call marker, which records the arguments,
    apart); every swap request of a BUY asks for slippage 3000 and a
    priority fee of 100000 micro-lamports. *)
Theorem execute_trade_buy_ignores_tuning :
  forall token pm1 slip1 pm2 slip2 b w,
    let r1 := execute_trade token BUY pm1 slip1 b w in
    let r2 := execute_trade token BUY pm2 slip2 b w in
    value r1 = value r2 /\ bot r1 = bot r2 /\ world r1 = world r2 /\
    (exists effects,
        events r1 = EvCall token BUY pm1 slip1 :: effects /\
        events r2 = EvCall token BUY pm2 slip2 :: effects) /\
    (forall p reply,
        In (EvSwap p reply) (events r1) ->
        slippage p = 3000 /\ priorityMicroLamports p = 100000).
Proof.
  intros token pm1 slip1 pm2 slip2 b w r1 r2.
  pose proof (attempts_buy_blind token pm1 slip1 pm2 slip2
                (range (max_retries + 1)) b w) as Heq.
  pose proof (attempts_buy_requests token pm1 slip1
                (range (max_retries + 1)) b w) as Hreq.
  unfold r1, r2, execute_trade, bind, emit.
  rewrite <- Heq.
  destruct (execute_trade_attempts (range (max_retries + 1)) token BUY pm1
                                   slip1 b w) as [v b1 w1 e1].
  cbn in *. repeat split.
  - exists e1. split; reflexivity.
  - destruct H as [H|H]; [discriminate|].
    rewrite forallb_forall in Hreq. specialize (Hreq _ H). cbn in Hreq.
    apply andb_true_iff in Hreq. destruct Hreq as [Hs _].
    apply Z.eqb_eq in Hs. exact Hs.
  - destruct H as [H|H]; [discriminate|].
    rewrite forallb_forall in Hreq. specialize (Hreq _ H). cbn in Hreq.
    apply andb_true_iff in Hreq. destruct Hreq as [_ Hp].
    apply Z.eqb_eq in Hp. exact Hp.
Qed.

Lemma execute_trade_buy_ignores_tuning_witness :
  In (EvSwap (buy_params "mint" 1 sample_bot) (SwapTransaction "tx"))
     (events (execute_trade "mint" BUY 1 2000 sample_bot
                (sample_world [] [1%Q] [3%Q] [SwapTransaction "tx"]
                              [SendAccepted]))) /\
  slippage (buy_params "mint" 1 sample_bot) = 3000 /\
  priorityMicroLamports (buy_params "mint" 1 sample_bot) = 100000 /\
  amount (buy_params "mint" 1 sample_bot) = 100000000.
Proof.
  assert (H : In (EvSwap (buy_params "mint" 1 sample_bot)
                         (SwapTransaction "tx"))
                 (events (execute_trade "mint" BUY 1 2000 sample_bot
                            (sample_world [] [1%Q] [3%Q]
                               [SwapTransaction "tx"] [SendAccepted])))).
  { vm_compute. auto 10. }
  split; [exact H|].
  destruct (proj2 (proj2 (proj2 (proj2
              (execute_trade_buy_ignores_tuning "mint" 1 2000 3 5000
                 sample_bot
                 (sample_world [] [1%Q] [3%Q] [SwapTransaction "tx"]
                               [SendAccepted])))))
              _ _ H) as [Hs Hp].
  split; [exact Hs|]. split; [exact Hp|]. reflexivity.
Defined.

(** ** C5 *)

Lemma one_attempt_sell_result tok pm slip a b w :
  let r := one_attempt tok SELL pm slip a b w in
  let v := verify_token_balance tok 3 b w in
  match value r with
  | Some true =>
      exists info sell_price tx,
        value v = (true, Some info) /\
        events r =
        EvAcquire :: events v
          ++ [EvSwap (sell_params tok (raw_amount info) pm slip b)
                     (SwapTransaction tx);
              EvSend tx SendAccepted;
              EvPrice tok sell_price]
          ++ (if truthy sell_price then
                [EvLog INFO (LogSold tok ((sell_price - buy_price b)
                                          * ui_amount info)%Q)]
              else [])
          ++ [EvRelease] /\
        bot r = sold info sell_price (clock w (ticks w)) b
  | _ =>
      bot r = b /\ clock (world r) = clock w /\ ticks (world r) = ticks w
  end.
Proof.
  intros r v. unfold r, v. clear r v.
  unfold_attempt. cbn. open_verify tok b w.
  repeat (break_match; cbn); try (repeat split; auto; fail).
  all: match goal with
       | |- context [EvSwap (sell_params _ (raw_amount ?i) _ _ _) _
                       :: EvSend ?x SendAccepted :: EvPrice _ ?q :: _] =>
           exists i, q, x
       end;
    (split; [reflexivity|]); use_hyps; cbn;
    (split; [rewrite app_nil_r, <- !app_assoc; reflexivity|]);
    unfold sold; rewrite Hclock, Hticks; use_hyps; reflexivity.
Qed.

Lemma execute_trade_unfold tok act pm slip b w :
  execute_trade tok act pm slip b w =
  match execute_trade_attempts (range (max_retries + 1)) tok act pm slip
                               b w with
  | mk_run v b1 w1 e1 => mk_run v b1 w1 (EvCall tok act pm slip :: e1)
  end.
Proof. reflexivity. Qed.

Arguments execute_trade : simpl never.

Lemma attempts_sell_success tok pm slip l : forall b w,
  let r := execute_trade_attempts l tok SELL pm slip b w in
  value r = true ->
  exists pre w1 info sell_price tx,
    clock w1 = clock w /\ ticks w1 = ticks w /\
    value (verify_token_balance tok 3 b w1) = (true, Some info) /\
    events r =
    pre ++ EvAcquire :: events (verify_token_balance tok 3 b w1)
      ++ [EvSwap (sell_params tok (raw_amount info) pm slip b)
                 (SwapTransaction tx);
          EvSend tx SendAccepted;
          EvPrice tok sell_price]
      ++ (if truthy sell_price then
            [EvLog INFO (LogSold tok ((sell_price - buy_price b)
                                      * ui_amount info)%Q)]
          else [])
      ++ [EvRelease] /\
    bot r = sold info sell_price (clock w (ticks w)) b.
Proof.
  induction l as [|a l IH]; intros b w; [discriminate|].
  cbn zeta. rewrite execute_trade_attempts_cons.
  pose proof (one_attempt_sell_result tok pm slip a b w) as H1.
  cbn zeta in H1.
  destruct (one_attempt tok SELL pm slip a b w) as [[[|]|] b1 w1 e1];
    cbn in H1 |- *.
  - intros _. destruct H1 as (info & sell_price & tx & Hv & He & Hb).
    exists [], w, info, sell_price, tx. rewrite app_nil_r.
    repeat split; auto.
  - discriminate.
  - destruct H1 as (-> & Hc & Ht).
    specialize (IH b w1). cbn zeta in IH.
    destruct (execute_trade_attempts l tok SELL pm slip b w1)
      as [v2 b2 w2 e2].
    cbn in IH |- *. intros Hv.
    destruct (IH Hv) as (pre & w' & info & sell_price & tx & Hc' & Ht' & Hver
                         & He & Hb).
    exists (e1 ++ pre), w', info, sell_price, tx.
    rewrite He, Hb, <- app_assoc, Hc, Ht.
    repeat split; congruence.
Qed.

(** C5, as stated, fails on the profit: a SELL that succeeds while the exit
    price cannot be fetched (the price client answers 0) leaves
    [total_profit] as it was, although (sell_price - buy_price) * quantity
    is not zero. *)
Lemma sell_without_exit_price_keeps_profit :
  let r := execute_trade "mint" SELL 1 2000 holding_bot
             (sample_world [Some (reading 100000000);
                            Some (reading 100000000);
                            Some (reading 100000000)]
                           [] [0%Q] [SwapTransaction "tx"]
                           [SendAccepted]) in
  value r = true /\
  In (EvPrice "mint" 0) (events r) /\
  total_profit (bot r) = total_profit holding_bot /\
  ~ (total_profit (bot r)
     == total_profit holding_bot
        + (0 - buy_price holding_bot)
          * ui_amount (reading 100000000))%Q.
Proof.
  vm_compute. repeat split; auto 20. discriminate.
Qed.

(** C5 (amended): a SELL that returns [true] sold, in its last attempt,
    exactly the raw amount of the reading that [verify_token_balance]
    confirmed in that attempt; it cleared the position and its open time
    and set [cooldown_end_time] to the time of the sale plus 15 seconds, so
    that a BUY before that time is refused.  When the exit price was
    obtained (non-zero), (sell_price - buy_price) * ui_amount was added to
    [total_profit]; when it was not, [total_profit] is unchanged. *)
Theorem execute_trade_sell_success :
  forall token priority_multiplier slippage_bps b w,
    let r := execute_trade token SELL priority_multiplier slippage_bps
                           b w in
    value r = true ->
    exists info sell_price tx pre w1,
      let v := verify_token_balance token 3 b w1 in
      let request := sell_params token (raw_amount info) priority_multiplier
                                 slippage_bps b in
      value v = (true, Some info) /\ 0 < raw_amount info /\
      events r =
      pre ++ EvAcquire :: events v
        ++ [EvSwap request (SwapTransaction tx);
            EvSend tx SendAccepted;
            EvPrice token sell_price]
        ++ (if truthy sell_price then
              [EvLog INFO (LogSold token ((sell_price - buy_price b)
                                          * ui_amount info)%Q)]
            else [])
        ++ [EvRelease] /\
      amount request = raw_amount info /\
      fromMint request = token /\ toMint request = sol_mint b /\
      slippage request = slippage_bps /\
      current_position (bot r) = None /\
      position_open_time (bot r) = None /\
      cooldown_end_time (bot r) = (clock w (ticks w) + 15)%Q /\
      total_profit (bot r) =
      (if truthy sell_price then
         (total_profit b + (sell_price - buy_price b) * ui_amount info)%Q
       else total_profit b) /\
      trades_executed (bot r) = trades_executed b /\
      (forall token' pm' slip' w',
          (clock w' (ticks w') < clock w (ticks w) + 15)%Q ->
          value (execute_trade token' BUY pm' slip' (bot r) w') = false).
Proof.
  intros token pm slip b w r Hr.
  pose proof (attempts_sell_success token pm slip (range (max_retries + 1))
                b w) as H.
  cbn zeta in H. unfold r in Hr |- *. clear r.
  rewrite execute_trade_unfold in Hr |- *.
  destruct (execute_trade_attempts (range (max_retries + 1)) token SELL pm
                                   slip b w) as [v b1 w1 e1].
  cbn in Hr, H |- *.
  destruct (H Hr) as (pre & w' & info & sell_price & tx & Hc & Ht & Hver
                      & He & Hb).
  exists info, sell_price, tx, (EvCall token SELL pm slip :: pre), w'.
  cbn zeta. subst b1 e1.
  destruct (verify_valid token 3 b w' (Some info) Hver) as (i & Hi & Hpos).
  inversion Hi; subst i.
  split; [exact Hver|]. split; [exact Hpos|]. split; [reflexivity|].
  do 7 (split; [reflexivity|]).
  split; [unfold sold; cbn; destruct (truthy sell_price); reflexivity|].
  split; [unfold sold; cbn; destruct (truthy sell_price); reflexivity|].
  intros token2 pm2 slip2 w2 Hlt.
  rewrite (buy_during_cooldown token2 pm2 slip2 _ w2); [reflexivity|].
  exact Hlt.
Qed.

Lemma execute_trade_sell_success_witness :
  value (execute_trade "mint" SELL 1.5 3000 holding_bot
           (sample_world [Some (reading 100000000);
                          Some (reading 100000000);
                          Some (reading 100000000)]
                         [] [3%Q] [SwapTransaction "tx"]
                         [SendAccepted])) = true /\
  exists info sell_price,
    raw_amount info = 100000000 /\ truthy sell_price = true /\
    total_profit
      (bot (execute_trade "mint" SELL 1.5 3000 holding_bot
              (sample_world [Some (reading 100000000);
                             Some (reading 100000000);
                             Some (reading 100000000)]
                            [] [3%Q] [SwapTransaction "tx"]
                            [SendAccepted]))) =
    (total_profit holding_bot
     + (sell_price - buy_price holding_bot) * ui_amount info)%Q.
Proof.
  assert (Hr : value (execute_trade "mint" SELL 1.5 3000 holding_bot
           (sample_world [Some (reading 100000000);
                          Some (reading 100000000);
                          Some (reading 100000000)]
                         [] [3%Q] [SwapTransaction "tx"]
                         [SendAccepted])) = true) by reflexivity.
  split; [exact Hr|].
  destruct (execute_trade_sell_success "mint" 1.5 3000 holding_bot
              (sample_world [Some (reading 100000000);
                             Some (reading 100000000);
                             Some (reading 100000000)]
                            [] [3%Q] [SwapTransaction "tx"]
                            [SendAccepted]) Hr)
    as (info & sell_price & tx & pre & w1 & Hv & Hpos & He & Ha & _ & _ & _
        & _ & _ & _ & Hp & _).
  exists (reading 100000000), 3%Q.
  split; [reflexivity|]. split; reflexivity.
Defined.

(** ** C10 *)

Lemma truthy_nonzero d : truthy d = true <-> ~ (d == 0)%Q.
Proof.
  unfold truthy, Qeq. cbn. rewrite Z.mul_1_r, negb_true_iff, Z.eqb_neq.
  reflexivity.
Qed.

Lemma one_attempt_buy_result tok pm slip a b w :
  let r := one_attempt tok BUY pm slip a b w in
  match value r with
  | Some true =>
      truthy (buy_price (bot r)) = true /\
      In (EvPrice tok (buy_price (bot r))) (events r) /\
      current_position (bot r) = Some tok
  | Some false => True
  | None => bot r = b
  end /\
  (forall p, In (EvPrice tok p) (events r) -> truthy p = false ->
             value r = Some false).
Proof.
  unfold_attempt. cbn.
  repeat (break_match; cbn);
    repeat match goal with
           | H : negb _ = false |- _ => apply negb_false_iff in H
           | H : negb _ = true |- _ => apply negb_true_iff in H
           end;
    (split; [solve [auto 10]|]); intros p Hin Hp;
    repeat match goal with
           | H : _ \/ _ |- _ => destruct H
           | H : False |- _ => destruct H
           | H : _ = _ :> event |- _ => inversion H; clear H; subst
           end;
    try reflexivity; try discriminate; try congruence.
Qed.

Lemma attempts_buy_success tok pm slip l : forall b w,
  let r := execute_trade_attempts l tok BUY pm slip b w in
  (value r = true ->
   truthy (buy_price (bot r)) = true /\
   In (EvPrice tok (buy_price (bot r))) (events r) /\
   current_position (bot r) = Some tok) /\
  (forall p, In (EvPrice tok p) (events r) -> truthy p = false ->
             value r = false).
Proof.
  induction l as [|a l IH]; intros b w.
  - cbn. split; [discriminate|]. intros p [].
  - cbn zeta. rewrite execute_trade_attempts_cons.
    pose proof (one_attempt_buy_result tok pm slip a b w) as H1.
    cbn zeta in H1.
    destruct (one_attempt tok BUY pm slip a b w) as [[[|]|] b1 w1 e1];
      cbn in H1 |- *; destruct H1 as [Hres Hzero].
    + rewrite app_nil_r. split; [auto|].
      intros p Hin Hp. specialize (Hzero p Hin Hp). discriminate.
    + split; [discriminate|]. reflexivity.
    + specialize (IH b1 w1). cbn zeta in IH.
      destruct (execute_trade_attempts l tok BUY pm slip b1 w1)
        as [v2 b2 w2 e2].
      cbn in IH |- *. destruct IH as [IHres IHzero]. split.
      * intros Hv. destruct (IHres Hv) as (Ht & Hin & Hpos).
        repeat split; auto. apply in_or_app. right. exact Hin.
      * intros p Hin Hp. apply in_app_or in Hin. destruct Hin as [Hin|Hin].
        -- specialize (Hzero p Hin Hp). discriminate.
        -- exact (IHzero p Hin Hp).
Qed.

(** C10, as stated, fails on the sign: the executor refuses a buy price of
    0 only, so a quote of -1 opens a position with buy_price = -1. *)
Lemma buy_price_may_be_negative :
  let r := execute_trade "mint" BUY 1 2000 sample_bot
             (sample_world [] [1%Q] [(-1)%Q] [SwapTransaction "tx"]
                           [SendAccepted]) in
  value r = true /\ buy_price (bot r) = (-1)%Q /\
  ~ (0 < buy_price (bot r))%Q.
Proof.
  vm_compute. repeat split. discriminate.
Qed.

(** C10 (amended): whenever [execute_trade] returns [true] for a BUY, the
    recorded [buy_price] is the quote of the price client and is not zero
    (it is strictly positive whenever that quote is not negative), and the
    position is opened; a price fetch that fails or returns 0 makes the
    whole buy return [false].  The profit-percentage computation of
    [monitor_token], (current_price - buy_price) / buy_price * 100, is
    therefore defined for a position opened by a successful buy: it never
    divides by zero. *)
Theorem execute_trade_buy_price_nonzero :
  forall token priority_multiplier slippage_bps b w,
    let r := execute_trade token BUY priority_multiplier slippage_bps b w in
    (value r = true ->
     ~ (buy_price (bot r) == 0)%Q /\
     In (EvPrice token (buy_price (bot r))) (events r) /\
     current_position (bot r) = Some token /\
     ((0 <= buy_price (bot r))%Q -> (0 < buy_price (bot r))%Q) /\
     (forall current_price,
         profit_percentage current_price (buy_price (bot r)) =
         Some ((current_price - buy_price (bot r)) / buy_price (bot r)
               * 100)%Q)) /\
    (forall p, In (EvPrice token p) (events r) -> (p == 0)%Q ->
               value r = false).
Proof.
  intros token pm slip b w r.
  pose proof (attempts_buy_success token pm slip (range (max_retries + 1))
                b w) as H.
  cbn zeta in H. unfold r. clear r. rewrite execute_trade_unfold.
  destruct (execute_trade_attempts (range (max_retries + 1)) token BUY pm
                                   slip b w) as [v b1 w1 e1].
  cbn in H |- *. destruct H as [Hres Hzero]. split.
  - intros Hv. destruct (Hres Hv) as (Ht & Hin & Hpos).
    split; [apply truthy_nonzero; exact Ht|].
    split; [right; exact Hin|]. split; [exact Hpos|]. split.
    + intros Hle. apply Qle_lteq in Hle. destruct Hle as [Hlt|Heq]; [exact Hlt|].
      apply truthy_nonzero in Ht. symmetry in Heq. contradiction.
    + intros current_price. unfold profit_percentage, decimal_div.
      rewrite Ht. reflexivity.
  - intros p [Hin|Hin] Hp; [discriminate|].
    apply (Hzero p Hin).
    destruct (truthy p) eqn:E; [|reflexivity].
    apply truthy_nonzero in E. contradiction.
Qed.

Lemma execute_trade_buy_price_nonzero_witness :
  value (execute_trade "mint" BUY 1 2000 sample_bot
           (sample_world [] [1%Q] [3%Q] [SwapTransaction "tx"]
                         [SendAccepted])) = true /\
  ~ (buy_price
       (bot (execute_trade "mint" BUY 1 2000 sample_bot
               (sample_world [] [1%Q] [3%Q] [SwapTransaction "tx"]
                             [SendAccepted]))) == 0)%Q.
Proof.
  assert (Hv : value (execute_trade "mint" BUY 1 2000 sample_bot
           (sample_world [] [1%Q] [3%Q] [SwapTransaction "tx"]
                         [SendAccepted])) = true) by reflexivity.
  split; [exact Hv|].
  exact (proj1 (proj1 (execute_trade_buy_price_nonzero "mint" 1 2000
                         sample_bot
                         (sample_world [] [1%Q] [3%Q] [SwapTransaction "tx"]
                                       [SendAccepted])) Hv)).
Defined.

(** ** Statistics and calls of the executor *)

Lemma trade_calls_app l1 l2 :
  trade_calls (l1 ++ l2) = trade_calls l1 ++ trade_calls l2.
Proof. unfold trade_calls. apply flat_map_app. Qed.

Lemma one_attempt_stats tok act pm slip a b w :
  let r := one_attempt tok act pm slip a b w in
  match value r with
  | None => bot r = b
  | Some res =>
      trades_executed (bot r) =
      match act with
      | BUY => if res then trades_executed b + 1 else trades_executed b
      | SELL => trades_executed b
      end /\
      (act = BUY \/ res = false -> total_profit (bot r) = total_profit b)
  end /\
  trade_calls (events r) = [].
Proof.
  destruct act.
  - unfold_attempt. cbn.
    repeat (break_match; cbn); repeat split; auto.
  - unfold_attempt. cbn. open_verify tok b w.
    destruct (verifier_events_quiet vev Hquiet) as (_ & _ & _ & _ & Hq).
    repeat (break_match; cbn); rewrite ?trade_calls_app, ?Hq;
      repeat split; auto.
    all: intros [H|H]; discriminate.
Qed.

Lemma trade_calls_call tok act pm slip l :
  trade_calls (EvCall tok act pm slip :: l) =
  (tok, act, pm, slip) :: trade_calls l.
Proof. reflexivity. Qed.

Arguments trade_calls : simpl never.

Lemma attempts_stats tok act pm slip l : forall b w,
  let r := execute_trade_attempts l tok act pm slip b w in
  trades_executed (bot r) =
  match act with
  | BUY => if value r then trades_executed b + 1 else trades_executed b
  | SELL => trades_executed b
  end /\
  (act = BUY \/ value r = false -> total_profit (bot r) = total_profit b) /\
  trade_calls (events r) = [].
Proof.
  induction l as [|a l IH]; intros b w.
  - cbn. destruct act; auto.
  - cbn zeta. rewrite execute_trade_attempts_cons.
    pose proof (one_attempt_stats tok act pm slip a b w) as H1.
    cbn zeta in H1.
    destruct (one_attempt tok act pm slip a b w) as [[res|] b1 w1 e1];
      cbn in H1 |- *; destruct H1 as [H1 Hc].
    + rewrite app_nil_r. destruct H1 as [Ht Hp]. auto.
    + subst b1. specialize (IH b w1). cbn zeta in IH.
      destruct (execute_trade_attempts l tok act pm slip b w1)
        as [v2 b2 w2 e2].
      cbn in IH |- *. destruct IH as (Ht & Hp & Hc2).
      rewrite trade_calls_app, Hc, Hc2. auto.
Qed.

Lemma execute_trade_stats tok act pm slip b w :
  let r := execute_trade tok act pm slip b w in
  trades_executed (bot r) =
  match act with
  | BUY => if value r then trades_executed b + 1 else trades_executed b
  | SELL => trades_executed b
  end /\
  (act = BUY \/ value r = false -> total_profit (bot r) = total_profit b) /\
  trade_calls (events r) = [(tok, act, pm, slip)].
Proof.
  cbn zeta. rewrite execute_trade_unfold.
  pose proof (attempts_stats tok act pm slip (range (max_retries + 1)) b w)
    as H.
  cbn zeta in H.
  destruct (execute_trade_attempts (range (max_retries + 1)) tok act pm slip
                                   b w) as [v b1 w1 e1].
  cbn in H |- *. destruct H as (Ht & Hp & Hc).
  rewrite trade_calls_call, Hc. auto.
Qed.

(** ** The sell escalation *)

Lemma sell_rounds_step fuel tok rc b w :
  sell_rounds (S fuel) tok rc b w =
  if (rc <? max_sell_retries) && position_held (current_position b) then
    match execute_trade tok SELL (nth (Z.to_nat rc) multipliers 0%Q)
                        (nth (Z.to_nat rc) slippages 0) b w with
    | mk_run true b1 w1 e1 => mk_run tt b1 w1 (e1 ++ [])
    | mk_run false b1 w1 e1 =>
        match verify_token_balance tok 3 b1 w1 with
        | mk_run (false, _) b2 w2 e2 =>
            mk_run tt (set_current_position None b2) w2
                   (e1 ++ e2 ++ [EvLog ERROR LogLostBalance])
        | mk_run (true, _) b2 w2 e2 =>
            match sell_rounds fuel tok (rc + 1) b2 w2 with
            | mk_run u b3 w3 e3 =>
                mk_run u b3 w3
                  (e1 ++ e2
                     ++ (if rc + 1 <? max_sell_retries then
                           [EvLog INFO
                              (LogRetryingSell
                                 (nth (Z.to_nat (rc + 1)) multipliers 0%Q)
                                 (nth (Z.to_nat (rc + 1)) slippages 0)
                                 (rc + 1));
                            EvSleep (Qpower 1.5 (rc + 1))]
                         else [])
                     ++ e3)
            end
        end
    end
  else mk_run tt b w [].
Proof.
  cbn [sell_rounds]. unfold bind at 1. unfold get_bot at 1.
  destruct ((rc <? max_sell_retries) && position_held (current_position b));
    [|reflexivity].
  unfold bind at 1.
  destruct (execute_trade tok SELL _ _ b w) as [[|] b1 w1 e1]; [reflexivity|].
  unfold bind at 1.
  destruct (verify_token_balance tok 3 b1 w1) as [[[|] answer] b2 w2 e2];
    cbn [fst negb].
  - unfold bind at 1.
    destruct (rc + 1 <? max_sell_retries).
    + unfold bind at 1, log, sleep, emit.
      destruct (sell_rounds fuel tok (rc + 1) b2 w2); reflexivity.
    + unfold ret at 1.
      destruct (sell_rounds fuel tok (rc + 1) b2 w2); reflexivity.
  - reflexivity.
Qed.

Lemma sell_rounds_calls tok fuel : forall rc b w,
  0 <= rc ->
  let r := sell_rounds fuel tok rc b w in
  trades_executed (bot r) = trades_executed b /\
  exists n,
    (n <= 4 - Z.to_nat rc)%nat /\
    trade_calls (events r) =
    map (sell_call tok) (firstn n (skipn (Z.to_nat rc) schedule)).
Proof.
  induction fuel as [|fuel IH]; intros rc b w Hrc.
  - cbn. split; [reflexivity|]. exists 0%nat. split; [lia|reflexivity].
  - cbn zeta. rewrite sell_rounds_step.
    destruct (rc <? max_sell_retries) eqn:Hlt; cbn [andb];
      [|split; [reflexivity|]; exists 0%nat; split; [lia|reflexivity]].
    destruct (position_held (current_position b));
      [|split; [reflexivity|]; exists 0%nat; split; [lia|reflexivity]].
    apply Z.ltb_lt in Hlt. unfold max_sell_retries in Hlt.
    pose proof (execute_trade_stats tok SELL
                  (nth (Z.to_nat rc) multipliers 0%Q)
                  (nth (Z.to_nat rc) slippages 0) b w) as Hx.
    cbn zeta in Hx.
    destruct (execute_trade tok SELL _ _ b w) as [success b1 w1 e1].
    cbn [bot events value] in Hx. destruct Hx as (Ht1 & _ & Hc1).
    assert (Hfirst : forall n,
               (tok, SELL, nth (Z.to_nat rc) multipliers 0%Q,
                nth (Z.to_nat rc) slippages 0)
               :: map (sell_call tok)
                      (firstn n (skipn (Z.to_nat (rc + 1)) schedule)) =
               map (sell_call tok)
                   (firstn (S n) (skipn (Z.to_nat rc) schedule))).
    { intros n.
      assert (Hcase : rc = 0 \/ rc = 1 \/ rc = 2 \/ rc = 3) by lia.
      destruct Hcase as [-> | [-> | [-> | ->]]]; reflexivity. }
    destruct success.
    + cbn [bot events value]. rewrite app_nil_r, Hc1. split; [exact Ht1|].
      exists 1%nat. split; [lia|].
      specialize (Hfirst 0%nat). cbn [firstn map] in Hfirst. exact Hfirst.
    + pose proof (verify_frame tok 3 b1 w1) as Hf. cbn zeta in Hf.
      destruct (verify_token_balance tok 3 b1 w1)
        as [[valid answer] b2 w2 e2].
      cbn in Hf. destruct Hf as (-> & _ & _ & _ & _ & _ & _ & Hquiet).
      destruct (verifier_events_quiet e2 Hquiet) as (_ & _ & _ & _ & Hc2).
      destruct valid.
      * destruct (IH (rc + 1) b1 w2 ltac:(lia)) as (Ht3 & n & Hn & Hc3).
        destruct (sell_rounds fuel tok (rc + 1) b1 w2) as [u b3 w3 e3].
        cbn [bot events value] in Ht3, Hc3 |- *. split; [congruence|].
        exists (S n). split; [lia|].
        rewrite !trade_calls_app, Hc1, Hc2, Hc3.
        destruct (rc + 1 <? max_sell_retries);
          cbn [trade_calls app]; apply Hfirst.
      * cbn [bot events value set_current_position trades_executed].
        split; [exact Ht1|]. exists 1%nat. split; [lia|].
        rewrite !trade_calls_app, Hc1, Hc2. cbn [app].
        specialize (Hfirst 0%nat). cbn [firstn map] in Hfirst. exact Hfirst.
Qed.

(** The fuel of [sell_escalation] is never used up: the loop condition ends
    the loop first, and more fuel changes nothing. *)
Lemma sell_rounds_fuel tok fuel1 : forall fuel2 rc b w,
  0 <= rc ->
  (Z.to_nat (max_sell_retries - rc) <= fuel1)%nat ->
  (Z.to_nat (max_sell_retries - rc) <= fuel2)%nat ->
  sell_rounds fuel1 tok rc b w = sell_rounds fuel2 tok rc b w.
Proof.
  assert (Hdone : forall fuel rc b w,
             max_sell_retries <= rc ->
             sell_rounds fuel tok rc b w = mk_run tt b w []).
  { intros [|fuel] rc b w Hge; [reflexivity|].
    rewrite sell_rounds_step.
    destruct (rc <? max_sell_retries) eqn:Hlt; [|reflexivity].
    apply Z.ltb_lt in Hlt. lia. }
  induction fuel1 as [|fuel1 IH]; intros fuel2 rc b w Hrc H1 H2.
  - unfold max_sell_retries in *.
    rewrite (Hdone 0%nat) by lia. rewrite (Hdone fuel2) by lia.
    reflexivity.
  - destruct fuel2 as [|fuel2].
    + unfold max_sell_retries in *.
      rewrite (Hdone (S fuel1)) by lia. rewrite (Hdone 0%nat) by lia.
      reflexivity.
    + rewrite !sell_rounds_step.
      destruct (rc <? max_sell_retries) eqn:Hlt; [|reflexivity].
      apply Z.ltb_lt in Hlt. cbn [andb].
      destruct (position_held (current_position b)); [|reflexivity].
      destruct (execute_trade tok SELL _ _ b w) as [[|] b1 w1 e1];
        [reflexivity|].
      destruct (verify_token_balance tok 3 b1 w1)
        as [[[|] answer] b2 w2 e2]; [|reflexivity].
      unfold max_sell_retries in *.
      rewrite (IH fuel2 (rc + 1) b2 w2) by lia. reflexivity.
Qed.

(** ** The position monitor *)

Lemma verify_for_exit_step tok b w :
  verify_for_exit tok b w =
  match verify_token_balance tok 3 b w with
  | mk_run (true, _) b1 w1 e1 => mk_run true b1 w1 (e1 ++ [])
  | mk_run (false, _) b1 w1 e1 =>
      match verify_token_balance tok 3 b1 w1 with
      | mk_run (true, _) b2 w2 e2 =>
          mk_run true b2 w2
                 (e1 ++ EvLog ERROR LogVerifyFailed :: EvSleep 2 :: e2 ++ [])
      | mk_run (false, _) b2 w2 e2 =>
          mk_run false (set_current_position None b2) w2
                 (e1 ++ EvLog ERROR LogVerifyFailed :: EvSleep 2
                     :: e2 ++ [EvLog ERROR LogVerifyRetryFailed])
      end
  end.
Proof.
  unfold verify_for_exit. unfold bind at 1.
  destruct (verify_token_balance tok 3 b w) as [[[|] answer] b1 w1 e1];
    cbn [fst]; [reflexivity|].
  unfold bind, log, sleep, emit.
  destruct (verify_token_balance tok 3 b1 w1) as [[[|] answer2] b2 w2 e2];
    reflexivity.
Qed.

Lemma verify_for_exit_frame tok b w :
  let r := verify_for_exit tok b w in
  trades_executed (bot r) = trades_executed b /\
  total_profit (bot r) = total_profit b /\
  trade_calls (events r) = [].
Proof.
  cbn zeta. rewrite verify_for_exit_step.
  pose proof (verify_frame tok 3 b w) as Hf. cbn zeta in Hf.
  destruct (verify_token_balance tok 3 b w) as [[valid answer] b1 w1 e1].
  cbn in Hf. destruct Hf as (-> & _ & _ & _ & _ & _ & _ & Hq1).
  destruct (verifier_events_quiet e1 Hq1) as (_ & _ & _ & _ & Hc1).
  destruct valid.
  - cbn [bot events value]. rewrite app_nil_r. auto.
  - pose proof (verify_frame tok 3 b w1) as Hf. cbn zeta in Hf.
    destruct (verify_token_balance tok 3 b w1) as [[valid answer2] b2 w2 e2].
    cbn in Hf. destruct Hf as (-> & _ & _ & _ & _ & _ & _ & Hq2).
    destruct (verifier_events_quiet e2 Hq2) as (_ & _ & _ & _ & Hc2).
    destruct valid; cbn [bot events value];
      rewrite trade_calls_app, Hc1;
      change (EvLog ERROR LogVerifyFailed :: EvSleep 2 :: e2 ++ ?l)
        with ([EvLog ERROR LogVerifyFailed; EvSleep 2] ++ e2 ++ l);
      rewrite !trade_calls_app, Hc2; auto.
Qed.

Lemma monitor_body_step tok b w :
  monitor_body tok b w =
  let current_price := next_price w in
  let w0 := after_price w in
  if negb (truthy current_price) then
    mk_run Again b w0 [EvPrice tok current_price; EvSleep 2]
  else
    match profit_percentage current_price (buy_price b) with
    | None =>
        mk_run Again b w0
               [EvPrice tok current_price; EvLog ERROR LogMonitoringError;
                EvSleep 5]
    | Some profit_pct =>
        match position_open_time b with
        | None =>
            mk_run Again b (tick w0)
                   [EvPrice tok current_price;
                    EvLog ERROR LogMonitoringError; EvSleep 5]
        | Some opened =>
            match exit_reason profit_pct (clock w (ticks w) - opened)%Q with
            | None =>
                mk_run Again b (tick w0)
                       [EvPrice tok current_price; EvSleep 2]
            | Some reason =>
                match verify_for_exit tok b (tick w0) with
                | mk_run true b1 w1 e1 =>
                    match sell_escalation tok b1 w1 with
                    | mk_run _ b2 w2 e2 =>
                        mk_run Break b2 w2
                               (EvPrice tok current_price
                                :: EvLog INFO (LogExitTriggered reason)
                                :: e1 ++ e2 ++ [])
                    end
                | mk_run false b1 w1 e1 =>
                    mk_run Break b1 w1
                           (EvPrice tok current_price
                            :: EvLog INFO (LogExitTriggered reason)
                            :: e1 ++ [])
                end
            end
        end
    end.
Proof.
  unfold monitor_body, next_price, after_price.
  unfold bind at 1. unfold get_token_price at 1.
  destruct (pop 0%Q (prices w)) as [current_price rest]. cbn [fst snd].
  destruct (negb (truthy current_price)); [reflexivity|].
  unfold bind at 1. unfold get_bot at 1.
  destruct (profit_percentage current_price (buy_price b)); [|reflexivity].
  unfold bind at 1. unfold time_time at 1. cbn [clock ticks].
  destruct (position_open_time b) as [opened|]; [|reflexivity].
  destruct (exit_reason q (clock w (ticks w) - opened)); [|reflexivity].
  unfold bind at 1. unfold log at 1, emit at 1. unfold bind at 1.
  unfold tick. cbn [clock ticks account_reads sol_balances prices
                    swap_replies send_replies].
  destruct (verify_for_exit tok b _) as [[|] b1 w1 e1]; [|reflexivity].
  unfold bind at 1.
  destruct (sell_escalation tok b1 w1) as [u b2 w2 e2]. reflexivity.
Qed.

Lemma monitor_body_frame tok b w :
  let r := monitor_body tok b w in
  trades_executed (bot r) = trades_executed b /\
  (exists n, (n <= 4)%nat /\
             trade_calls (events r) =
             map (sell_call tok) (firstn n schedule)) /\
  (value r = Again -> bot r = b /\ trade_calls (events r) = []).
Proof.
  cbn zeta. rewrite monitor_body_step. cbn zeta.
  assert (Hnone : exists n, (n <= 4)%nat /\
                            @nil (string * TradeAction * Q * Z) =
                            map (sell_call tok) (firstn n schedule)).
  { exists 0%nat. split; [lia|reflexivity]. }
  destruct (negb (truthy (next_price w))); [cbn; auto|].
  destruct (profit_percentage (next_price w) (buy_price b)); [|cbn; auto].
  destruct (position_open_time b) as [opened|]; [|cbn; auto].
  destruct (exit_reason q (clock w (ticks w) - opened)); [|cbn; auto].
  pose proof (verify_for_exit_frame tok b (tick (after_price w))) as Hv.
  cbn zeta in Hv.
  destruct (verify_for_exit tok b (tick (after_price w)))
    as [[|] b1 w1 e1]; cbn [bot events value] in Hv;
    destruct Hv as (Ht1 & _ & Hc1).
  - pose proof (sell_rounds_calls tok (Z.to_nat (max_sell_retries + 1)) 0
                  b1 w1 (Z.le_refl 0)) as Hs.
    cbn zeta in Hs. fold (sell_escalation tok b1 w1) in Hs.
    destruct (sell_escalation tok b1 w1) as [u b2 w2 e2].
    cbn [bot events value] in Hs |- *.
    destruct Hs as (Ht2 & n & Hn & Hc2).
    split; [congruence|]. split; [|discriminate].
    exists n. split; [cbn in Hn; lia|].
    change (EvPrice tok (next_price w)
            :: EvLog INFO (LogExitTriggered e) :: e1 ++ e2 ++ [])
      with ([EvPrice tok (next_price w); EvLog INFO (LogExitTriggered e)]
              ++ e1 ++ e2 ++ []).
    rewrite !trade_calls_app, Hc1, Hc2. cbn [app].
    rewrite app_nil_r. reflexivity.
  - cbn [bot events value]. split; [exact Ht1|]. split; [|discriminate].
    exists 0%nat. split; [lia|].
    change (EvPrice tok (next_price w)
            :: EvLog INFO (LogExitTriggered e) :: e1 ++ [])
      with ([EvPrice tok (next_price w); EvLog INFO (LogExitTriggered e)]
              ++ e1 ++ []).
    rewrite !trade_calls_app, Hc1. reflexivity.
Qed.

Lemma monitor_token_step fuel tok b w :
  monitor_token (S fuel) tok b w =
  if position_is (current_position b) tok then
    match monitor_body tok b w with
    | mk_run Break b1 w1 e1 => mk_run (Some tt) b1 w1 (e1 ++ [])
    | mk_run Again b1 w1 e1 =>
        match monitor_token fuel tok b1 w1 with
        | mk_run v b2 w2 e2 => mk_run v b2 w2 (e1 ++ e2)
        end
    end
  else mk_run (Some tt) b w [].
Proof.
  cbn [monitor_token]. unfold bind at 1. unfold get_bot at 1.
  destruct (position_is (current_position b) tok); [|reflexivity].
  unfold bind at 1.
  destruct (monitor_body tok b w) as [[|] b1 w1 e1]; [|reflexivity].
  destruct (monitor_token fuel tok b1 w1); reflexivity.
Qed.

Lemma monitor_token_frame tok fuel : forall b w,
  let r := monitor_token fuel tok b w in
  trades_executed (bot r) = trades_executed b /\
  exists n, (n <= 4)%nat /\
            trade_calls (events r) = map (sell_call tok) (firstn n schedule).
Proof.
  induction fuel as [|fuel IH]; intros b w.
  - cbn. split; [reflexivity|]. exists 0%nat. split; [lia|reflexivity].
  - cbn zeta. rewrite monitor_token_step.
    destruct (position_is (current_position b) tok);
      [|cbn; split; [reflexivity|]; exists 0%nat; split; [lia|reflexivity]].
    pose proof (monitor_body_frame tok b w) as Hb. cbn zeta in Hb.
    destruct (monitor_body tok b w) as [[|] b1 w1 e1];
      cbn [bot events value] in Hb |- *;
      destruct Hb as (Ht & (n & Hn & Hc) & Hagain).
    + destruct (Hagain eq_refl) as [-> Hnil].
      destruct (IH b w1) as (Ht2 & n2 & Hn2 & Hc2).
      destruct (monitor_token fuel tok b w1) as [v b2 w2 e2].
      cbn [bot events value] in Ht2, Hc2 |- *.
      split; [exact Ht2|]. exists n2. split; [exact Hn2|].
      rewrite trade_calls_app, Hnil, Hc2. reflexivity.
    + split; [exact Ht|]. exists n. split; [exact Hn|].
      rewrite app_nil_r. exact Hc.
Qed.

(** ** C7 *)

(** C7: the sell escalation of [monitor_token] calls [execute_trade] at most
    4 times, and its k-th call is a SELL of the monitored token with the
    k-th tuple of [(1.0, 2000); (1.5, 3000); (2.0, 4000); (3.0, 5000)]:
    the calls are a prefix of the schedule, in order.  This holds for the
    escalation alone and for a whole run of the monitor, however long. *)
Theorem sell_escalation_follows_schedule :
  forall token b w,
    schedule = [(1.0%Q, 2000); (1.5%Q, 3000); (2.0%Q, 4000); (3.0%Q, 5000)]
    /\ schedule = combine multipliers slippages /\
    (exists n, (n <= 4)%nat /\
               trade_calls (events (sell_escalation token b w)) =
               map (sell_call token) (firstn n schedule)) /\
    (exists n, (n <= 4)%nat /\
               trade_calls (events (monitor_body token b w)) =
               map (sell_call token) (firstn n schedule)) /\
    (forall fuel,
        exists n, (n <= 4)%nat /\
                  trade_calls (events (monitor_token fuel token b w)) =
                  map (sell_call token) (firstn n schedule)).
Proof.
  intros token b w. split; [reflexivity|]. split; [reflexivity|].
  split; [|split].
  - destruct (sell_rounds_calls token (Z.to_nat (max_sell_retries + 1)) 0
                b w (Z.le_refl 0)) as (_ & n & Hn & Hc).
    exists n. split; [cbn in Hn; lia|exact Hc].
  - exact (proj1 (proj2 (monitor_body_frame token b w))).
  - intros fuel. exact (proj2 (monitor_token_frame token fuel b w)).
Qed.

(** ** C6 *)

(** C6, as stated, fails on the trade count: a successful BUY increments
    [trades_executed]. *)
Lemma successful_buy_counts_a_trade :
  let r := execute_trade "mint" BUY 1 2000 sample_bot
             (sample_world [] [1%Q] [3%Q] [SwapTransaction "tx"]
                           [SendAccepted]) in
  value r = true /\
  trades_executed sample_bot = 0 /\ trades_executed (bot r) = 1.
Proof.
  vm_compute. repeat split.
Qed.

(** C6 (amended): [trades_executed] is incremented by one by a successful
    BUY and changed by nothing else - not by a failed BUY, a SELL, a balance
    verification or the monitor; [total_profit] is changed only by a
    successful SELL: every BUY and every failed call leave it as it was. *)
Theorem statistics_frame :
  forall token action priority_multiplier slippage_bps b w,
    let r := execute_trade token action priority_multiplier slippage_bps
                           b w in
    trades_executed (bot r) =
    match action with
    | BUY => if value r then trades_executed b + 1 else trades_executed b
    | SELL => trades_executed b
    end /\
    (action = BUY \/ value r = false ->
     total_profit (bot r) = total_profit b) /\
    (forall n, bot (verify_token_balance token n b w) = b) /\
    (forall fuel,
        trades_executed (bot (monitor_token fuel token b w)) =
        trades_executed b).
Proof.
  intros token action pm slip b w r.
  destruct (execute_trade_stats token action pm slip b w) as (Ht & Hp & _).
  split; [exact Ht|]. split; [exact Hp|]. split.
  - intros n. exact (proj1 (verify_frame token n b w)).
  - intros fuel. exact (proj1 (monitor_token_frame token fuel b w)).
Qed.

Lemma statistics_frame_witness :
  (BUY = BUY \/
   value (execute_trade "mint" BUY 1 2000 sample_bot
            (sample_world [] [1%Q] [3%Q] [SwapTransaction "tx"]
                          [SendAccepted])) = false) /\
  total_profit
    (bot (execute_trade "mint" BUY 1 2000 sample_bot
            (sample_world [] [1%Q] [3%Q] [SwapTransaction "tx"]
                          [SendAccepted]))) = total_profit sample_bot.
Proof.
  assert (H : BUY = BUY \/
   value (execute_trade "mint" BUY 1 2000 sample_bot
            (sample_world [] [1%Q] [3%Q] [SwapTransaction "tx"]
                          [SendAccepted])) = false) by (left; reflexivity).
  split; [exact H|].
  exact (proj1 (proj2 (statistics_frame "mint" BUY 1 2000 sample_bot
                         (sample_world [] [1%Q] [3%Q] [SwapTransaction "tx"]
                                       [SendAccepted]))) H).
Defined.

(** ** C8 *)

Lemma exit_reason_cases profit_pct time_held :
  ((15 <= profit_pct)%Q ->
   exit_reason profit_pct time_held = Some (ProfitTarget profit_pct)) /\
  ((profit_pct < 15)%Q -> (1200 <= time_held)%Q ->
   exit_reason profit_pct time_held = Some HoldTimeout) /\
  ((profit_pct < 15)%Q -> (time_held < 1200)%Q ->
   exit_reason profit_pct time_held = None).
Proof.
  unfold exit_reason. change (inject_Z (20 * 60)) with 1200%Q.
  split; [|split].
  - intros H. apply Qle_bool_iff in H. rewrite H. reflexivity.
  - intros H1 H2. apply Qle_bool_iff in H2. rewrite H2.
    destruct (Qle_bool 15 profit_pct) eqn:E; [|reflexivity].
    apply Qle_bool_iff in E. apply Qlt_not_le in H1. contradiction.
  - intros H1 H2.
    destruct (Qle_bool 15 profit_pct) eqn:E1.
    { apply Qle_bool_iff in E1. apply Qlt_not_le in H1. contradiction. }
    destruct (Qle_bool 1200 time_held) eqn:E2; [|reflexivity].
    apply Qle_bool_iff in E2. apply Qlt_not_le in H2. contradiction.
Qed.

(** C8: in a round of the monitor that obtained a price, the profit target
    is checked first: a profit percentage of 15 or more triggers the
    profit-target exit whatever the holding time; the 20-minute timeout
    triggers only when the profit is below 15 percent; otherwise the round
    sleeps and the loop goes on.  A profit of 16 percent after 5 minutes - or
    after 25 - is a profit-target exit. *)
Theorem exit_triggers_first_match :
  forall token b w current_price rest opened,
    prices w = current_price :: rest ->
    ~ (current_price == 0)%Q ->
    ~ (buy_price b == 0)%Q ->
    position_open_time b = Some opened ->
    let profit_pct :=
      ((current_price - buy_price b) / buy_price b * 100)%Q in
    let time_held := (clock w (ticks w) - opened)%Q in
    let r := monitor_body token b w in
    ((15 <= profit_pct)%Q ->
     value r = Break /\
     exists tl,
       events r = EvPrice token current_price
                  :: EvLog INFO (LogExitTriggered (ProfitTarget profit_pct))
                  :: tl) /\
    ((profit_pct < 15)%Q -> (1200 <= time_held)%Q ->
     value r = Break /\
     exists tl,
       events r = EvPrice token current_price
                  :: EvLog INFO (LogExitTriggered HoldTimeout) :: tl) /\
    ((profit_pct < 15)%Q -> (time_held < 1200)%Q ->
     r = mk_run Again b (tick (after_price w))
                [EvPrice token current_price; EvSleep 2]) /\
    exit_reason 16 (5 * 60) = Some (ProfitTarget 16) /\
    exit_reason 16 (25 * 60) = Some (ProfitTarget 16).
Proof.
  intros token b w current_price rest opened Hw Hprice Hbuy Hopen
         profit_pct time_held r.
  apply truthy_nonzero in Hprice. apply truthy_nonzero in Hbuy.
  assert (Hr : r =
    match exit_reason profit_pct time_held with
    | None =>
        mk_run Again b (tick (after_price w))
               [EvPrice token current_price; EvSleep 2]
    | Some reason =>
        match verify_for_exit token b (tick (after_price w)) with
        | mk_run true b1 w1 e1 =>
            match sell_escalation token b1 w1 with
            | mk_run _ b2 w2 e2 =>
                mk_run Break b2 w2
                       (EvPrice token current_price
                        :: EvLog INFO (LogExitTriggered reason)
                        :: e1 ++ e2 ++ [])
            end
        | mk_run false b1 w1 e1 =>
            mk_run Break b1 w1
                   (EvPrice token current_price
                    :: EvLog INFO (LogExitTriggered reason) :: e1 ++ [])
        end
    end).
  { unfold r. rewrite monitor_body_step. cbn zeta.
    unfold next_price. rewrite Hw. cbn [pop fst]. rewrite Hprice.
    cbn [negb]. unfold profit_percentage, decimal_div. rewrite Hbuy, Hopen.
    reflexivity. }
  destruct (exit_reason_cases profit_pct time_held) as (Hp & Ht & Hn).
  split; [|split; [|split; [|split; reflexivity]]].
  - intros H. rewrite Hr, (Hp H).
    destruct (verify_for_exit token b (tick (after_price w)))
      as [[|] b1 w1 e1].
    + destruct (sell_escalation token b1 w1) as [u b2 w2 e2].
      split; [reflexivity|]. eexists. reflexivity.
    + split; [reflexivity|]. eexists. reflexivity.
  - intros H1 H2. rewrite Hr, (Ht H1 H2).
    destruct (verify_for_exit token b (tick (after_price w)))
      as [[|] b1 w1 e1].
    + destruct (sell_escalation token b1 w1) as [u b2 w2 e2].
      split; [reflexivity|]. eexists. reflexivity.
    + split; [reflexivity|]. eexists. reflexivity.
  - intros H1 H2. rewrite Hr, (Hn H1 H2). reflexivity.
Qed.

Lemma exit_triggers_first_match_witness :
  prices (sample_world [] [] [2.32%Q] [] []) = 2.32%Q :: [] /\
  ~ (2.32 == 0)%Q /\
  ~ (buy_price holding_bot == 0)%Q /\
  position_open_time holding_bot = Some 0%Q /\
  (15 <= (2.32 - buy_price holding_bot) / buy_price holding_bot * 100)%Q /\
  value (monitor_body "mint" holding_bot
           (sample_world [] [] [2.32%Q] [] [])) = Break.
Proof.
  assert (H1 : ~ (2.32 == 0)%Q) by discriminate.
  assert (H2 : ~ (buy_price holding_bot == 0)%Q) by discriminate.
  assert (H3 : (15 <= (2.32 - buy_price holding_bot)
                      / buy_price holding_bot * 100)%Q)
    by (vm_compute; discriminate).
  split; [reflexivity|]. split; [exact H1|]. split; [exact H2|].
  split; [reflexivity|]. split; [exact H3|].
  exact (proj1 (proj1 (exit_triggers_first_match "mint" holding_bot
                         (sample_world [] [] [2.32%Q] [] [])
                         2.32%Q [] 0%Q eq_refl H1 H2 eq_refl) H3)).
Defined.

(** * Further properties *)

(** ** The balance verifier, continued *)

(** With the default of three reads the verifier answers valid exactly when
    all three reads succeed and carry the same positive raw amount; it then
    returns the third reading and has consumed exactly these three reads. *)
Theorem verify_default_valid_iff :
  forall token b w,
    let r := verify_token_balance token 3 b w in
    (fst (value r) = true <->
     exists i1 i2 i3 rest,
       account_reads w = Some i1 :: Some i2 :: Some i3 :: rest /\
       0 < raw_amount i1 /\ raw_amount i2 = raw_amount i1 /\
       raw_amount i3 = raw_amount i1) /\
    (forall i1 i2 i3 rest,
        account_reads w = Some i1 :: Some i2 :: Some i3 :: rest ->
        fst (value r) = true ->
        value r = (true, Some i3) /\ account_reads (world r) = rest /\
        events r = [EvAccountInfo token (Some i1);
                    EvAccountInfo token (Some i2);
                    EvAccountInfo token (Some i3)]).
Proof.
  intros token b w r. unfold r, verify_token_balance.
  change (Z.to_nat 3) with 3%nat. cbn [verify_rounds]. unfold_ops.
  destruct (account_reads w) as [|[i1|] [|[i2|] [|[i3|] rest]]]; cbn;
    repeat (break_match; cbn);
    repeat match goal with
           | H : (_ <=? _) = true |- _ => apply Z.leb_le in H
           | H : (_ <=? _) = false |- _ => apply Z.leb_gt in H
           | H : (_ =? _) = true |- _ => apply Z.eqb_eq in H
           | H : (_ =? _) = false |- _ => apply Z.eqb_neq in H
           end;
    (split; [split|]);
    try discriminate;
    try (intros (j1 & j2 & j3 & rest' & Heq & Hp & H2 & H3);
         inversion Heq; subst; try lia; try reflexivity; fail);
    try (intros _; do 4 eexists; split; [reflexivity|]; lia);
    try (intros j1 j2 j3 rest' Heq; inversion Heq; subst;
         intros; try discriminate; repeat split; fail).
Qed.

Lemma verify_rounds_needs_three n tok : forall c li b w answer,
  0 <= c ->
  value (verify_rounds n tok c li b w) = (true, answer) ->
  2 <= c + Z.of_nat n /\ (li = None -> 2 <= c \/ 3 <= Z.of_nat n).
Proof.
  induction n as [|n IH]; intros c li b w answer Hc.
  - cbn [verify_rounds]. unfold ret. cbn [value].
    intros H. injection H as H2 Hli. apply Z.leb_le in H2. lia.
  - cbn [verify_rounds]. unfold_ops.
    destruct (account_reads w) as [|[info|] rest]; cbn.
    + match goal with |- context [verify_rounds n tok ?c' ?li' b ?w'] =>
        specialize (IH c' li' b w' answer Hc);
        destruct (verify_rounds n tok c' li' b w')
      end.
      cbn in *. intros H. destruct (IH H) as [H1 H2].
      split; [lia|]. intros Hli. specialize (H2 Hli). lia.
    + destruct (raw_amount info <=? 0); cbn; [discriminate|].
      match goal with |- context [verify_rounds n tok ?c' ?li' b ?w'] =>
        specialize (IH c' li' b w' answer);
        destruct (verify_rounds n tok c' li' b w')
      end.
      cbn in *. intros H.
      destruct li as [last|].
      * destruct (raw_amount info =? raw_amount last);
          destruct (IH ltac:(lia) H) as [H1 _];
          (split; [lia|discriminate]).
      * destruct (IH ltac:(lia) H) as [H1 _]. split; lia.
    + match goal with |- context [verify_rounds n tok ?c' ?li' b ?w'] =>
        specialize (IH c' li' b w' answer Hc);
        destruct (verify_rounds n tok c' li' b w')
      end.
      cbn in *. intros H. destruct (IH H) as [H1 H2].
      split; [lia|]. intros Hli. specialize (H2 Hli). lia.
Qed.

(** Fewer than three reads can never confirm a balance: for
    [min_retries] below 3 - zero and negative values included - the
    verifier answers valid = false, whatever the chain returns. *)
Theorem verify_needs_three_reads :
  forall token min_retries b w,
    min_retries < 3 ->
    fst (value (verify_token_balance token min_retries b w)) = false.
Proof.
  intros token n b w Hn. unfold verify_token_balance.
  destruct (verify_rounds (Z.to_nat n) token 0 None b w)
    as [[valid answer] b1 w1 e1] eqn:Hr.
  destruct valid; [|reflexivity].
  pose proof (verify_rounds_needs_three (Z.to_nat n) token 0 None b w answer
                (Z.le_refl 0)) as H.
  rewrite Hr in H. destruct (H eq_refl) as [_ H2].
  specialize (H2 eq_refl). lia.
Qed.

Lemma verify_needs_three_reads_witness :
  2 < 3 /\
  fst (value (verify_token_balance "mint" 2 sample_bot
                (sample_world [Some (reading 100); Some (reading 100)]
                              [] [] [] []))) = false.
Proof.
  assert (H : 2 < 3) by lia.
  split; [exact H|].
  exact (verify_needs_three_reads "mint" 2 sample_bot
           (sample_world [Some (reading 100); Some (reading 100)]
                         [] [] [] []) H).
Defined.




Lemma verify_default_valid_iff_witness :
  account_reads (sample_world [Some (reading 7); Some (reading 7);
                               Some (reading 7)] [] [] [] []) =
  [Some (reading 7); Some (reading 7); Some (reading 7)] /\
  value (verify_token_balance "mint" 3 sample_bot
           (sample_world [Some (reading 7); Some (reading 7);
                          Some (reading 7)] [] [] [] [])) =
  (true, Some (reading 7)).
Proof.
  split; [reflexivity|].
  exact (proj1 (proj2 (verify_default_valid_iff "mint" sample_bot
                         (sample_world [Some (reading 7); Some (reading 7);
                                        Some (reading 7)] [] [] [] []))
                      (reading 7) (reading 7) (reading 7) [] eq_refl
                      eq_refl)).
Defined.

(** ** The trade executor, continued *)

Lemma verifier_protocol vev : forall l,
  forallb verifier_event vev = true ->
  permit_protocol true (vev ++ l) = permit_protocol true l.
Proof.
  induction vev as [|e vev IH]; intros l H; [reflexivity|].
  cbn in H. apply andb_true_iff in H. destruct H as [He Hv].
  cbn [app]. destruct e; try discriminate; cbn; apply IH; exact Hv.
Qed.

Lemma one_attempt_protocol tok act pm slip a b w : forall rest,
  permit_protocol false (events (one_attempt tok act pm slip a b w) ++ rest)
  = permit_protocol false rest.
Proof.
  intros rest. destruct act.
  - unfold_attempt. cbn.
    repeat (break_match; cbn); reflexivity.
  - unfold_attempt. cbn. open_verify tok b w.
    repeat (break_match; cbn);
      rewrite <- ?app_assoc; rewrite (verifier_protocol vev _ Hquiet);
      reflexivity.
Qed.

Lemma attempts_protocol tok act pm slip l : forall b w,
  permit_protocol false
    (events (execute_trade_attempts l tok act pm slip b w)) = true.
Proof.
  induction l as [|a l IH]; intros b w; [reflexivity|].
  rewrite execute_trade_attempts_cons.
  pose proof (one_attempt_protocol tok act pm slip a b w) as H1.
  destruct (one_attempt tok act pm slip a b w) as [[res|] b1 w1 e1];
    cbn [events] in H1 |- *.
  - rewrite H1. reflexivity.
  - specialize (IH b1 w1).
    destruct (execute_trade_attempts l tok act pm slip b1 w1)
      as [v2 b2 w2 e2].
    cbn [events] in IH |- *. rewrite H1. exact IH.
Qed.

Lemma permit_protocol_balance evs : forall held,
  permit_protocol held evs = true ->
  permits_held evs = if held then -1 else 0.
Proof.
  induction evs as [|e evs IH]; intros held H.
  - cbn in *. destruct held; [discriminate|reflexivity].
  - destruct e; cbn in H |- *;
      try (apply andb_true_iff in H; destruct H as [H1 H2]);
      try (rewrite (IH _ H2)); try (rewrite (IH _ H));
      destruct held; try discriminate; try reflexivity.
Qed.

(** Every run of [execute_trade] keeps the discipline of the semaphore: it
    takes a permit only when it holds none, makes every request to the RPC
    node, the gateway and the price API under the permit, and has given
    every permit back when it returns - on success, on failure and on every
    retry. *)
Theorem execute_trade_permit_discipline :
  forall token action priority_multiplier slippage_bps b w,
    let r := execute_trade token action priority_multiplier slippage_bps
                           b w in
    permit_protocol false (events r) = true /\
    permits_held (events r) = 0.
Proof.
  intros token action pm slip b w r.
  assert (H : permit_protocol false (events r) = true).
  { unfold r. rewrite execute_trade_unfold.
    pose proof (attempts_protocol token action pm slip
                  (range (max_retries + 1)) b w) as H.
    destruct (execute_trade_attempts (range (max_retries + 1)) token action
                                     pm slip b w) as [v b1 w1 e1].
    cbn [events] in H |- *. cbn. exact H. }
  split; [exact H|]. exact (permit_protocol_balance _ false H).
Qed.

Ltac crack_in :=
  repeat match goal with
         | H : In _ (_ ++ _) |- _ => apply in_app_or in H
         | H : In _ (_ :: _) |- _ => destruct H as [H|H]
         | H : In _ [] |- _ => destruct H
         | H : _ \/ _ |- _ => destruct H as [H|H]
         | H : False |- _ => destruct H
         | H : @eq event _ _ |- _ => inversion H; clear H; subst
         end.

Lemma verifier_events_only l e :
  forallb verifier_event l = true -> In e l -> verifier_event e = true.
Proof.
  intros H Hin. rewrite forallb_forall in H. exact (H e Hin).
Qed.

Lemma count_events_app f l1 l2 :
  count_events f (l1 ++ l2) = (count_events f l1 + count_events f l2)%nat.
Proof. unfold count_events. rewrite filter_app, length_app. reflexivity. Qed.

Lemma verifier_counts l :
  forallb verifier_event l = true ->
  count_events is_swap l = 0%nat /\ count_events is_send l = 0%nat /\
  count_events is_price l = 0%nat.
Proof.
  unfold count_events.
  induction l as [|e l IH]; cbn; [auto|].
  intros H. apply andb_true_iff in H. destruct H as [He Hl].
  destruct (IH Hl) as (H1 & H2 & H3).
  destruct e; cbn in *; try discriminate; auto.
Qed.

Arguments count_events : simpl never.

Lemma count_events_cons f e l :
  count_events f (e :: l) =
  if f e then S (count_events f l) else count_events f l.
Proof. unfold count_events. cbn. destruct (f e); reflexivity. Qed.

Lemma count_events_nil f : count_events f [] = 0%nat.
Proof. reflexivity. Qed.

Ltac count_up :=
  repeat (rewrite ?count_events_cons, ?count_events_app, ?count_events_nil;
          cbn [is_swap is_send is_price is_sleep failed_read]).

Lemma one_attempt_requests tok act pm slip a b w :
  let r := one_attempt tok act pm slip a b w in
  (count_events is_swap (events r) <= 1)%nat /\
  (count_events is_send (events r) <= count_events is_swap (events r))%nat /\
  (count_events is_price (events r) <= 1)%nat /\
  (value r = None -> count_events is_price (events r) = 0%nat) /\
  (forall tx reply,
      In (EvSend tx reply) (events r) ->
      exists p, In (EvSwap p (SwapTransaction tx)) (events r)).
Proof.
  destruct act.
  - unfold_attempt. cbn.
    repeat (break_match; cbn); count_up;
      (split; [lia|split; [lia|split; [lia|split;
         [try discriminate; try reflexivity|]]]]);
      intros tx' reply Hin; crack_in; eexists; cbn; eauto 10.
  - unfold_attempt. cbn. open_verify tok b w.
    destruct (verifier_counts vev Hquiet) as (Hc1 & Hc2 & Hc3).
    repeat (break_match; cbn); count_up; rewrite ?Hc1, ?Hc2, ?Hc3;
      (split; [lia|split; [lia|split; [lia|split;
         [try discriminate; try reflexivity|]]]]);
      intros tx' reply Hin; crack_in;
      try (match goal with
           | H : In _ vev |- _ =>
               apply (verifier_events_only vev _ Hquiet) in H; discriminate
           end);
      eexists; rewrite ?in_app_iff; cbn; eauto 10.
Qed.

Lemma attempts_requests tok act pm slip l : forall b w,
  let r := execute_trade_attempts l tok act pm slip b w in
  (count_events is_swap (events r) <= List.length l)%nat /\
  (count_events is_send (events r) <= count_events is_swap (events r))%nat /\
  (count_events is_price (events r) <= 1)%nat /\
  (forall tx reply,
      In (EvSend tx reply) (events r) ->
      exists p, In (EvSwap p (SwapTransaction tx)) (events r)).
Proof.
  induction l as [|a l IH]; intros b w.
  - cbn. count_up. split; [lia|]. split; [lia|]. split; [lia|].
    intros tx reply [].
  - cbn zeta. rewrite execute_trade_attempts_cons.
    pose proof (one_attempt_requests tok act pm slip a b w) as H1.
    cbn zeta in H1.
    destruct (one_attempt tok act pm slip a b w) as [[res|] b1 w1 e1];
      cbn [events value] in H1 |- *;
      destruct H1 as (Hs & Hd & Hp & Hnone & Hin).
    + rewrite app_nil_r. cbn [List.length].
      split; [lia|]. split; [lia|]. split; [lia|]. exact Hin.
    + specialize (IH b1 w1). cbn zeta in IH.
      destruct (execute_trade_attempts l tok act pm slip b1 w1)
        as [v2 b2 w2 e2].
      cbn [events] in IH |- *. destruct IH as (Hs2 & Hd2 & Hp2 & Hin2).
      specialize (Hnone eq_refl). count_up. cbn [List.length].
      split; [lia|]. split; [lia|]. split; [lia|].
      intros tx reply H. apply in_app_or in H. destruct H as [H|H].
      * destruct (Hin tx reply H) as [p Hp']. exists p.
        apply in_or_app. left. exact Hp'.
      * destruct (Hin2 tx reply H) as [p Hp']. exists p.
        apply in_or_app. right. exact Hp'.
Qed.

(** One call of [execute_trade] asks the gateway for at most 4 swaps,
    broadcasts only transactions the gateway delivered in that call (never
    more broadcasts than swap replies), and fetches the price at most
    once. *)
Theorem execute_trade_requests :
  forall token action priority_multiplier slippage_bps b w,
    let evs := events (execute_trade token action priority_multiplier
                                     slippage_bps b w) in
    (count_events is_swap evs <= 4)%nat /\
    (count_events is_send evs <= count_events is_swap evs)%nat /\
    (count_events is_price evs <= 1)%nat /\
    (forall tx reply,
        In (EvSend tx reply) evs ->
        exists p, In (EvSwap p (SwapTransaction tx)) evs).
Proof.
  intros token action pm slip b w. cbn zeta. rewrite execute_trade_unfold.
  pose proof (attempts_requests token action pm slip
                (range (max_retries + 1)) b w) as H.
  cbn zeta in H.
  destruct (execute_trade_attempts (range (max_retries + 1)) token action
                                   pm slip b w) as [v b1 w1 e1].
  cbn [events] in H |- *. destruct H as (Hs & Hd & Hp & Hin).
  count_up. change (List.length (range (max_retries + 1))) with 4%nat in Hs.
  split; [exact Hs|]. split; [exact Hd|]. split; [exact Hp|].
  intros tx reply [H|H]; [discriminate|].
  destruct (Hin tx reply H) as [p Hp']. exists p. right. exact Hp'.
Qed.

Lemma execute_trade_requests_witness :
  In (EvSend "tx" SendAccepted)
     (events (execute_trade "mint" BUY 1 2000 sample_bot
                (sample_world [] [1%Q] [3%Q] [SwapTransaction "tx"]
                              [SendAccepted]))) /\
  exists p,
    In (EvSwap p (SwapTransaction "tx"))
       (events (execute_trade "mint" BUY 1 2000 sample_bot
                  (sample_world [] [1%Q] [3%Q] [SwapTransaction "tx"]
                                [SendAccepted]))).
Proof.
  assert (H : In (EvSend "tx" SendAccepted)
     (events (execute_trade "mint" BUY 1 2000 sample_bot
                (sample_world [] [1%Q] [3%Q] [SwapTransaction "tx"]
                              [SendAccepted])))) by (vm_compute; auto 10).
  split; [exact H|].
  exact (proj2 (proj2 (proj2
           (execute_trade_requests "mint" BUY 1 2000 sample_bot
              (sample_world [] [1%Q] [3%Q] [SwapTransaction "tx"]
                            [SendAccepted]))))
           "tx" SendAccepted H).
Defined.

(** *** What a SELL sends *)

Lemma verify_rounds_reads_answer n tok : forall c li b w valid info,
  value (verify_rounds n tok c li b w) = (valid, Some info) ->
  li = Some info \/
  In (EvAccountInfo tok (Some info)) (events (verify_rounds n tok c li b w)).
Proof.
  induction n as [|n IH]; intros c li b w valid info.
  - cbn. intros H. injection H as _ Hli. left. exact Hli.
  - cbn [verify_rounds]. unfold_ops.
    destruct (account_reads w) as [|[seen|] rest]; cbn.
    + match goal with |- context [verify_rounds n tok ?c' ?li' b ?w'] =>
        specialize (IH c' li' b w' valid info);
        destruct (verify_rounds n tok c' li' b w')
      end.
      cbn in *. intros H. destruct (IH H); auto.
    + destruct (raw_amount seen <=? 0); cbn; [discriminate|].
      match goal with |- context [verify_rounds n tok ?c' ?li' b ?w'] =>
        specialize (IH c' li' b w' valid info);
        destruct (verify_rounds n tok c' li' b w')
      end.
      cbn in *. intros H. destruct (IH H) as [Heq|Hin]; auto.
      injection Heq as ->. auto.
    + match goal with |- context [verify_rounds n tok ?c' ?li' b ?w'] =>
        specialize (IH c' li' b w' valid info);
        destruct (verify_rounds n tok c' li' b w')
      end.
      cbn in *. intros H. destruct (IH H); auto.
Qed.

Lemma verify_reads_answer tok n b w valid info :
  value (verify_token_balance tok n b w) = (valid, Some info) ->
  In (EvAccountInfo tok (Some info))
     (events (verify_token_balance tok n b w)).
Proof.
  intros H.
  destruct (verify_rounds_reads_answer (Z.to_nat n) tok 0 None b w valid
              info H) as [Hn|Hin]; [discriminate|exact Hin].
Qed.

Lemma one_attempt_sell_requests tok pm slip a b w :
  let r := one_attempt tok SELL pm slip a b w in
  (value r = Some true \/ bot r = b) /\
  forall p reply,
    In (EvSwap p reply) (events r) ->
    exists info,
      p = sell_params tok (raw_amount info) pm slip b /\
      0 < raw_amount info /\
      In (EvAccountInfo tok (Some info)) (events r).
Proof.
  unfold_attempt. cbn.
  pose proof (verify_reads_answer tok 3 b w) as Hread.
  pose proof (verify_valid tok 3 b w) as Hvalid.
  open_verify tok b w. cbn [value events] in Hread, Hvalid.
  repeat (break_match; cbn); (split; [auto|]);
    intros p reply Hin; crack_in;
    try (match goal with
         | H : In _ vev |- _ =>
             apply (verifier_events_only vev _ Hquiet) in H; discriminate
         end);
    match goal with
    | |- exists info, sell_params _ (raw_amount ?i) _ _ _ = _ /\ _ =>
        exists i; split; [reflexivity|];
        destruct (Hvalid (Some i) eq_refl) as (j & Hj & Hpos);
        injection Hj as <-; split; [exact Hpos|];
        pose proof (Hread true i eq_refl);
        cbn; rewrite ?in_app_iff; auto 10
    end.
Qed.

Lemma attempts_sell_requests tok pm slip l : forall b w,
  let r := execute_trade_attempts l tok SELL pm slip b w in
  forall p reply,
    In (EvSwap p reply) (events r) ->
    exists info,
      p = sell_params tok (raw_amount info) pm slip b /\
      0 < raw_amount info /\
      In (EvAccountInfo tok (Some info)) (events r).
Proof.
  induction l as [|a l IH]; intros b w; [cbn; intros p reply []|].
  cbn zeta. rewrite execute_trade_attempts_cons.
  pose proof (one_attempt_sell_requests tok pm slip a b w) as H1.
  cbn zeta in H1.
  destruct (one_attempt tok SELL pm slip a b w) as [[res|] b1 w1 e1];
    cbn [events value bot] in H1 |- *; destruct H1 as [Hb Hin].
  - rewrite app_nil_r. exact Hin.
  - destruct Hb as [Hb|Hb]; [discriminate|]. subst b1.
    specialize (IH b w1). cbn zeta in IH.
    destruct (execute_trade_attempts l tok SELL pm slip b w1)
      as [v2 b2 w2 e2].
    cbn [events] in IH |- *.
    intros p reply H. apply in_app_or in H. destruct H as [H|H].
    + destruct (Hin p reply H) as (info & Hp & Hpos & Hread).
      exists info. repeat split; auto. apply in_or_app. left. exact Hread.
    + destruct (IH p reply H) as (info & Hp & Hpos & Hread).
      exists info. repeat split; auto. apply in_or_app. right. exact Hread.
Qed.

(** A SELL never offers an amount it has not seen on chain: every swap
    request of a SELL call sells the monitored token for the base currency,
    with the slippage asked for, and its amount is positive and is the raw
    amount of a balance reading made in that same call. *)
Theorem execute_trade_sell_requests :
  forall token priority_multiplier slippage_bps b w p reply,
    In (EvSwap p reply)
       (events (execute_trade token SELL priority_multiplier slippage_bps
                              b w)) ->
    fromMint p = token /\ toMint p = sol_mint b /\
    slippage p = slippage_bps /\ owner p = wallet_address b /\
    0 < amount p /\
    exists info,
      raw_amount info = amount p /\
      In (EvAccountInfo token (Some info))
         (events (execute_trade token SELL priority_multiplier slippage_bps
                                b w)).
Proof.
  intros token pm slip b w p reply. rewrite execute_trade_unfold.
  pose proof (attempts_sell_requests token pm slip
                (range (max_retries + 1)) b w) as H.
  cbn zeta in H.
  destruct (execute_trade_attempts (range (max_retries + 1)) token SELL
                                   pm slip b w) as [v b1 w1 e1].
  cbn [events] in H |- *. intros [Hin|Hin]; [discriminate|].
  destruct (H p reply Hin) as (info & -> & Hpos & Hread).
  cbn. repeat split; auto. exists info. split; [reflexivity|].
  right. exact Hread.
Qed.

Lemma execute_trade_sell_requests_witness :
  In (EvSwap (sell_params "mint" 100000000 1.5 3000 holding_bot)
             (SwapRejected "no route"))
     (events (execute_trade "mint" SELL 1.5 3000 holding_bot
                (sample_world [Some (reading 100000000);
                               Some (reading 100000000);
                               Some (reading 100000000)]
                              [] [] [SwapRejected "no route"] []))) /\
  0 < amount (sell_params "mint" 100000000 1.5 3000 holding_bot).
Proof.
  assert (H : In (EvSwap (sell_params "mint" 100000000 1.5 3000 holding_bot)
             (SwapRejected "no route"))
     (events (execute_trade "mint" SELL 1.5 3000 holding_bot
                (sample_world [Some (reading 100000000);
                               Some (reading 100000000);
                               Some (reading 100000000)]
                              [] [] [SwapRejected "no route"] []))))
    by (vm_compute; auto 10).
  split; [exact H|].
  exact (proj1 (proj2 (proj2 (proj2 (proj2
           (execute_trade_sell_requests "mint" 1.5 3000 holding_bot
              (sample_world [Some (reading 100000000);
                             Some (reading 100000000);
                             Some (reading 100000000)]
                            [] [] [SwapRejected "no route"] [])
              _ _ H)))))).
Defined.

Lemma attempts_sell_failure tok pm slip l : forall b w,
  let r := execute_trade_attempts l tok SELL pm slip b w in
  value r = false ->
  bot r = b /\ clock (world r) = clock w /\ ticks (world r) = ticks w.
Proof.
  induction l as [|a l IH]; intros b w; [cbn; auto|].
  cbn zeta. rewrite execute_trade_attempts_cons.
  pose proof (one_attempt_sell_result tok pm slip a b w) as H1.
  cbn zeta in H1.
  destruct (one_attempt tok SELL pm slip a b w) as [[[|]|] b1 w1 e1];
    cbn [events value bot world] in H1 |- *.
  - discriminate.
  - intros _. exact H1.
  - destruct H1 as (-> & Hc & Ht). specialize (IH b w1). cbn zeta in IH.
    destruct (execute_trade_attempts l tok SELL pm slip b w1)
      as [v2 b2 w2 e2].
    cbn [events value bot world] in IH |- *. intros Hv.
    destruct (IH Hv) as (Hb & Hc2 & Ht2). repeat split; congruence.
Qed.

(** A SELL that fails changes nothing in the bot - the position, its open
    time, the buy price, the cooldown and the statistics stay as they were -
    and never reads the clock. *)
Theorem execute_trade_sell_failure_frame :
  forall token priority_multiplier slippage_bps b w,
    let r := execute_trade token SELL priority_multiplier slippage_bps
                           b w in
    value r = false ->
    bot r = b /\ clock (world r) = clock w /\ ticks (world r) = ticks w.
Proof.
  intros token pm slip b w. cbn zeta. rewrite execute_trade_unfold.
  pose proof (attempts_sell_failure token pm slip
                (range (max_retries + 1)) b w) as H.
  cbn zeta in H.
  destruct (execute_trade_attempts (range (max_retries + 1)) token SELL
                                   pm slip b w) as [v b1 w1 e1].
  exact H.
Qed.

Lemma execute_trade_sell_failure_frame_witness :
  value (execute_trade "mint" SELL 1 2000 holding_bot
           (sample_world [Some (reading 5); Some (reading 6)] [] [] [] []))
  = false /\
  bot (execute_trade "mint" SELL 1 2000 holding_bot
         (sample_world [Some (reading 5); Some (reading 6)] [] [] [] []))
  = holding_bot.
Proof.
  assert (H : value (execute_trade "mint" SELL 1 2000 holding_bot
           (sample_world [Some (reading 5); Some (reading 6)] [] [] [] []))
              = false) by reflexivity.
  split; [exact H|].
  exact (proj1 (execute_trade_sell_failure_frame "mint" 1 2000 holding_bot
                  (sample_world [Some (reading 5); Some (reading 6)]
                                [] [] [] []) H)).
Defined.

(** *** What a BUY leaves behind *)

Lemma Qlt_bool_false x y : Qlt_bool x y = false -> ~ (x < y)%Q.
Proof.
  unfold Qlt_bool. intros H. apply negb_false_iff in H.
  apply Qle_bool_iff in H. apply Qle_not_lt. exact H.
Qed.

Lemma truthy_zero d : truthy d = false <-> (d == 0)%Q.
Proof.
  unfold truthy, Qeq. cbn. rewrite Z.mul_1_r, negb_false_iff, Z.eqb_eq.
  reflexivity.
Qed.

Lemma one_attempt_buy_state tok pm slip a b w :
  let r := one_attempt tok BUY pm slip a b w in
  clock (world r) = clock w /\
  match value r with
  | None =>
      bot r = b /\ ticks (world r) = S (ticks w) /\
      Qlt_bool (clock w (ticks w)) (cooldown_end_time b) = false
  | Some true =>
      Qlt_bool (clock w (ticks w)) (cooldown_end_time b) = false /\
      ticks (world r) = S (S (ticks w)) /\
      exists price,
        truthy price = true /\
        bot r = bought tok price (clock w (S (ticks w))) b
  | Some false =>
      bot r = b \/
      exists price tx,
        truthy price = false /\ bot r = set_buy_price price b /\
        In (EvSend tx SendAccepted) (events r)
  end.
Proof.
  unfold_attempt. cbn.
  repeat (break_match; cbn);
    repeat match goal with
           | H : negb _ = false |- _ => apply negb_false_iff in H
           | H : negb _ = true |- _ => apply negb_true_iff in H
           end;
    (split; [reflexivity|]); auto;
    try (right; do 2 eexists;
         (split; [|split; [reflexivity|cbn; auto 10]]);
         first [eassumption|reflexivity]);
    try (split; [reflexivity|]; split; [reflexivity|];
         eexists; split; [eassumption|]; reflexivity).
Qed.

Lemma attempts_buy_state tok pm slip l : forall b w,
  let r := execute_trade_attempts l tok BUY pm slip b w in
  clock (world r) = clock w /\
  (value r = true ->
   Qlt_bool (clock w (ticks w)) (cooldown_end_time b) = false /\
   (ticks w < ticks (world r))%nat /\
   exists price,
     truthy price = true /\
     bot r = bought tok price (clock w (pred (ticks (world r)))) b) /\
  (value r = false ->
   bot r = b \/
   exists price tx,
     truthy price = false /\ bot r = set_buy_price price b /\
     In (EvSend tx SendAccepted) (events r)).
Proof.
  induction l as [|a l IH]; intros b w.
  - cbn. split; [reflexivity|]. split; [discriminate|]. auto.
  - cbn zeta. rewrite execute_trade_attempts_cons.
    pose proof (one_attempt_buy_state tok pm slip a b w) as H1.
    cbn zeta in H1.
    destruct (one_attempt tok BUY pm slip a b w) as [[[|]|] b1 w1 e1];
      cbn [events value bot world] in H1 |- *; destruct H1 as [Hc H1].
    + split; [exact Hc|]. split; [|discriminate]. intros _.
      destruct H1 as (Hcd & Ht & price & Hp & Hb).
      split; [exact Hcd|]. split; [lia|]. exists price.
      split; [exact Hp|]. rewrite Ht. exact Hb.
    + split; [exact Hc|]. split; [discriminate|]. intros _.
      rewrite app_nil_r. exact H1.
    + destruct H1 as (-> & Ht & Hcd).
      specialize (IH b w1). cbn zeta in IH.
      destruct (execute_trade_attempts l tok BUY pm slip b w1)
        as [v2 b2 w2 e2].
      cbn [events value bot world] in IH |- *.
      destruct IH as (Hc2 & Htrue & Hfalse).
      split; [congruence|]. split.
      * intros Hv. destruct (Htrue Hv) as (_ & Hlt & price & Hp & Hb).
        split; [exact Hcd|]. split; [lia|]. exists price.
        split; [exact Hp|]. rewrite Hb, Hc. reflexivity.
      * intros Hv. destruct (Hfalse Hv) as [Hb|(price & tx & Hp & Hb & Hin)].
        -- left. exact Hb.
        -- right. exists price, tx. repeat split; auto.
           apply in_or_app. right. exact Hin.
Qed.

(** A BUY that succeeds was not in the cooldown at its first attempt, and
    it leaves exactly this in the bot: the quoted, non-zero price as buy
    price, the token as current position, the last clock reading as open
    time and one more trade counted; the cooldown, the profit and the
    wallet settings are untouched. *)
Theorem execute_trade_buy_success :
  forall token priority_multiplier slippage_bps b w,
    let r := execute_trade token BUY priority_multiplier slippage_bps b w in
    value r = true ->
    ~ (clock w (ticks w) < cooldown_end_time b)%Q /\
    clock (world r) = clock w /\ (ticks w < ticks (world r))%nat /\
    exists price,
      ~ (price == 0)%Q /\
      bot r = bought token price (clock w (pred (ticks (world r)))) b.
Proof.
  intros token pm slip b w. cbn zeta. rewrite execute_trade_unfold.
  pose proof (attempts_buy_state token pm slip (range (max_retries + 1))
                b w) as H.
  cbn zeta in H.
  destruct (execute_trade_attempts (range (max_retries + 1)) token BUY
                                   pm slip b w) as [v b1 w1 e1].
  cbn [events value bot world] in H |- *.
  destruct H as (Hc & Htrue & _). intros Hv.
  destruct (Htrue Hv) as (Hcd & Hlt & price & Hp & Hb).
  split; [apply Qlt_bool_false; exact Hcd|]. split; [exact Hc|].
  split; [exact Hlt|]. exists price.
  split; [apply truthy_nonzero; exact Hp|exact Hb].
Qed.

Lemma execute_trade_buy_success_witness :
  value (execute_trade "mint" BUY 1 2000 sample_bot
           (sample_world [] [1%Q] [3%Q] [SwapTransaction "tx"]
                         [SendAccepted])) = true /\
  exists price,
    ~ (price == 0)%Q /\
    bot (execute_trade "mint" BUY 1 2000 sample_bot
           (sample_world [] [1%Q] [3%Q] [SwapTransaction "tx"]
                         [SendAccepted])) =
    bought "mint" price 1 sample_bot.
Proof.
  assert (H : value (execute_trade "mint" BUY 1 2000 sample_bot
           (sample_world [] [1%Q] [3%Q] [SwapTransaction "tx"]
                         [SendAccepted])) = true) by reflexivity.
  split; [exact H|].
  pose proof (execute_trade_buy_success "mint" 1 2000 sample_bot
                (sample_world [] [1%Q] [3%Q] [SwapTransaction "tx"]
                              [SendAccepted]) H)
    as (_ & _ & _ & price & Hp & Hb).
  exists price. split; [exact Hp|exact Hb].
Defined.

(** A BUY that fails opens no position and counts no trade: the bot is
    unchanged, with one exception - when the broadcast was accepted and the
    price could not be fetched, [buy_price] has been overwritten with the
    zero the price client returned (also when another position is open). *)
Theorem execute_trade_buy_failure_frame :
  forall token priority_multiplier slippage_bps b w,
    let r := execute_trade token BUY priority_multiplier slippage_bps b w in
    value r = false ->
    bot r = b \/
    exists price tx,
      (price == 0)%Q /\ bot r = set_buy_price price b /\
      In (EvSend tx SendAccepted) (events r).
Proof.
  intros token pm slip b w. cbn zeta. rewrite execute_trade_unfold.
  pose proof (attempts_buy_state token pm slip (range (max_retries + 1))
                b w) as H.
  cbn zeta in H.
  destruct (execute_trade_attempts (range (max_retries + 1)) token BUY
                                   pm slip b w) as [v b1 w1 e1].
  cbn [events value bot world] in H |- *.
  destruct H as (_ & _ & Hfalse). intros Hv.
  destruct (Hfalse Hv) as [Hb|(price & tx & Hp & Hb & Hin)].
  - left. exact Hb.
  - right. exists price, tx. split; [apply truthy_zero; exact Hp|].
    split; [exact Hb|]. right. exact Hin.
Qed.

Lemma execute_trade_buy_failure_frame_witness :
  value (execute_trade "other" BUY 1 2000 holding_bot
           (sample_world [] [1%Q] [] [SwapTransaction "tx"]
                         [SendAccepted])) = false /\
  (bot (execute_trade "other" BUY 1 2000 holding_bot
          (sample_world [] [1%Q] [] [SwapTransaction "tx"]
                        [SendAccepted])) = holding_bot \/
   exists price tx,
     (price == 0)%Q /\
     bot (execute_trade "other" BUY 1 2000 holding_bot
            (sample_world [] [1%Q] [] [SwapTransaction "tx"]
                          [SendAccepted])) = set_buy_price price holding_bot
     /\
     In (EvSend tx SendAccepted)
        (events (execute_trade "other" BUY 1 2000 holding_bot
                   (sample_world [] [1%Q] [] [SwapTransaction "tx"]
                                 [SendAccepted])))).
Proof.
  assert (H : value (execute_trade "other" BUY 1 2000 holding_bot
           (sample_world [] [1%Q] [] [SwapTransaction "tx"]
                         [SendAccepted])) = false) by reflexivity.
  split; [exact H|].
  exact (execute_trade_buy_failure_frame "other" 1 2000 holding_bot
           (sample_world [] [1%Q] [] [SwapTransaction "tx"]
                         [SendAccepted]) H).
Defined.

(** ** The position monitor, continued *)

Lemma execute_trade_sell_outcome tok pm slip b w :
  let r := execute_trade tok SELL pm slip b w in
  if value r then current_position (bot r) = None else bot r = b.
Proof.
  cbn zeta. rewrite execute_trade_unfold.
  pose proof (attempts_sell_success tok pm slip (range (max_retries + 1))
                b w) as Ht.
  pose proof (attempts_sell_failure tok pm slip (range (max_retries + 1))
                b w) as Hf.
  cbn zeta in Ht, Hf.
  destruct (execute_trade_attempts (range (max_retries + 1)) tok SELL pm
                                   slip b w) as [[|] b1 w1 e1];
    cbn [value bot events world] in Ht, Hf |- *.
  - destruct (Ht eq_refl) as (pre & w' & info & price & tx & _ & _ & _ & _
                              & Hb).
    rewrite Hb. reflexivity.
  - exact (proj1 (Hf eq_refl)).
Qed.

Lemma sell_rounds_outcome tok fuel : forall rc b w,
  0 <= rc <= max_sell_retries ->
  (Z.to_nat (max_sell_retries - rc) <= fuel)%nat ->
  position_held (current_position b) = true ->
  let r := sell_rounds fuel tok rc b w in
  current_position (bot r) = None \/
  (bot r = b /\
   List.length (trade_calls (events r)) = Z.to_nat (max_sell_retries - rc)).
Proof.
  unfold max_sell_retries.
  induction fuel as [|fuel IH]; intros rc b w Hrc Hfuel Hheld.
  - cbn [sell_rounds]. unfold ret. cbn [bot events]. right.
    split; [reflexivity|].
    change (trade_calls []) with (@nil (string * TradeAction * Q * Z)).
    cbn [List.length]. lia.
  - cbn zeta. rewrite sell_rounds_step. rewrite Hheld.
    destruct (rc <? max_sell_retries) eqn:Hlt; cbn [andb];
      unfold max_sell_retries in Hlt.
    2:{ apply Z.ltb_ge in Hlt. right. split; [reflexivity|].
        replace (4 - rc) with 0 by lia. reflexivity. }
    apply Z.ltb_lt in Hlt.
    pose proof (execute_trade_sell_outcome tok
                  (nth (Z.to_nat rc) multipliers 0%Q)
                  (nth (Z.to_nat rc) slippages 0) b w) as Hout.
    pose proof (execute_trade_stats tok SELL
                  (nth (Z.to_nat rc) multipliers 0%Q)
                  (nth (Z.to_nat rc) slippages 0) b w) as Hst.
    cbn zeta in Hout, Hst.
    destruct (execute_trade tok SELL _ _ b w) as [[|] b1 w1 e1];
      cbn [value bot events] in Hout, Hst |- *.
    + left. exact Hout.
    + subst b1. destruct Hst as (_ & _ & Hc1).
      pose proof (verify_frame tok 3 b w1) as Hf. cbn zeta in Hf.
      destruct (verify_token_balance tok 3 b w1)
        as [[[|] answer] b2 w2 e2];
        cbn in Hf; destruct Hf as (-> & _ & _ & _ & _ & _ & _ & Hquiet).
      * destruct (verifier_events_quiet e2 Hquiet)
          as (_ & _ & _ & _ & Hc2).
        destruct (IH (rc + 1) b w2 ltac:(lia) ltac:(lia) Hheld)
          as [Hnone|[Hb Hlen]];
          destruct (sell_rounds fuel tok (rc + 1) b w2) as [u b3 w3 e3];
          cbn [bot events] in *.
        -- left. exact Hnone.
        -- right. split; [exact Hb|].
           rewrite !trade_calls_app, Hc1, Hc2.
           rewrite !length_app, Hlen.
           destruct (rc + 1 <? max_sell_retries);
             [change (trade_calls [EvLog INFO ?m; EvSleep ?d]) with
                (@nil (string * TradeAction * Q * Z))
             |change (trade_calls []) with
                (@nil (string * TradeAction * Q * Z))];
             cbn [List.length]; lia.
      * left. reflexivity.
Qed.

(** How the sell escalation ends: with no position it does nothing; and if
    the position is still held when it ends, then all four attempts were
    made, each failed, and the bot is exactly as it was - every other
    ending (a sale, or a balance that disappeared) has cleared the
    position. *)
Theorem sell_escalation_outcome :
  forall token b w,
    let r := sell_escalation token b w in
    (position_held (current_position b) = false -> r = mk_run tt b w []) /\
    (position_held (current_position b) = true ->
     current_position (bot r) = None \/
     (bot r = b /\ List.length (trade_calls (events r)) = 4%nat)).
Proof.
  intros token b w r. split.
  - intros H. unfold r, sell_escalation.
    change (Z.to_nat (max_sell_retries + 1)) with 5%nat.
    rewrite sell_rounds_step, H, andb_false_r. reflexivity.
  - intros H.
    exact (sell_rounds_outcome token (Z.to_nat (max_sell_retries + 1)) 0
             b w ltac:(unfold max_sell_retries; lia)
             ltac:(cbn; lia) H).
Qed.

Lemma sell_escalation_outcome_witness :
  position_held (current_position holding_bot) = true /\
  current_position
    (bot (sell_escalation "mint" holding_bot
            (sample_world [Some (reading 5); Some (reading 5);
                           Some (reading 5); Some (reading 0)]
                          [] [] [SwapRejected "no route"] []))) = None.
Proof.
  assert (H : position_held (current_position holding_bot) = true)
    by reflexivity.
  split; [exact H|].
  pose proof (proj2 (sell_escalation_outcome "mint" holding_bot
                (sample_world [Some (reading 5); Some (reading 5);
                               Some (reading 5); Some (reading 0)]
                              [] [] [SwapRejected "no route"] [])) H)
    as [Ho|[Ho _]].
  - exact Ho.
  - rewrite Ho. discriminate Ho.
Defined.

Lemma verify_for_exit_outcome tok b w :
  let r := verify_for_exit tok b w in
  let v1 := verify_token_balance tok 3 b w in
  let v2 := verify_token_balance tok 3 b (world v1) in
  (value r = false <->
   fst (value v1) = false /\ fst (value v2) = false) /\
  bot r = (if value r then b else set_current_position None b) /\
  trade_calls (events r) = [].
Proof.
  cbn zeta. rewrite verify_for_exit_step.
  pose proof (verify_frame tok 3 b w) as Hf. cbn zeta in Hf.
  destruct (verify_token_balance tok 3 b w) as [[[|] answer] b1 w1 e1];
    cbn in Hf; destruct Hf as (-> & _ & _ & _ & _ & _ & _ & Hq1);
    destruct (verifier_events_quiet e1 Hq1) as (_ & _ & _ & _ & Hc1);
    cbn [value bot world events fst].
  - rewrite app_nil_r. split; [|auto].
    split; [discriminate|]. intros [H _]. discriminate.
  - pose proof (verify_frame tok 3 b w1) as Hf. cbn zeta in Hf.
    destruct (verify_token_balance tok 3 b w1) as [[[|] answer2] b2 w2 e2];
      cbn in Hf; destruct Hf as (-> & _ & _ & _ & _ & _ & _ & Hq2);
      destruct (verifier_events_quiet e2 Hq2) as (_ & _ & _ & _ & Hc2);
      cbn [value bot world events fst];
      rewrite trade_calls_app, Hc1;
      change (EvLog ERROR LogVerifyFailed :: EvSleep 2 :: e2 ++ ?l)
        with ([EvLog ERROR LogVerifyFailed; EvSleep 2] ++ e2 ++ l);
      rewrite !trade_calls_app, Hc2.
    + split; [|auto]. split; [discriminate|]. intros [_ H]. discriminate.
    + split; [|auto]. split; auto.
Qed.

(** When an exit is triggered and the balance cannot be verified - neither
    at once nor at the second try two seconds later - the monitor abandons
    the position: it clears [current_position], attempts no sale and ends;
    nothing else in the bot changes. *)
Theorem monitor_abandons_unverified_position :
  forall token b w profit_pct opened reason,
    truthy (next_price w) = true ->
    profit_percentage (next_price w) (buy_price b) = Some profit_pct ->
    position_open_time b = Some opened ->
    exit_reason profit_pct (clock w (ticks w) - opened)%Q = Some reason ->
    let w1 := tick (after_price w) in
    let v1 := verify_token_balance token 3 b w1 in
    let v2 := verify_token_balance token 3 b (world v1) in
    fst (value v1) = false -> fst (value v2) = false ->
    let r := monitor_body token b w in
    value r = Break /\ bot r = set_current_position None b /\
    trade_calls (events r) = [] /\
    count_events is_swap (events r) = 0%nat.
Proof.
  intros token b w pct opened reason Hprice Hpct Hopen Hexit w1 v1 v2 H1 H2 r.
  unfold r. rewrite monitor_body_step. cbn zeta.
  rewrite Hprice, Hpct, Hopen, Hexit. cbn [negb].
  pose proof (verify_for_exit_outcome token b (tick (after_price w))) as Ho.
  cbn zeta in Ho. destruct Ho as (Hiff & Hbot & Hcalls).
  pose proof (proj2 Hiff (conj H1 H2)) as Hfalse.
  assert (Hswaps : count_events is_swap
                     (events (verify_for_exit token b
                                (tick (after_price w)))) = 0%nat).
  { rewrite verify_for_exit_step.
    pose proof (verify_frame token 3 b (tick (after_price w))) as Hf.
    cbn zeta in Hf.
    destruct (verify_token_balance token 3 b (tick (after_price w)))
      as [[[|] answer] b1 w1' e1];
      cbn in Hf; destruct Hf as (-> & _ & _ & _ & _ & _ & _ & Hq1);
      destruct (verifier_counts e1 Hq1) as (Hs1 & _ & _).
    - cbn [events]. count_up. rewrite Hs1. reflexivity.
    - pose proof (verify_frame token 3 b w1') as Hf. cbn zeta in Hf.
      destruct (verify_token_balance token 3 b w1')
        as [[[|] answer2] b2 w2 e2];
        cbn in Hf; destruct Hf as (-> & _ & _ & _ & _ & _ & _ & Hq2);
        destruct (verifier_counts e2 Hq2) as (Hs2 & _ & _);
        cbn [events]; count_up; rewrite Hs1, Hs2; reflexivity. }
  destruct (verify_for_exit token b (tick (after_price w)))
    as [[|] b1 w1' e1]; cbn [value bot events] in *; [discriminate|].
  split; [reflexivity|]. split; [exact Hbot|]. split.
  - change (EvPrice token (next_price w)
            :: EvLog INFO (LogExitTriggered reason) :: e1 ++ [])
      with ([EvPrice token (next_price w);
             EvLog INFO (LogExitTriggered reason)] ++ e1 ++ []).
    rewrite !trade_calls_app, Hcalls. reflexivity.
  - count_up. rewrite Hswaps. reflexivity.
Qed.

Lemma monitor_abandons_unverified_position_witness :
  value (monitor_body "mint" holding_bot
           (sample_world [] [] [2.32%Q] [] [])) = Break /\
  bot (monitor_body "mint" holding_bot
         (sample_world [] [] [2.32%Q] [] [])) =
  set_current_position None holding_bot.
Proof.
  pose proof (monitor_abandons_unverified_position "mint" holding_bot
                (sample_world [] [] [2.32%Q] [] [])
                (((2.32 - 2) / 2) * 100)%Q 0%Q
                (ProfitTarget (((2.32 - 2) / 2) * 100)%Q)
                eq_refl eq_refl eq_refl eq_refl eq_refl eq_refl)
    as (Hv & Hb & _).
  split; [exact Hv|exact Hb].
Defined.

(** ** The RPC clients *)

Lemma account_info_attempts_effort ata max n : forall k replies,
  let a := Rpc.account_info_attempts (map Z.of_nat (seq k n)) ata max
                                     replies in
  let requests := List.length (filter Rpc.is_request (Rpc.trace a)) in
  (requests <= n)%nat /\
  Rpc.remaining a = skipn requests replies /\
  (List.length (Rpc.sleeps (Rpc.trace a)) <= requests)%nat /\
  (forall info,
      Rpc.result a = Some info ->
      In (Rpc.RpcRequest ata (Rpc.AccountData "spl-token" (Some info)))
         (Rpc.trace a)).
Proof.
  induction n as [|n IH]; intros k replies.
  - cbn. repeat split; try lia. discriminate.
  - cbn [seq map Rpc.account_info_attempts].
    destruct replies as [|reply later]; cbn [pop].
    + specialize (IH (S k) []). cbn zeta in IH.
      destruct (Rpc.account_info_attempts (map Z.of_nat (seq (S k) n)) ata
                                          max []) as [res rem tr].
      cbn in IH |- *. destruct IH as (H1 & H2 & H3 & H4).
      split; [lia|]. split; [rewrite H2; destruct (List.length _);
                             reflexivity|].
      split; [lia|]. intros info Hr. right. right. right. auto.
    + specialize (IH (S k) later). cbn zeta in IH.
      destruct (Rpc.account_info_attempts (map Z.of_nat (seq (S k) n)) ata
                                          max later) as [res rem tr].
      cbn in IH. destruct IH as (H1 & H2 & H3 & H4).
      destruct reply as [| | |program [info|]]; cbn.
      * split; [lia|]. split; [exact H2|]. split; [lia|].
        intros info Hr. right. right. right. auto.
      * split; [lia|]. split; [exact H2|]. split; [lia|].
        intros info Hr. right. right. right. auto.
      * split; [lia|]. split; [reflexivity|]. split; [lia|]. discriminate.
      * destruct (String.eqb program "spl-token") eqn:Hp; cbn.
        -- apply String.eqb_eq in Hp. subst program.
           split; [lia|]. split; [reflexivity|]. split; [lia|].
           intros info' Hr. injection Hr as <-. left. reflexivity.
        -- split; [lia|]. split; [reflexivity|]. split; [lia|]. discriminate.
      * destruct (String.eqb program "spl-token") eqn:Hp; cbn.
        -- split; [lia|]. split; [exact H2|]. split; [lia|].
           intros info Hr. right. right. right. auto.
        -- split; [lia|]. split; [reflexivity|]. split; [lia|]. discriminate.
Qed.

(** [get_token_account_info] sends at most [max_retries] requests and
    consumes exactly the replies to them; it pauses at most once per
    request; a reading it returns is the token amount of an account owned by
    the program "spl-token" that one of its requests delivered; and when
    the token account cannot be derived it returns [None] without any
    request. *)
Theorem get_token_account_info_effort :
  forall derive token max_retries replies,
    let a := Rpc.get_token_account_info derive token max_retries replies in
    let requests := List.length (filter Rpc.is_request (Rpc.trace a)) in
    (requests <= Z.to_nat max_retries)%nat /\
    Rpc.remaining a = skipn requests replies /\
    (List.length (Rpc.sleeps (Rpc.trace a)) <= requests)%nat /\
    (forall info,
        Rpc.result a = Some info ->
        exists ata,
          derive token = Some ata /\
          In (Rpc.RpcRequest ata (Rpc.AccountData "spl-token" (Some info)))
             (Rpc.trace a)) /\
    (derive token = None -> Rpc.result a = None /\ requests = 0%nat).
Proof.
  intros derive token max replies. unfold Rpc.get_token_account_info.
  destruct (derive token) as [ata|].
  - pose proof (account_info_attempts_effort ata max (Z.to_nat max) 0
                  replies) as H.
    cbn zeta in H |- *. fold (range max) in H.
    destruct H as (H1 & H2 & H3 & H4).
    split; [exact H1|]. split; [exact H2|]. split; [exact H3|].
    split; [|discriminate].
    intros info Hr. exists ata. split; [reflexivity|]. exact (H4 info Hr).
  - cbn. repeat split; try lia; discriminate.
Qed.

Lemma get_token_account_info_effort_witness :
  Rpc.result
    (Rpc.get_token_account_info (fun t => Some ("ata:" ++ t)%string) "mint" 5
       [Rpc.AccountNoResult;
        Rpc.AccountData "spl-token" (Some (reading 7))]) =
  Some (reading 7) /\
  exists ata,
    In (Rpc.RpcRequest ata (Rpc.AccountData "spl-token" (Some (reading 7))))
       (Rpc.trace
          (Rpc.get_token_account_info (fun t => Some ("ata:" ++ t)%string)
             "mint" 5
             [Rpc.AccountNoResult;
              Rpc.AccountData "spl-token" (Some (reading 7))])).
Proof.
  assert (H : Rpc.result
    (Rpc.get_token_account_info (fun t => Some ("ata:" ++ t)%string) "mint" 5
       [Rpc.AccountNoResult;
        Rpc.AccountData "spl-token" (Some (reading 7))]) =
    Some (reading 7)) by reflexivity.
  split; [exact H|].
  destruct (proj1 (proj2 (proj2 (proj2
              (get_token_account_info_effort
                 (fun t => Some ("ata:" ++ t)%string) "mint" 5
                 [Rpc.AccountNoResult;
                  Rpc.AccountData "spl-token" (Some (reading 7))]))))
              _ H) as (ata & _ & Hin).
  exists ata. exact Hin.
Defined.

Lemma account_info_attempts_decides ata max pre : forall k n d rest,
  Forall (fun r => Rpc.retried r = true) pre ->
  Rpc.retried d = false ->
  (List.length pre < n)%nat ->
  let a := Rpc.account_info_attempts (map Z.of_nat (seq k n)) ata max
                                     (pre ++ d :: rest) in
  Rpc.result a = Rpc.verdict d /\ Rpc.remaining a = rest /\
  Rpc.sleeps (Rpc.trace a) =
  map (fun i => (Rpc.retry_delay * inject_Z (Z.of_nat i + 1))%Q)
      (seq k (List.length pre)) /\
  List.length (filter Rpc.is_request (Rpc.trace a)) = S (List.length pre).
Proof.
  induction pre as [|r pre IH]; intros k n d rest Hpre Hd Hn;
    (destruct n as [|n]; [cbn in Hn; lia|]);
    cbn [seq map Rpc.account_info_attempts app pop].
  - destruct d as [| | |program [info|]]; cbn in Hd; try discriminate; cbn.
    + auto.
    + destruct (String.eqb program "spl-token"); cbn; auto.
    + rewrite Hd. cbn. auto.
  - inversion Hpre as [|? ? Hr Hrest]; subst.
    cbn in Hn.
    specialize (IH (S k) n d rest Hrest Hd ltac:(lia)). cbn zeta in IH.
    destruct (Rpc.account_info_attempts (map Z.of_nat (seq (S k) n)) ata max
                                        (pre ++ d :: rest))
      as [res rem tr].
    cbn in IH. destruct IH as (H1 & H2 & H3 & H4).
    destruct r as [| | |program [info|]]; cbn in Hr; try discriminate; cbn.
    + rewrite H3, H4. auto.
    + rewrite H3, H4. auto.
    + rewrite Hr. cbn. rewrite H3, H4. auto.
Qed.

(** The first reply that is no failure decides: after failed requests
    (exceptions, bodies without a result, unparsable token amounts) that
    leave room within [max_retries], a missing account or an account of
    another program gives [None] and a parsed spl-token account gives its
    reading; nothing is requested after it, and the pauses before it were
    1.5 s, 3 s, 4.5 s, ... *)
Theorem get_token_account_info_decides :
  forall derive token ata max_retries pre d rest,
    derive token = Some ata ->
    Forall (fun r => Rpc.retried r = true) pre ->
    Rpc.retried d = false ->
    Z.of_nat (List.length pre) < max_retries ->
    let a := Rpc.get_token_account_info derive token max_retries
                                        (pre ++ d :: rest) in
    Rpc.result a = Rpc.verdict d /\ Rpc.remaining a = rest /\
    Rpc.sleeps (Rpc.trace a) =
    map (fun i => (1.5 * inject_Z (Z.of_nat i + 1))%Q)
        (seq 0 (List.length pre)) /\
    List.length (filter Rpc.is_request (Rpc.trace a)) = S (List.length pre).
Proof.
  intros derive token ata max pre d rest Hata Hpre Hd Hn.
  unfold Rpc.get_token_account_info. rewrite Hata.
  exact (account_info_attempts_decides ata max pre 0 (Z.to_nat max) d rest
           Hpre Hd ltac:(lia)).
Qed.

Lemma get_token_account_info_decides_witness :
  Rpc.result
    (Rpc.get_token_account_info (fun t => Some ("ata:" ++ t)%string) "mint" 5
       ([Rpc.AccountException; Rpc.AccountNoResult]
          ++ Rpc.AccountMissing :: [Rpc.AccountData "spl-token"
                                      (Some (reading 7))])) = None /\
  Rpc.sleeps
    (Rpc.trace
       (Rpc.get_token_account_info (fun t => Some ("ata:" ++ t)%string)
          "mint" 5
          ([Rpc.AccountException; Rpc.AccountNoResult]
             ++ Rpc.AccountMissing :: [Rpc.AccountData "spl-token"
                                         (Some (reading 7))]))) =
  [(1.5 * inject_Z 1)%Q; (1.5 * inject_Z 2)%Q].
Proof.
  assert (Hpre : Forall (fun r => Rpc.retried r = true)
                        [Rpc.AccountException; Rpc.AccountNoResult])
    by (repeat constructor).
  assert (Hn : Z.of_nat (List.length [Rpc.AccountException;
                                      Rpc.AccountNoResult]) < 5)
    by (cbn; lia).
  destruct (get_token_account_info_decides
              (fun t => Some ("ata:" ++ t)%string) "mint" "ata:mint" 5
              [Rpc.AccountException; Rpc.AccountNoResult]
              Rpc.AccountMissing
              [Rpc.AccountData "spl-token" (Some (reading 7))]
              eq_refl Hpre eq_refl Hn) as (Hr & _ & Hs & _).
  split; [exact Hr|exact Hs].
Defined.

Lemma account_info_attempts_gives_up ata max n : forall k replies,
  Forall (fun r => Rpc.retried r = true) (firstn n replies) ->
  let a := Rpc.account_info_attempts (map Z.of_nat (seq k n)) ata max
                                     replies in
  Rpc.result a = None /\
  Rpc.sleeps (Rpc.trace a) =
  map (fun i => (Rpc.retry_delay * inject_Z (Z.of_nat i + 1))%Q) (seq k n) /\
  List.length (filter Rpc.is_request (Rpc.trace a)) = n.
Proof.
  induction n as [|n IH]; intros k replies Hall.
  - cbn. auto.
  - cbn [seq map Rpc.account_info_attempts].
    destruct replies as [|r later]; cbn [pop].
    + specialize (IH (S k) [] ltac:(destruct n; constructor)).
      cbn zeta in IH.
      destruct (Rpc.account_info_attempts (map Z.of_nat (seq (S k) n)) ata
                                          max []) as [res rem tr].
      cbn in IH |- *. destruct IH as (H1 & H2 & H3).
      rewrite H2, H3. auto.
    + cbn in Hall. inversion Hall as [|? ? Hr Hrest]; subst.
      specialize (IH (S k) later Hrest). cbn zeta in IH.
      destruct (Rpc.account_info_attempts (map Z.of_nat (seq (S k) n)) ata
                                          max later) as [res rem tr].
      cbn in IH. destruct IH as (H1 & H2 & H3).
      destruct r as [| | |program [info|]]; cbn in Hr; try discriminate; cbn.
      * rewrite H2, H3. auto.
      * rewrite H2, H3. auto.
      * rewrite Hr. cbn. rewrite H2, H3. auto.
Qed.

(** When every one of its [max_retries] requests fails (a node that does
    not answer included), [get_token_account_info] returns [None] after
    exactly [max_retries] requests, and it has paused 1.5 s times the number
    of the attempt after each of them, the last one included: 22.5 s in all
    for the default of 5. *)
Theorem get_token_account_info_gives_up :
  forall derive token ata max_retries replies,
    derive token = Some ata ->
    Forall (fun r => Rpc.retried r = true)
           (firstn (Z.to_nat max_retries) replies) ->
    let a := Rpc.get_token_account_info derive token max_retries replies in
    Rpc.result a = None /\
    Rpc.sleeps (Rpc.trace a) =
    map (fun i => (1.5 * inject_Z (Z.of_nat i + 1))%Q)
        (seq 0 (Z.to_nat max_retries)) /\
    List.length (filter Rpc.is_request (Rpc.trace a)) =
    Z.to_nat max_retries /\
    (max_retries = 5 ->
     (fold_right Qplus 0 (Rpc.sleeps (Rpc.trace a)) == 22.5)%Q).
Proof.
  intros derive token ata max replies Hata Hall.
  unfold Rpc.get_token_account_info. rewrite Hata.
  destruct (account_info_attempts_gives_up ata max (Z.to_nat max) 0 replies
              Hall) as (H1 & H2 & H3).
  fold (range max) in H1, H2, H3.
  split; [exact H1|]. split; [exact H2|]. split; [exact H3|].
  intros ->. rewrite H2. reflexivity.
Qed.

Lemma get_token_account_info_gives_up_witness :
  Forall (fun r => Rpc.retried r = true) (firstn (Z.to_nat 5) []) /\
  Rpc.result
    (Rpc.get_token_account_info (fun t => Some ("ata:" ++ t)%string) "mint" 5
       []) = None.
Proof.
  assert (H : Forall (fun r => Rpc.retried r = true)
                     (firstn (Z.to_nat 5) [])) by constructor.
  split; [exact H|].
  exact (proj1 (get_token_account_info_gives_up
                  (fun t => Some ("ata:" ++ t)%string) "mint" "ata:mint" 5
                  [] eq_refl H)).
Defined.

(** ** What a BUY spends *)

Lemma one_attempt_buy_sizing tok pm slip a b w :
  let r := one_attempt tok BUY pm slip a b w in
  (value r = None -> bot r = b) /\
  forall p reply,
    In (EvSwap p reply) (events r) ->
    exists balance,
      In (EvSolBalance balance) (events r) /\
      Qlt_bool balance 0.0001 = false /\
      p = buy_params tok balance b.
Proof.
  unfold_attempt. cbn.
  repeat (break_match; cbn);
    (split; [first [reflexivity|discriminate]|]);
    intros p reply Hin; crack_in;
    eexists; (split; [|split; [eassumption|reflexivity]]); cbn; auto 10.
Qed.

Lemma attempts_buy_sizing tok pm slip l : forall b w p reply,
  In (EvSwap p reply) (events (execute_trade_attempts l tok BUY pm slip b w))
  ->
  exists balance,
    In (EvSolBalance balance)
       (events (execute_trade_attempts l tok BUY pm slip b w)) /\
    Qlt_bool balance 0.0001 = false /\
    p = buy_params tok balance b.
Proof.
  induction l as [|a l IH]; intros b w p reply; [intros []|].
  rewrite execute_trade_attempts_cons.
  pose proof (one_attempt_buy_sizing tok pm slip a b w) as H1.
  cbn zeta in H1. destruct H1 as [Hbot H1].
  destruct (one_attempt tok BUY pm slip a b w) as [[res|] b1 w1 e1];
    cbn [events value bot] in *.
  - rewrite app_nil_r. exact (H1 p reply).
  - rewrite (Hbot eq_refl) in *. specialize (IH b w1 p reply).
    destruct (execute_trade_attempts l tok BUY pm slip b w1)
      as [v2 b2 w2 e2]; cbn [events] in *.
    intros Hin. apply in_app_or in Hin. destruct Hin as [Hin|Hin].
    + destruct (H1 p reply Hin) as (balance & Hb & Hd & Hp).
      exists balance. split; [apply in_or_app; left; exact Hb|auto].
    + destruct (IH Hin) as (balance & Hb & Hd & Hp).
      exists balance. split; [apply in_or_app; right; exact Hb|auto].
Qed.

Lemma lamports_below_dust lamports :
  Qlt_bool (Rpc.get_sol_balance (Rpc.BalanceLamports lamports)) 0.0001 =
  (lamports <? 100000).
Proof.
  unfold Qlt_bool, Qle_bool, Rpc.get_sol_balance. cbn.
  destruct (lamports <? 100000) eqn:H.
  - apply Z.ltb_lt in H. apply negb_true_iff. apply Z.leb_gt. lia.
  - apply Z.ltb_ge in H. apply negb_false_iff. apply Z.leb_le. lia.
Qed.

Lemma lamports_spent tok b lamports :
  amount (buy_params tok (Rpc.get_sol_balance (Rpc.BalanceLamports lamports))
                     b) = lamports ÷ 10.
Proof.
  unfold buy_params, int_of, Rpc.get_sol_balance. cbn.
  replace (lamports * 1 * 1 * 1000000000) with (lamports * 1000000000)
    by lia.
  change 10000000000 with (10 * 1000000000).
  apply Z.quot_mul_cancel_r; lia.
Qed.

(** Every swap request of a BUY spends a tenth of a wallet balance that the
    call has read itself and found to be at least 0.0001 SOL, with the fixed
    slippage and fee, from the bot's SOL mint into the token.  When the
    node reported that balance as [lamports], the amount requested is
    [lamports / 10] rounded down, in lamports, and the balance was at least
    100000 lamports; a failed balance request counts as 0 SOL, which is below
    the threshold. *)
Theorem execute_trade_buy_sizing :
  forall token pm slip b w p reply,
    let r := execute_trade token BUY pm slip b w in
    In (EvSwap p reply) (events r) ->
    exists balance,
      In (EvSolBalance balance) (events r) /\
      (0.0001 <= balance)%Q /\
      p = buy_params token balance b /\
      fromMint p = sol_mint b /\ toMint p = token /\
      (forall lamports,
          balance = Rpc.get_sol_balance (Rpc.BalanceLamports lamports) ->
          100000 <= lamports /\ amount p = lamports ÷ 10) /\
      balance <> Rpc.get_sol_balance Rpc.BalanceException.
Proof.
  intros token pm slip b w p reply r Hin. unfold r in *. clear r.
  pose proof (attempts_buy_sizing token pm slip (range (max_retries + 1))
                b w p reply) as H.
  rewrite execute_trade_unfold in *.
  destruct (execute_trade_attempts (range (max_retries + 1)) token BUY pm
                                   slip b w) as [v b1 w1 e1].
  cbn [events] in *.
  destruct Hin as [Hin|Hin]; [discriminate|].
  destruct (H Hin) as (balance & Hb & Hd & Hp).
  exists balance. split; [right; exact Hb|].
  assert (Hle : (0.0001 <= balance)%Q).
  { unfold Qlt_bool in Hd. apply negb_false_iff in Hd.
    apply Qle_bool_iff in Hd. exact Hd. }
  split; [exact Hle|]. split; [exact Hp|].
  split; [rewrite Hp; reflexivity|]. split; [rewrite Hp; reflexivity|].
  split.
  - intros lamports ->. rewrite lamports_below_dust in Hd.
    apply Z.ltb_ge in Hd. split; [exact Hd|].
    rewrite Hp. apply lamports_spent.
  - intros ->. cbn in Hd. discriminate.
Qed.

Lemma execute_trade_buy_sizing_witness :
  exists balance,
    In (EvSolBalance balance)
       (events (execute_trade "mint" BUY 1 2000 sample_bot
                  (sample_world []
                     [Rpc.get_sol_balance (Rpc.BalanceLamports 2500000007)]
                     [] [SwapRejected "no route"] []))) /\
    amount (buy_params "mint" balance sample_bot) = 250000000.
Proof.
  destruct (execute_trade_buy_sizing "mint" 1 2000 sample_bot
              (sample_world []
                 [Rpc.get_sol_balance (Rpc.BalanceLamports 2500000007)]
                 [] [SwapRejected "no route"] [])
              (buy_params "mint"
                 (Rpc.get_sol_balance (Rpc.BalanceLamports 2500000007))
                 sample_bot)
              (SwapRejected "no route"))
    as (balance & Hin & _ & Hp & _).
  - vm_compute. auto 10.
  - exists balance. split; [exact Hin|].
    rewrite <- Hp. reflexivity.
Defined.

(** ** The monitor, from round to round *)

Lemma verifier_no_signal l :
  forallb verifier_event l = true ->
  count_events is_trigger l = 0%nat /\
  count_events is_monitor_error l = 0%nat.
Proof.
  induction l as [|e l IH]; [auto|].
  cbn [forallb]. intros H. apply andb_true_iff in H. destruct H as [He Hl].
  destruct (IH Hl) as (H1 & H2). rewrite !count_events_cons, H1, H2.
  destruct e as [| | | | | | | | |lvl msg]; cbn in *; try discriminate; auto.
  destruct lvl, msg; cbn in *; try discriminate; auto.
Qed.

Ltac count_signals :=
  repeat (rewrite ?count_events_cons, ?count_events_app, ?count_events_nil;
          cbn [is_trigger is_monitor_error]).

Lemma one_attempt_no_signal tok act pm slip a b w :
  let r := one_attempt tok act pm slip a b w in
  count_events is_trigger (events r) = 0%nat /\
  count_events is_monitor_error (events r) = 0%nat.
Proof.
  destruct act.
  - unfold_attempt. cbn.
    repeat (break_match; cbn); count_signals; auto.
  - unfold_attempt. cbn. open_verify tok b w.
    destruct (verifier_no_signal vev Hquiet) as (Hc1 & Hc2).
    repeat (break_match; cbn); count_signals; rewrite ?Hc1, ?Hc2; auto.
Qed.

Lemma attempts_no_signal tok act pm slip l : forall b w,
  let r := execute_trade_attempts l tok act pm slip b w in
  count_events is_trigger (events r) = 0%nat /\
  count_events is_monitor_error (events r) = 0%nat.
Proof.
  induction l as [|a l IH]; intros b w; [cbn; auto|].
  cbn zeta. rewrite execute_trade_attempts_cons.
  pose proof (one_attempt_no_signal tok act pm slip a b w) as H1.
  cbn zeta in H1.
  destruct (one_attempt tok act pm slip a b w) as [[res|] b1 w1 e1];
    cbn [events] in H1 |- *; destruct H1 as (H1 & H2).
  - rewrite app_nil_r. auto.
  - specialize (IH b1 w1). cbn zeta in IH.
    destruct (execute_trade_attempts l tok act pm slip b1 w1)
      as [v2 b2 w2 e2].
    cbn [events] in IH |- *. destruct IH as (H3 & H4).
    rewrite !count_events_app, H1, H2, H3, H4. auto.
Qed.

Lemma execute_trade_no_signal tok act pm slip b w :
  let r := execute_trade tok act pm slip b w in
  count_events is_trigger (events r) = 0%nat /\
  count_events is_monitor_error (events r) = 0%nat.
Proof.
  cbn zeta. rewrite execute_trade_unfold.
  pose proof (attempts_no_signal tok act pm slip (range (max_retries + 1))
                b w) as H.
  cbn zeta in H.
  destruct (execute_trade_attempts (range (max_retries + 1)) tok act pm slip
                                   b w) as [v b1 w1 e1].
  cbn [events] in H |- *. count_signals. exact H.
Qed.

Lemma verify_no_signal tok b w :
  let r := verify_token_balance tok 3 b w in
  bot r = b /\
  count_events is_trigger (events r) = 0%nat /\
  count_events is_monitor_error (events r) = 0%nat.
Proof.
  pose proof (verify_frame tok 3 b w) as Hf. cbn zeta in Hf |- *.
  destruct (verify_token_balance tok 3 b w) as [[valid answer] b1 w1 e1].
  cbn in Hf |- *. destruct Hf as (-> & _ & _ & _ & _ & _ & _ & Hq).
  split; [reflexivity|]. exact (verifier_no_signal e1 Hq).
Qed.

Lemma sell_rounds_no_signal tok fuel : forall rc b w,
  let r := sell_rounds fuel tok rc b w in
  count_events is_trigger (events r) = 0%nat /\
  count_events is_monitor_error (events r) = 0%nat.
Proof.
  induction fuel as [|fuel IH]; intros rc b w; [cbn; auto|].
  cbn zeta. rewrite sell_rounds_step.
  destruct ((rc <? max_sell_retries) && position_held (current_position b));
    [|cbn; auto].
  pose proof (execute_trade_no_signal tok SELL
                (nth (Z.to_nat rc) multipliers 0%Q)
                (nth (Z.to_nat rc) slippages 0) b w) as He.
  cbn zeta in He.
  destruct (execute_trade tok SELL _ _ b w) as [[|] b1 w1 e1];
    cbn [events] in He |- *; destruct He as (He1 & He2).
  - rewrite app_nil_r. auto.
  - pose proof (verify_no_signal tok b1 w1) as Hv. cbn zeta in Hv.
    destruct (verify_token_balance tok 3 b1 w1) as [[[|] answer] b2 w2 e2];
      cbn [events bot] in Hv |- *; destruct Hv as (_ & Hv1 & Hv2).
    + specialize (IH (rc + 1) b2 w2). cbn zeta in IH.
      destruct (sell_rounds fuel tok (rc + 1) b2 w2) as [u b3 w3 e3].
      cbn [events] in IH |- *. destruct IH as (H3 & H4).
      destruct (rc + 1 <? max_sell_retries); count_signals;
        rewrite He1, He2, Hv1, Hv2, H3, H4; auto.
    + count_signals. rewrite He1, He2, Hv1, Hv2. auto.
Qed.

Lemma verify_for_exit_no_signal tok b w :
  let r := verify_for_exit tok b w in
  count_events is_trigger (events r) = 0%nat /\
  count_events is_monitor_error (events r) = 0%nat.
Proof.
  cbn zeta. rewrite verify_for_exit_step.
  pose proof (verify_no_signal tok b w) as Hv. cbn zeta in Hv.
  destruct (verify_token_balance tok 3 b w) as [[[|] answer] b1 w1 e1];
    cbn [events bot] in Hv |- *; destruct Hv as (-> & Hv1 & Hv2).
  - rewrite app_nil_r. auto.
  - pose proof (verify_no_signal tok b w1) as Hv. cbn zeta in Hv.
    destruct (verify_token_balance tok 3 b w1) as [[[|] answer2] b2 w2 e2];
      cbn [events bot] in Hv |- *; destruct Hv as (_ & Hv3 & Hv4);
      count_signals; rewrite Hv1, Hv2, Hv3, Hv4; auto.
Qed.

Lemma monitor_body_phases tok b w :
  let r := monitor_body tok b w in
  match value r with
  | Again => forallb watching (events r) = true /\ bot r = b
  | Break =>
      exists reason post,
        events r = EvPrice tok (next_price w)
                   :: EvLog INFO (LogExitTriggered reason) :: post /\
        count_events is_trigger post = 0%nat /\
        count_events is_monitor_error post = 0%nat
  end /\
  (truthy (buy_price b) = true -> position_open_time b <> None ->
   count_events is_monitor_error (events r) = 0%nat).
Proof.
  cbn zeta. rewrite monitor_body_step. cbn zeta.
  destruct (negb (truthy (next_price w))); [cbn; auto|].
  unfold profit_percentage, decimal_div.
  destruct (truthy (buy_price b)) eqn:Hbuy;
    [|cbn; split; [auto|discriminate]].
  destruct (position_open_time b) as [opened|];
    [|cbn; split; [auto|intros _ H; contradiction H; reflexivity]].
  destruct (exit_reason _ _) as [reason|]; [|cbn; auto].
  pose proof (verify_for_exit_no_signal tok b (tick (after_price w))) as Hv.
  cbn zeta in Hv.
  destruct (verify_for_exit tok b (tick (after_price w)))
    as [[|] b1 w1 e1]; cbn [events] in Hv; destruct Hv as (Hv1 & Hv2).
  - pose proof (sell_rounds_no_signal tok (Z.to_nat (max_sell_retries + 1))
                  0 b1 w1) as Hs.
    cbn zeta in Hs. fold (sell_escalation tok b1 w1) in Hs.
    destruct (sell_escalation tok b1 w1) as [u b2 w2 e2].
    cbn [events value] in Hs |- *. destruct Hs as (Hs1 & Hs2).
    split.
    + exists reason, (e1 ++ e2 ++ []). split; [reflexivity|].
      count_signals. rewrite Hv1, Hv2, Hs1, Hs2. auto.
    + intros _ _. count_signals. rewrite Hv2, Hs2. reflexivity.
  - cbn [events value]. split.
    + exists reason, (e1 ++ []). split; [reflexivity|].
      count_signals. rewrite Hv1, Hv2. auto.
    + intros _ _. count_signals. rewrite Hv2. reflexivity.
Qed.

(** Until an exit is triggered the monitor only watches: it reads the
    price, sleeps, and logs its own errors, and leaves the bot as it is.
    It triggers an exit at most once, and the task ends with the round
    that triggered it - whether the sale then succeeds or not. *)
Theorem monitor_acts_only_on_trigger :
  forall fuel token b w,
    let r := monitor_token fuel token b w in
    (forallb watching (events r) = true /\ bot r = b) \/
    (exists pre reason post,
        events r = pre ++ EvLog INFO (LogExitTriggered reason) :: post /\
        forallb watching pre = true /\
        count_events is_trigger post = 0%nat /\
        value r = Some tt).
Proof.
  induction fuel as [|fuel IH]; intros token b w; [left; cbn; auto|].
  cbn zeta. rewrite monitor_token_step.
  destruct (position_is (current_position b) token); [|left; cbn; auto].
  pose proof (monitor_body_phases token b w) as [Hb _]. cbn zeta in Hb.
  destruct (monitor_body token b w) as [[|] b1 w1 e1];
    cbn [events value bot] in Hb |- *.
  - destruct Hb as [Hw ->]. specialize (IH token b w1). cbn zeta in IH.
    destruct (monitor_token fuel token b w1) as [v b2 w2 e2].
    cbn [events value bot] in IH |- *.
    destruct IH as [[Hw2 Hb2]|(pre & reason & post & He & Hpre & Hpost & Hv)].
    + left. rewrite forallb_app, Hw, Hw2. auto.
    + right. exists (e1 ++ pre), reason, post.
      rewrite He, <- app_assoc, forallb_app, Hw, Hpre. auto.
  - destruct Hb as (reason & post & -> & Hpost & _). right.
    exists [EvPrice token (next_price w)], reason, post.
    rewrite app_nil_r. split; [reflexivity|]. split; [reflexivity|].
    split; [exact Hpost|reflexivity].
Qed.





Lemma monitor_body_break tok b w :
  position_held (current_position b) = true ->
  let r := monitor_body tok b w in
  value r = Break ->
  current_position (bot r) = None \/
  (bot r = b /\ List.length (trade_calls (events r)) = 4%nat).
Proof.
  intros Hheld. cbn zeta. rewrite monitor_body_step. cbn zeta.
  destruct (negb (truthy (next_price w))); [discriminate|].
  destruct (profit_percentage (next_price w) (buy_price b)) as [pct|];
    [|discriminate].
  destruct (position_open_time b) as [opened|]; [|discriminate].
  destruct (exit_reason pct (clock w (ticks w) - opened)) as [reason|];
    [|discriminate].
  pose proof (verify_for_exit_outcome tok b (tick (after_price w))) as Hv.
  cbn zeta in Hv. destruct Hv as (_ & Hbot & Hcalls).
  destruct (verify_for_exit tok b (tick (after_price w)))
    as [[|] b1 w1 e1]; cbn [bot events value] in Hbot, Hcalls; subst b1.
  - pose proof (sell_rounds_outcome tok (Z.to_nat (max_sell_retries + 1)) 0
                  b w1 ltac:(unfold max_sell_retries; lia)
                  ltac:(cbn; lia) Hheld) as Hs.
    cbn zeta in Hs. fold (sell_escalation tok b w1) in Hs.
    destruct (sell_escalation tok b w1) as [u b2 w2 e2].
    cbn [bot events value] in Hs |- *. intros _.
    destruct Hs as [Hs|[Hs Hn]]; [left; exact Hs|right].
    split; [exact Hs|].
    change (EvPrice tok (next_price w)
            :: EvLog INFO (LogExitTriggered reason) :: e1 ++ e2 ++ [])
      with ([EvPrice tok (next_price w); EvLog INFO (LogExitTriggered reason)]
              ++ e1 ++ e2 ++ []).
    rewrite !trade_calls_app, Hcalls, app_nil_r. exact Hn.
  - cbn [bot]. intros _. left. reflexivity.
Qed.

(** How the monitor of a held position can end.  If the position is not
    the monitored token it ends at once and does nothing.  Otherwise it ends
    with the position cleared (sold, or abandoned because the balance could
    not be verified) - or after four sell attempts that all failed, and
    then the bot is exactly as before: the position is still held, and no
    task watches it any more. *)
Theorem monitor_token_ending :
  forall fuel token b w,
    position_held (current_position b) = true ->
    let r := monitor_token fuel token b w in
    value r = Some tt ->
    (position_is (current_position b) token = false /\
     r = mk_run (Some tt) b w []) \/
    (position_is (current_position b) token = true /\
     (current_position (bot r) = None \/
      (bot r = b /\ List.length (trade_calls (events r)) = 4%nat))).
Proof.
  induction fuel as [|fuel IH]; intros token b w Hheld; [discriminate|].
  cbn zeta. rewrite monitor_token_step.
  destruct (position_is (current_position b) token) eqn:His;
    [|left; auto].
  intros Hv. right. split; [reflexivity|].
  pose proof (monitor_body_break token b w Hheld) as Hbreak.
  pose proof (monitor_body_frame token b w) as Hframe.
  cbn zeta in Hbreak, Hframe. destruct Hframe as (_ & _ & Hagain).
  destruct (monitor_body token b w) as [[|] b1 w1 e1];
    cbn [bot events value] in Hbreak, Hagain, Hv |- *.
  - destruct (Hagain eq_refl) as [-> Hnil].
    specialize (IH token b w1 Hheld). cbn zeta in IH.
    destruct (monitor_token fuel token b w1) as [v b2 w2 e2].
    cbn [bot events value] in IH, Hv |- *.
    rewrite trade_calls_app, Hnil. cbn [app].
    destruct (IH Hv) as [[Hno _]|[_ H]]; [congruence|exact H].
  - rewrite app_nil_r. exact (Hbreak eq_refl).
Qed.

Lemma monitor_token_ending_witness :
  position_held (current_position holding_bot) = true /\
  value (monitor_token 1 "mint" holding_bot
           (sample_world (repeat (Some (reading 5)) 27) [] [2.4%Q]
                         (repeat (SwapRejected "no route") 4) [])) =
  Some tt /\
  current_position
    (bot (monitor_token 1 "mint" holding_bot
            (sample_world (repeat (Some (reading 5)) 27) [] [2.4%Q]
                          (repeat (SwapRejected "no route") 4) []))) =
  Some "mint" /\
  List.length
    (trade_calls
       (events (monitor_token 1 "mint" holding_bot
                  (sample_world (repeat (Some (reading 5)) 27) [] [2.4%Q]
                                (repeat (SwapRejected "no route") 4) []))))
  = 4%nat.
Proof.
  assert (Hheld : position_held (current_position holding_bot) = true)
    by reflexivity.
  assert (Hv : value (monitor_token 1 "mint" holding_bot
                 (sample_world (repeat (Some (reading 5)) 27) [] [2.4%Q]
                               (repeat (SwapRejected "no route") 4) [])) =
               Some tt) by (vm_compute; reflexivity).
  assert (Hp : current_position
                 (bot (monitor_token 1 "mint" holding_bot
                         (sample_world (repeat (Some (reading 5)) 27) []
                            [2.4%Q] (repeat (SwapRejected "no route") 4)
                            []))) = Some "mint")
    by (vm_compute; reflexivity).
  split; [exact Hheld|]. split; [exact Hv|]. split; [exact Hp|].
  destruct (monitor_token_ending 1 "mint" holding_bot
              (sample_world (repeat (Some (reading 5)) 27) [] [2.4%Q]
                            (repeat (SwapRejected "no route") 4) [])
              Hheld Hv) as [[Hno _]|[_ [Hnone|[_ Hn]]]].
  - discriminate.
  - rewrite Hp in Hnone. discriminate.
  - exact Hn.
Defined.

(** ** A position from BUY to SELL *)

(** A successful BUY followed, at any later state of the world, by a
    successful SELL of the same token: the position is closed and the
    cooldown runs from the time of the sale; one trade has been counted (by
    the BUY, none by the SELL); and the profit booked is the difference
    between the two quoted prices - the one fetched after the purchase and
    the one fetched after the sale - times the [ui_amount] of the balance
    reading that was sold; nothing is booked when the exit quote fails. *)
Theorem buy_then_sell_round_trip :
  forall token pm1 slip1 pm2 slip2 b w w',
    let r1 := execute_trade token BUY pm1 slip1 b w in
    let r2 := execute_trade token SELL pm2 slip2 (bot r1) w' in
    value r1 = true -> value r2 = true ->
    exists buy sell info,
      In (EvPrice token buy) (events r1) /\ ~ (buy == 0)%Q /\
      In (EvPrice token sell) (events r2) /\
      In (EvAccountInfo token (Some info)) (events r2) /\
      bot r2 =
      mk_bot (wallet_address b) (sol_mint b) None None buy
             (clock w' (ticks w') + 15)%Q (trades_executed b + 1)
             (if truthy sell then
                (total_profit b + (sell - buy) * ui_amount info)%Q
              else total_profit b).
Proof.
  intros token pm1 slip1 pm2 slip2 b w w' r1 r2 H1 H2.
  pose proof (attempts_buy_state token pm1 slip1 (range (max_retries + 1))
                b w) as Hstate.
  pose proof (attempts_buy_success token pm1 slip1 (range (max_retries + 1))
                b w) as Hquote.
  cbn zeta in Hstate, Hquote.
  unfold r2, r1 in *. clear r1 r2.
  rewrite (execute_trade_unfold token BUY) in *.
  destruct (execute_trade_attempts (range (max_retries + 1)) token BUY pm1
                                   slip1 b w) as [v1 b1 w1 e1].
  cbn [events value bot world] in *.
  destruct Hstate as (_ & Hstate & _). destruct Hquote as (Hquote & _).
  destruct (Hstate H1) as (_ & _ & buy & Hbuy & Hb1).
  destruct (Hquote H1) as (_ & Hin1 & _).
  pose proof (attempts_sell_success token pm2 slip2 (range (max_retries + 1))
                b1 w') as Hsell.
  cbn zeta in Hsell. rewrite execute_trade_unfold in *.
  destruct (execute_trade_attempts (range (max_retries + 1)) token SELL pm2
                                   slip2 b1 w') as [v2 b2 w2 e2].
  cbn [events value bot world] in *.
  destruct (Hsell H2) as (pre & w'' & info & sell & tx & _ & _ & Hver & He
                          & Hb2).
  exists buy, sell, info.
  assert (Hbp : buy_price b1 = buy) by (rewrite Hb1; reflexivity).
  split; [right; rewrite <- Hbp; exact Hin1|].
  split; [apply truthy_nonzero; exact Hbuy|].
  split.
  { right. rewrite He. apply in_or_app. right. right.
    apply in_or_app. right. cbn. auto. }
  split.
  { right. rewrite He. apply in_or_app. right. right.
    apply in_or_app. left.
    exact (verify_reads_answer token 3 b1 w'' true info Hver). }
  rewrite Hb2, Hb1. unfold sold, bought.
  destruct (truthy sell); reflexivity.
Qed.

Lemma buy_then_sell_round_trip_witness :
  exists buy sell info,
    bot (execute_trade "mint" SELL 1 2000
           (bot (execute_trade "mint" BUY 1 2000 sample_bot
                   (sample_world [] [1%Q] [3%Q] [SwapTransaction "tx"]
                                 [SendAccepted])))
           (sample_world [Some (reading 5); Some (reading 5);
                          Some (reading 5)]
                         [] [4%Q] [SwapTransaction "tx2"] [SendAccepted])) =
    mk_bot (wallet_address sample_bot) (sol_mint sample_bot) None None buy
           (clock (sample_world [Some (reading 5); Some (reading 5);
                                 Some (reading 5)]
                                [] [4%Q] [SwapTransaction "tx2"]
                                [SendAccepted]) 0 + 15)%Q
           (trades_executed sample_bot + 1)
           (if truthy sell then
              (total_profit sample_bot + (sell - buy) * ui_amount info)%Q
            else total_profit sample_bot).
Proof.
  destruct (buy_then_sell_round_trip "mint" 1 2000 1 2000 sample_bot
              (sample_world [] [1%Q] [3%Q] [SwapTransaction "tx"]
                            [SendAccepted])
              (sample_world [Some (reading 5); Some (reading 5);
                             Some (reading 5)]
                            [] [4%Q] [SwapTransaction "tx2"] [SendAccepted])
              eq_refl eq_refl)
    as (buy & sell & info & _ & _ & _ & _ & Hb).
  exists buy, sell, info. exact Hb.
Defined.

(** ** The listener *)

(** [predict_upward_movement] predicts a rise exactly when both tests pass:
    the pair names its 5-minute buys and sells, the buys are at least 1.3
    times the sells (with no sells: at least 1.3, that is two buys), and it
    names a 5-minute volume of at least 100000.  The score is 0, 1, 2 or 3,
    and only 3 predicts a rise; without the transaction counts the answer is
    [False] with a message in place of the score. *)
Theorem predict_upward_movement_threshold :
  forall p,
    (fst (Listener.predict_upward_movement p) = true <->
     exists buys sells volume,
       Listener.m5_txns p = Some (buys, sells) /\
       Listener.m5_volume p = Some volume /\
       13 * Z.max sells 1 <= 10 * buys /\
       (100000 <= volume)%Q) /\
    match snd (Listener.predict_upward_movement p) with
    | Listener.Score score =>
        0 <= score <= 3 /\
        fst (Listener.predict_upward_movement p) = (score =? 3)
    | Listener.Message text =>
        Listener.m5_txns p = None /\
        text = "Missing transaction data for m5" /\
        fst (Listener.predict_upward_movement p) = false
    end.
Proof.
  intros [txns volume]. unfold Listener.predict_upward_movement.
  cbn [Listener.m5_txns Listener.m5_volume].
  destruct txns as [[buys sells]|].
  2:{ cbn. split; [|auto]. split; [discriminate|].
      intros (? & ? & ? & H & _). discriminate. }
  assert (Hratio :
    Qle_bool 1.3
      (inject_Z buys / inject_Z (if 0 <? sells then sells else 1)) =
    (13 * Z.max sells 1 <=? 10 * buys)).
  { assert (Hd : (if 0 <? sells then sells else 1) = Z.max sells 1).
    { destruct (0 <? sells) eqn:H;
        [apply Z.ltb_lt in H|apply Z.ltb_ge in H]; lia. }
    rewrite Hd.
    destruct (Z.max sells 1) as [|d|d] eqn:Hmax; try lia.
    apply eq_true_iff_eq. rewrite Qle_bool_iff, Z.leb_le.
    unfold Qle. cbn -[Z.mul]. lia. }
  rewrite Hratio.
  destruct (13 * Z.max sells 1 <=? 10 * buys) eqn:Hr;
    [apply Z.leb_le in Hr|apply Z.leb_gt in Hr].
  - destruct volume as [v|].
    + destruct (Qle_bool 100000 v) eqn:Hv; cbn [fst snd Z.add Z.leb Z.eqb].
      * split; [|split; [lia|reflexivity]].
        split; [intros _|reflexivity].
        exists buys, sells, v. apply Qle_bool_iff in Hv. auto.
      * split; [|split; [lia|reflexivity]].
        split; [discriminate|].
        intros (b' & s' & v' & _ & Hvol & _ & Hle).
        inversion Hvol; subst v'. apply Qle_bool_iff in Hle. congruence.
    + cbn. split; [|split; [lia|reflexivity]].
      split; [discriminate|]. intros (? & ? & ? & _ & H & _). discriminate.
  - destruct volume as [v|].
    + destruct (Qle_bool 100000 v); cbn [fst snd Z.add Z.leb Z.eqb].
      * split; [|split; [lia|reflexivity]].
        split; [discriminate|].
        intros (b' & s' & v' & Ht & _ & Hle & _).
        inversion Ht; subst. lia.
      * split; [|split; [lia|reflexivity]].
        split; [discriminate|].
        intros (b' & s' & v' & Ht & _ & Hle & _).
        inversion Ht; subst. lia.
    + cbn. split; [|split; [lia|reflexivity]].
      split; [discriminate|]. intros (? & ? & ? & _ & H & _). discriminate.
Qed.

Lemma execute_trade_buy_state tok pm slip b w :
  let r := execute_trade tok BUY pm slip b w in
  trade_calls (events r) = [(tok, BUY, pm, slip)] /\
  (value r = true ->
   exists price opened,
     truthy price = true /\ bot r = bought tok price opened b) /\
  (value r = false ->
   current_position (bot r) = current_position b /\
   position_open_time (bot r) = position_open_time b /\
   trades_executed (bot r) = trades_executed b).
Proof.
  pose proof (execute_trade_stats tok BUY pm slip b w) as Hs.
  cbn zeta in Hs |- *. destruct Hs as (_ & _ & Hcalls).
  split; [exact Hcalls|]. clear Hcalls.
  rewrite execute_trade_unfold.
  pose proof (attempts_buy_state tok pm slip (range (max_retries + 1)) b w)
    as H.
  cbn zeta in H.
  destruct (execute_trade_attempts (range (max_retries + 1)) tok BUY pm slip
                                   b w) as [v b1 w1 e1].
  cbn [value bot world events] in H |- *.
  destruct H as (_ & Htrue & Hfalse). split.
  - intros Hv. destruct (Htrue Hv) as (_ & _ & price & Hp & Hb).
    exists price, (clock w (pred (ticks w1))). auto.
  - intros Hv.
    destruct (Hfalse Hv) as [->|(price & tx & _ & -> & _)]; cbn; auto.
Qed.

Lemma calls_app l1 l2 :
  Listener.calls (l1 ++ l2) = Listener.calls l1 ++ Listener.calls l2.
Proof. unfold Listener.calls. apply flat_map_app. Qed.

Lemma spawned_app l1 l2 :
  Listener.spawned (l1 ++ l2) = Listener.spawned l1 ++ Listener.spawned l2.
Proof. unfold Listener.spawned. apply flat_map_app. Qed.

Lemma calls_bot evs :
  Listener.calls (map Listener.Bot evs) = trade_calls evs.
Proof.
  unfold Listener.calls, trade_calls.
  induction evs as [|e evs IH]; [reflexivity|].
  cbn [map flat_map]. rewrite IH. destruct e; reflexivity.
Qed.

Lemma spawned_bot evs : Listener.spawned (map Listener.Bot evs) = [].
Proof. induction evs as [|e evs IH]; [reflexivity|exact IH]. Qed.

Lemma blacklist_add_keeps t u l :
  Listener.blacklisted t l = true ->
  Listener.blacklisted t (Listener.blacklist_add u l) = true.
Proof.
  unfold Listener.blacklist_add. intros H.
  destruct (Listener.blacklisted u l); [exact H|].
  unfold Listener.blacklisted in *. cbn [existsb]. rewrite H.
  apply orb_true_r.
Qed.

Lemma blacklist_add_has t l :
  Listener.blacklisted t (Listener.blacklist_add t l) = true.
Proof.
  unfold Listener.blacklist_add.
  destruct (Listener.blacklisted t l) eqn:H; [exact H|].
  unfold Listener.blacklisted. cbn [existsb].
  rewrite String.eqb_refl. reflexivity.
Qed.

Lemma trade_spec tok s :
  let r := Listener.trade tok s in
  let o := fst r in
  Listener.calls (Listener.trace o) = [(tok, BUY, 1%Q, 2000)] /\
  Listener.feeds (Listener.final o) = Listener.feeds s /\
  (forall e, In e (Listener.trace o) ->
             (exists e', e = Listener.Bot e') \/
             e = Listener.SpawnMonitor tok) /\
  if snd r then
    Listener.spawned (Listener.trace o) = [tok] /\
    Listener.blacklisted_tokens (Listener.final o) =
    Listener.blacklist_add tok (Listener.blacklisted_tokens s) /\
    exists price opened,
      truthy price = true /\
      Listener.trader (Listener.final o) =
      bought tok price opened (Listener.trader s)
  else
    Listener.spawned (Listener.trace o) = [] /\
    Listener.blacklisted_tokens (Listener.final o) =
    Listener.blacklisted_tokens s /\
    current_position (Listener.trader (Listener.final o)) =
    current_position (Listener.trader s) /\
    position_open_time (Listener.trader (Listener.final o)) =
    position_open_time (Listener.trader s) /\
    trades_executed (Listener.trader (Listener.final o)) =
    trades_executed (Listener.trader s).
Proof.
  unfold Listener.trade.
  pose proof (execute_trade_buy_state tok 1%Q 2000 (Listener.trader s)
                (Listener.outside s)) as H.
  cbn zeta in H |- *.
  destruct (execute_trade tok BUY 1 2000 (Listener.trader s)
                          (Listener.outside s)) as [[|] b w evs];
    cbn [value bot events fst snd Listener.final Listener.trace
         Listener.trader Listener.blacklisted_tokens Listener.feeds] in *;
    destruct H as (Hcalls & Htrue & Hfalse).
  - rewrite calls_app, spawned_app, calls_bot, spawned_bot, Hcalls.
    split; [reflexivity|]. split; [reflexivity|]. split.
    { intros e Hin. apply in_app_or in Hin. destruct Hin as [Hin|[<-|[]]].
      - apply in_map_iff in Hin. destruct Hin as (e' & <- & _).
        left. exists e'. reflexivity.
      - right. reflexivity. }
    split; [reflexivity|]. split; [reflexivity|].
    destruct (Htrue eq_refl) as (price & opened & Hp & ->).
    exists price, opened. split; [exact Hp|reflexivity].
  - rewrite calls_bot, spawned_bot, Hcalls.
    split; [reflexivity|]. split; [reflexivity|]. split.
    { intros e Hin. apply in_map_iff in Hin. destruct Hin as (e' & <- & _).
      left. exists e'. reflexivity. }
    split; [reflexivity|]. split; [reflexivity|]. exact (Hfalse eq_refl).
Qed.

Lemma market_cap_in_range cap :
  Qlt_bool 40000000 cap || Qlt_bool cap 500000 = false ->
  (500000 <= cap)%Q /\ (cap <= 40000000)%Q.
Proof.
  intros H. apply orb_false_iff in H. destruct H as [H1 H2].
  unfold Qlt_bool in *. apply negb_false_iff in H1, H2.
  apply Qle_bool_iff in H1, H2. auto.
Qed.

Lemma evaluate_spec top s :
  let tok := Listener.address top in
  let r := Listener.evaluate top s in
  let o := fst r in
  let tr := Listener.trace o in
  (Listener.calls tr = [] \/
   (Listener.calls tr = [(tok, BUY, 1%Q, 2000)] /\
    Listener.blacklisted tok (Listener.blacklisted_tokens s) = false /\
    exists cap first rest,
      In (Listener.MarketCap tok (Some cap)) tr /\
      (500000 <= cap)%Q /\ (cap <= 40000000)%Q /\
      In (Listener.PairData tok (Listener.Pairs (first :: rest))) tr /\
      fst (Listener.predict_upward_movement first) = true)) /\
  if snd r then
    Listener.spawned tr = [tok] /\
    Listener.calls tr = [(tok, BUY, 1%Q, 2000)] /\
    Listener.blacklisted tok (Listener.blacklisted_tokens s) = false /\
    Listener.blacklisted_tokens (Listener.final o) =
    Listener.blacklist_add tok (Listener.blacklisted_tokens s) /\
    exists price opened,
      truthy price = true /\
      Listener.trader (Listener.final o) =
      bought tok price opened (Listener.trader s)
  else
    Listener.spawned tr = [] /\
    Listener.blacklisted_tokens (Listener.final o) =
    Listener.blacklisted_tokens s /\
    current_position (Listener.trader (Listener.final o)) =
    current_position (Listener.trader s) /\
    position_open_time (Listener.trader (Listener.final o)) =
    position_open_time (Listener.trader s) /\
    trades_executed (Listener.trader (Listener.final o)) =
    trades_executed (Listener.trader s).
Proof.
  cbn zeta. unfold Listener.evaluate.
  destruct (Listener.blacklisted (Listener.address top)
                                 (Listener.blacklisted_tokens s)) eqn:Hbl;
    [cbn; auto 10|].
  unfold Listener.fetch_usd_market_cap.
  destruct (pop None (Listener.market_caps (Listener.feeds s)))
    as [[cap|] caps]; [|cbn; auto 10].
  destruct (Qlt_bool 40000000 cap || Qlt_bool cap 500000) eqn:Hcap;
    [cbn; auto 10|].
  apply market_cap_in_range in Hcap. destruct Hcap as [Hlow Hhigh].
  unfold Listener.fetch_pair_data.
  cbn [Listener.feeds Listener.pair_data Listener.trader Listener.outside
       Listener.blacklisted_tokens Listener.trending Listener.market_caps].
  destruct (pop Listener.PairFailure (Listener.pair_data (Listener.feeds s)))
    as [[|[|first rest]] pairs]; [cbn; auto 10|cbn; auto 10|].
  destruct (Listener.predict_upward_movement first) as [[|] score] eqn:Hpred;
    cbn [negb]; [|cbn; auto 10].
  match goal with
  | |- context [Listener.trade ?t ?st] =>
      pose proof (trade_spec t st) as Ht;
      destruct (Listener.trade t st) as [o left]
  end.
  cbn zeta in Ht.
  cbn [fst snd Listener.final Listener.trace Listener.trader
       Listener.blacklisted_tokens Listener.feeds] in Ht |- *.
  destruct Ht as (Hcalls & _ & _ & Hout).
  rewrite calls_app, spawned_app, Hcalls. cbn [Listener.calls flat_map app].
  split.
  - right. split; [reflexivity|]. split; [reflexivity|].
    exists cap, first, rest. rewrite Hpred.
    repeat split; auto; cbn; auto 10.
  - destruct left; cbn [Listener.spawned flat_map app].
    + destruct Hout as (Hs & Hb & Hp). rewrite Hs.
      split; [reflexivity|]. split; [reflexivity|]. split; [reflexivity|].
      split; [exact Hb|]. exact Hp.
    + destruct Hout as (Hs & Hb & Hp). rewrite Hs.
      split; [reflexivity|]. split; [exact Hb|]. exact Hp.
Qed.

Lemma listen_round_spec s :
  let o := Listener.listen_round s in
  let tr := Listener.trace o in
  (Listener.calls tr = [] \/
   (position_held (current_position (Listener.trader s)) = false /\
    exists tokens top cap first rest,
      Listener.calls tr = [(Listener.address top, BUY, 1%Q, 2000)] /\
      In (Listener.Trending tokens) tr /\ hd_error tokens = Some top /\
      Listener.blacklisted (Listener.address top)
                           (Listener.blacklisted_tokens s) = false /\
      In (Listener.MarketCap (Listener.address top) (Some cap)) tr /\
      (500000 <= cap)%Q /\ (cap <= 40000000)%Q /\
      In (Listener.PairData (Listener.address top)
                            (Listener.Pairs (first :: rest))) tr /\
      fst (Listener.predict_upward_movement first) = true)) /\
  ((Listener.spawned tr = [] /\
    Listener.blacklisted_tokens (Listener.final o) =
    Listener.blacklisted_tokens s /\
    current_position (Listener.trader (Listener.final o)) =
    current_position (Listener.trader s) /\
    position_open_time (Listener.trader (Listener.final o)) =
    position_open_time (Listener.trader s) /\
    trades_executed (Listener.trader (Listener.final o)) =
    trades_executed (Listener.trader s)) \/
   (exists tok price opened,
       Listener.spawned tr = [tok] /\
       Listener.calls tr = [(tok, BUY, 1%Q, 2000)] /\
       Listener.blacklisted tok (Listener.blacklisted_tokens s) = false /\
       Listener.blacklisted_tokens (Listener.final o) =
       Listener.blacklist_add tok (Listener.blacklisted_tokens s) /\
       truthy price = true /\
       Listener.trader (Listener.final o) =
       bought tok price opened (Listener.trader s))).
Proof.
  cbn zeta. unfold Listener.listen_round.
  destruct (position_held (current_position (Listener.trader s))) eqn:Hheld;
    [cbn; auto 10|].
  unfold Listener.get_trending_tokens.
  destruct (pop [] (Listener.trending (Listener.feeds s)))
    as [[|top others] later]; [cbn; auto 10|].
  cbn [firstn Listener.evaluate_tokens].
  match goal with
  | |- context [Listener.evaluate top ?st] =>
      pose proof (evaluate_spec top st) as He;
      destruct (Listener.evaluate top st) as [o left]
  end.
  cbn zeta in He.
  cbn [fst snd Listener.final Listener.trace Listener.trader
       Listener.blacklisted_tokens Listener.feeds] in He.
  destruct He as [Hgate Hout].
  assert (Htr : forall tr,
             Listener.calls (Listener.Trending (top :: others)
                             :: tr ++ [Listener.Sleep 10]) =
             Listener.calls tr /\
             Listener.spawned (Listener.Trending (top :: others)
                               :: tr ++ [Listener.Sleep 10]) =
             Listener.spawned tr).
  { intros tr.
    change (Listener.Trending (top :: others) :: tr ++ [Listener.Sleep 10])
      with ([Listener.Trending (top :: others)]
              ++ tr ++ [Listener.Sleep 10]).
    rewrite !calls_app, !spawned_app. cbn. rewrite !app_nil_r. auto. }
  assert (Hfinal :
    let o' := if left then o
              else Listener.mk_outcome (Listener.final o)
                                       (Listener.trace o ++ []) in
    Listener.final o' = Listener.final o /\
    Listener.calls (Listener.trace o') = Listener.calls (Listener.trace o) /\
    Listener.spawned (Listener.trace o') =
    Listener.spawned (Listener.trace o) /\
    forall e, In e (Listener.trace o) -> In e (Listener.trace o')).
  { destruct left; cbn; rewrite ?app_nil_r; auto. }
  cbn zeta in Hfinal. destruct Hfinal as (Hf & Hc & Hs & Hin).
  cbn [Listener.final Listener.trace].
  destruct (Htr (Listener.trace
                   (if left then o
                    else Listener.mk_outcome (Listener.final o)
                           (Listener.trace o ++ [])))) as [-> ->].
  rewrite Hf, Hc, Hs. split.
  - destruct Hgate as [Hnone|(Hcall & Hbl & cap & first & rest & Hcap & Hlow
                              & Hhigh & Hpair & Hpred)];
      [left; exact Hnone|right].
    split; [reflexivity|].
    exists (top :: others), top, cap, first, rest.
    split; [exact Hcall|]. split; [left; reflexivity|].
    split; [reflexivity|]. split; [exact Hbl|].
    split; [right; apply in_or_app; left; apply Hin; exact Hcap|].
    split; [exact Hlow|]. split; [exact Hhigh|].
    split; [right; apply in_or_app; left; apply Hin; exact Hpair|].
    exact Hpred.
  - destruct left.
    + right. destruct Hout as (Hsp & Hcall & Hbl & Hadd & price & opened
                               & Hp & Hb).
      exists (Listener.address top), price, opened. auto 10.
    + left. exact Hout.
Qed.

Lemma in_calls tr token action pm slip :
  In (Listener.Bot (EvCall token action pm slip)) tr <->
  In (token, action, pm, slip) (Listener.calls tr).
Proof.
  unfold Listener.calls. rewrite in_flat_map. split.
  - intros H. eexists. split; [exact H|]. left. reflexivity.
  - intros (e & Hin & He).
    destruct e as [| | |[]| | |]; cbn in He; try contradiction.
    destruct He as [He|[]]. inversion He; subst. exact Hin.
Qed.

Lemma in_spawned tr token :
  In (Listener.SpawnMonitor token) tr <-> In token (Listener.spawned tr).
Proof.
  unfold Listener.spawned. rewrite in_flat_map. split.
  - intros H. eexists. split; [exact H|]. left. reflexivity.
  - intros (e & Hin & He).
    destruct e; cbn in He; try contradiction.
    destruct He as [He|[]]. subst. exact Hin.
Qed.

(** The listener calls [execute_trade] at most once per pass, and only
    through every gate: no position is held; the call is a BUY, with the
    default tuning, of the first token the scanner named; that token is not
    on the blacklist; its market cap was obtained and lies between 500000
    and 40000000; and the first pair of its pair data predicts a rise. *)
Theorem listen_round_buy_gate :
  forall s token action pm slip,
    let tr := Listener.trace (Listener.listen_round s) in
    In (Listener.Bot (EvCall token action pm slip)) tr ->
    Listener.calls tr = [(token, BUY, 1%Q, 2000)] /\
    action = BUY /\ pm = 1%Q /\ slip = 2000 /\
    position_held (current_position (Listener.trader s)) = false /\
    Listener.blacklisted token (Listener.blacklisted_tokens s) = false /\
    exists tokens top cap first rest,
      In (Listener.Trending tokens) tr /\
      hd_error tokens = Some top /\ Listener.address top = token /\
      In (Listener.MarketCap token (Some cap)) tr /\
      (500000 <= cap)%Q /\ (cap <= 40000000)%Q /\
      In (Listener.PairData token (Listener.Pairs (first :: rest))) tr /\
      fst (Listener.predict_upward_movement first) = true.
Proof.
  intros s token action pm slip tr Hin. unfold tr in *. clear tr.
  apply in_calls in Hin.
  destruct (listen_round_spec s) as [Hgate _]. cbn zeta in Hgate.
  destruct Hgate as [Hnone|(Hheld & tokens & top & cap & first & rest & Hcall
                            & Htr & Hhd & Hbl & Hcap & Hlow & Hhigh & Hpair
                            & Hpred)].
  - rewrite Hnone in Hin. destruct Hin.
  - rewrite Hcall in Hin. destruct Hin as [Heq|[]].
    inversion Heq; subst. split; [exact Hcall|].
    do 3 (split; [reflexivity|]). split; [exact Hheld|].
    split; [exact Hbl|].
    exists tokens, top, cap, first, rest. auto 10.
Qed.

Lemma listen_round_buy_gate_witness :
  In (Listener.Bot (EvCall "mint" BUY 1 2000))
     (Listener.trace (Listener.listen_round sample_state)) /\
  Listener.calls (Listener.trace (Listener.listen_round sample_state)) =
  [("mint", BUY, 1%Q, 2000)].
Proof.
  assert (H : In (Listener.Bot (EvCall "mint" BUY 1 2000))
                 (Listener.trace (Listener.listen_round sample_state))).
  { vm_compute. auto 10. }
  split; [exact H|].
  exact (proj1 (listen_round_buy_gate sample_state "mint" BUY 1%Q 2000 H)).
Defined.


Lemma listen_rounds_spec others : forall s,
  let o := Listener.listen_for_events others s in
  let tr := Listener.trace o in
  NoDup (Listener.spawned tr) /\
  (forall t, In t (Listener.spawned tr) ->
             Listener.blacklisted t (Listener.blacklisted_tokens s) = false /\
             Listener.blacklisted t
               (Listener.blacklisted_tokens (Listener.final o)) = true) /\
  (forall t, Listener.blacklisted t (Listener.blacklisted_tokens s) = true ->
             Listener.blacklisted t
               (Listener.blacklisted_tokens (Listener.final o)) = true) /\
  (List.length (Listener.calls tr) <= List.length others)%nat.
Proof.
  induction others as [|meanwhile later IH]; intros s.
  - cbn. split; [constructor|]. split; [intros t []|]. split; [auto|lia].
  - cbn zeta. cbn [Listener.listen_for_events].
    destruct (listen_round_spec s) as [Hgate Hout]. cbn zeta in Hgate, Hout.
    destruct (meanwhile
                (Listener.trader (Listener.final (Listener.listen_round s)),
                 Listener.outside (Listener.final (Listener.listen_round s))))
      as [b w].
    match goal with
    | |- context [Listener.listen_for_events later ?st] =>
        specialize (IH st); cbn zeta in IH;
        destruct (Listener.listen_for_events later st) as [s2 tr2]
    end.
    cbn [Listener.final Listener.trace Listener.blacklisted_tokens] in IH |- *.
    destruct IH as (Hnd & Hnew & Hkeep & Hlen).
    rewrite spawned_app, calls_app, length_app.
    assert (Hcalls : (List.length
                        (Listener.calls
                           (Listener.trace (Listener.listen_round s)))
                      <= 1)%nat).
    { destruct Hgate as [->|(_ & ? & ? & ? & ? & ? & -> & _)]; cbn; lia. }
    cbn [List.length].
    destruct Hout as [(Hsp & Hbl & _)|(tok & price & opened & Hsp & _ & Hbl
                                       & Hadd & _)];
      rewrite Hsp; cbn [app].
    + rewrite Hbl in *. split; [exact Hnd|]. split; [exact Hnew|].
      split; [exact Hkeep|lia].
    + rewrite Hadd in *. split.
      { constructor; [|exact Hnd]. intros Hin.
        destruct (Hnew tok Hin) as [Hfresh _].
        rewrite blacklist_add_has in Hfresh. discriminate. }
      split.
      { intros t [<-|Hin].
        - split; [exact Hbl|]. apply Hkeep. apply blacklist_add_has.
        - destruct (Hnew t Hin) as [Hfresh Hthen]. split; [|exact Hthen].
          destruct (Listener.blacklisted t (Listener.blacklisted_tokens s))
            eqn:Ht; [|reflexivity].
          rewrite (blacklist_add_keeps t tok _ Ht) in Hfresh.
          discriminate. }
      split; [|lia].
      intros t Ht. apply Hkeep. apply blacklist_add_keeps. exact Ht.
Qed.

(** Over any number of passes, whatever the other tasks do to the bot and
    to the world in between: no token gets a second monitor - the tokens the
    listener bought are pairwise distinct, none of them was on the blacklist
    at the start and all are at the end; the blacklist never loses a token;
    and there are at most as many calls of [execute_trade] as passes. *)
Theorem listen_for_events_buys_once :
  forall others s,
    let o := Listener.listen_for_events others s in
    let tr := Listener.trace o in
    NoDup (Listener.spawned tr) /\
    (forall t, In (Listener.SpawnMonitor t) tr ->
               Listener.blacklisted t (Listener.blacklisted_tokens s)
               = false /\
               Listener.blacklisted t
                 (Listener.blacklisted_tokens (Listener.final o)) = true) /\
    (forall t, Listener.blacklisted t (Listener.blacklisted_tokens s)
               = true ->
               Listener.blacklisted t
                 (Listener.blacklisted_tokens (Listener.final o)) = true) /\
    (List.length (Listener.calls tr) <= List.length others)%nat.
Proof.
  intros others s. cbn zeta.
  destruct (listen_rounds_spec others s) as (Hnd & Hnew & Hkeep & Hlen).
  split; [exact Hnd|]. split; [|split; [exact Hkeep|exact Hlen]].
  intros t Hin. apply Hnew. apply in_spawned. exact Hin.
Qed.
